(** * Chat-SD: room membership and message distribution

    A shallow embedding of [app.py] and [db.py] (Flask + Flask-SocketIO +
    MySQL) and the properties of its room handlers.

    - Python [str] values are lists of code points; the character tables of
      the Python runtime ([str.isdigit], [str.isspace], [str.upper],
      [str.lower], the digits [int()] reads) are a parameter, pinned on ASCII.
    - The MySQL string comparison ([utf8mb4_unicode_ci], see [db.py]) is a
      parameter too; only its reflexivity is used.
    - A handler is a computation over a [World]: the connection of the
      request with its pending writes, the committed database, the events
      given to Socket.IO, the flashed messages, the Socket.IO room registry,
      the text of the SQL statements sent, and the sources of time and
      randomness.
    - One request runs at a time.  Of the schema, which is not among the
      sources, the AUTO_INCREMENT ids and the cascade of the deletion of a
      room are modelled; where a statement needs a primary key it says so.

    The file has the embedding first, then the definitions the statements
    use, then the lemmas and theorems, by handler. *)

From Stdlib Require Import ZArith NArith List String Ascii Bool Lia.
From Stdlib Require Import Permutation Sorted DecimalString DecimalZ.
Import ListNotations.

Set Implicit Arguments.

Local Open Scope Z_scope.

(** ** Python strings *)

Module PyStr.

(** A Python [str]: a sequence of Unicode code points. *)
Definition str := list N.

(** A literal of the source, character by character. *)
Definition lit (s : string) : str := map N_of_ascii (list_ascii_of_string s).

(** [a == b] on strings. *)
Fixpoint str_eqb (a b : str) : bool :=
  match a, b with
  | [], [] => true
  | x :: a', y :: b' => N.eqb x y && str_eqb a' b'
  | _, _ => false
  end.

Definition es_ascii (c : N) : Prop := (c < 128)%N.

Definition ascii_isdigit (c : N) : bool := (48 <=? c)%N && (c <=? 57)%N.

(** The ASCII characters [str.isspace] accepts: TAB LF VT FF CR, the four
    separators FS GS RS US, and the space. *)
Definition ascii_isspace (c : N) : bool :=
  ((9 <=? c)%N && (c <=? 13)%N) || ((28 <=? c)%N && (c <=? 32)%N).

Definition ascii_upper (c : N) : N :=
  if (97 <=? c)%N && (c <=? 122)%N then (c - 32)%N else c.

Definition ascii_lower (c : N) : N :=
  if (65 <=? c)%N && (c <=? 90)%N then (c + 32)%N else c.

Definition ascii_decimal (c : N) : option Z :=
  if ascii_isdigit c then Some (Z.of_N c - 48) else None.

(** The character tables of the Python runtime.  They are not part of the
    repository; what they do on ASCII is fixed, the rest is left open, so a
    theorem below holds for every version of the Unicode database. *)
Record Unicode : Type := {
  uc_isspace : N -> bool;
  uc_isdigit : N -> bool;
  uc_decimal : N -> option Z;
  uc_upper : str -> str;
  uc_lower : str -> str;
  uc_isspace_ascii : forall c, es_ascii c -> uc_isspace c = ascii_isspace c;
  uc_isdigit_ascii : forall c, es_ascii c -> uc_isdigit c = ascii_isdigit c;
  uc_decimal_ascii : forall c, es_ascii c -> uc_decimal c = ascii_decimal c;
  uc_upper_ascii : forall s, Forall es_ascii s -> uc_upper s = map ascii_upper s;
  uc_lower_ascii : forall s, Forall es_ascii s -> uc_lower s = map ascii_lower s
}.

(** The tables cut down to ASCII: no other character is a digit or a space
    or has a case.  It agrees with CPython on ASCII text, and serves to
    evaluate the handlers on ASCII inputs. *)
Definition tabla_ascii : Unicode.
Proof.
  refine {| uc_isspace := ascii_isspace;
            uc_isdigit := ascii_isdigit;
            uc_decimal := ascii_decimal;
            uc_upper := map ascii_upper;
            uc_lower := map ascii_lower |}; reflexivity.
Defined.

(** The tables of [tabla_ascii] with the superscript digits of Latin-1
    (U+00B2, U+00B3, U+00B9): [str.isdigit] accepts them, and [int()] does
    not read them. *)
Definition es_superindice (c : N) : bool :=
  N.eqb c 178 || N.eqb c 179 || N.eqb c 185.

Definition tabla_superindices : Unicode.
Proof.
  refine {| uc_isspace := ascii_isspace;
            uc_isdigit := fun c => ascii_isdigit c || es_superindice c;
            uc_decimal := ascii_decimal;
            uc_upper := map ascii_upper;
            uc_lower := map ascii_lower |}; try reflexivity.
  intros c Hc. unfold es_ascii in Hc. unfold es_superindice.
  destruct (N.eqb_spec c 178); [lia|].
  destruct (N.eqb_spec c 179); [lia|].
  destruct (N.eqb_spec c 185); [lia|].
  apply orb_false_r.
Defined.

Section Ops.
Variable U : Unicode.

Fixpoint lstrip (s : str) : str :=
  match s with
  | c :: s' => if uc_isspace U c then lstrip s' else s
  | [] => []
  end.

Definition rstrip (s : str) : str := rev (lstrip (rev s)).

(** [s.strip()] *)
Definition strip (s : str) : str := rstrip (lstrip s).

(** [s.isdigit()]: at least one character, and every character a digit. *)
Definition isdigit (s : str) : bool :=
  match s with
  | [] => false
  | _ => forallb (uc_isdigit U) s
  end.

Definition upper (s : str) : str := uc_upper U s.
Definition lower (s : str) : str := uc_lower U s.

Fixpoint int_digits (acc : Z) (s : str) : option Z :=
  match s with
  | [] => Some acc
  | c :: s' =>
      match uc_decimal U c with
      | Some d => int_digits (10 * acc + d) s'
      | None => None
      end
  end.

(** [int(s)] for a string [s] that passed [s.isdigit()], the only strings the
    handlers give it: the value in base ten when every character is a decimal
    digit, and [None] for the [ValueError] otherwise (a superscript digit is
    a digit for [isdigit] and not for [int]). *)
Definition py_int (s : str) : option Z :=
  match s with
  | [] => None
  | _ => int_digits 0 s
  end.

End Ops.

(** [sep in s] for a one-character [sep]. *)
Definition contiene (sep : N) (s : str) : bool := existsb (N.eqb sep) s.

(** The split of [s] at its last [sep]: what stands before and after. *)
Fixpoint rsplit_aux (sep : N) (s : str) : option (str * str) :=
  match s with
  | [] => None
  | c :: s' =>
      match rsplit_aux sep s' with
      | Some (a, b) => Some (c :: a, b)
      | None => if N.eqb c sep then Some ([], s') else None
      end
  end.

(** [s.rsplit(sep, 1)] for a one-character [sep]. *)
Definition rsplit1 (sep : N) (s : str) : list str :=
  match rsplit_aux sep s with
  | Some (a, b) => [a; b]
  | None => [s]
  end.

(** [s.endswith(suf)] *)
Definition endswith (s suf : str) : bool :=
  (List.length suf <=? List.length s)%nat
  && str_eqb (skipn (List.length s - List.length suf)%nat s) suf.

(** [str(z)] for an [int]. *)
Definition str_of_int (z : Z) : str := lit (NilEmpty.string_of_int (Z.to_int z)).

Definition punto : N := 46.

End PyStr.
Import PyStr.

(** ** The database

    The tables and columns are the ones the SQL statements of [app.py] name.
    A timestamp is a number; a blob is a list of bytes. *)

Definition fecha := Z.
Definition bytes := list Byte.byte.

Record Usuario : Type := {
  usr_id_usuario : Z;
  usr_usuario : str;
  usr_contrasena : str
}.

Record Sala : Type := {
  sala_id_sala : Z;
  sala_codigo : str;
  sala_nombre_sala : str;
  sala_id_creador : Z;
  sala_fecha_creacion : fecha
}.

Record Miembro : Type := {
  mie_id : Z;
  mie_id_sala : Z;
  mie_id_usuario : Z;
  mie_fecha_union : fecha
}.

(** [men_id_emisor = None] is the SQL NULL of a system notice; [men_es_sistema]
    is the 0/1 column; every INSERT of [app.py] gives [contenido] a string. *)
Record Mensaje : Type := {
  men_id_mensaje : Z;
  men_id_sala : Z;
  men_id_emisor : option Z;
  men_contenido : str;
  men_fecha_envio : fecha;
  men_es_sistema : bool;
  men_tipo_archivo : option str;
  men_archivo_datos : option bytes
}.

(** Modelled from the spec: the schema (the CREATE TABLE statements) is not
    among the sources.  The spec has each id "generated by storage" and the
    message id "monotonically increasing", and [app.py] reads [cur.lastrowid]
    after an INSERT: a table is its rows, in insertion order, with the next id
    of its AUTO_INCREMENT column. *)
Record Tabla (F : Type) : Type := {
  filas : list F;
  auto_increment : Z
}.

Record DB : Type := {
  Usuarios : Tabla Usuario;
  Salas : Tabla Sala;
  Miembros_Sala : Tabla Miembro;
  Mensajes_Sala : Tabla Mensaje
}.

Definition con_Salas (t : Tabla Sala) (db : DB) : DB :=
  {| Usuarios := Usuarios db; Salas := t;
     Miembros_Sala := Miembros_Sala db; Mensajes_Sala := Mensajes_Sala db |}.

Definition con_Miembros_Sala (t : Tabla Miembro) (db : DB) : DB :=
  {| Usuarios := Usuarios db; Salas := Salas db;
     Miembros_Sala := t; Mensajes_Sala := Mensajes_Sala db |}.

Definition con_Mensajes_Sala (t : Tabla Mensaje) (db : DB) : DB :=
  {| Usuarios := Usuarios db; Salas := Salas db;
     Miembros_Sala := Miembros_Sala db; Mensajes_Sala := t |}.

(** An INSERT: the row takes the next id, which is also [cur.lastrowid]. *)
Definition insertar (F : Type) (fila : Z -> F) (t : Tabla F) : Tabla F * Z :=
  ({| filas := filas t ++ [fila (auto_increment t)];
      auto_increment := auto_increment t + 1 |},
   auto_increment t).

(** A DELETE ... WHERE: the rows that match go; the counter stays. *)
Definition borrar (F : Type) (donde : F -> bool) (t : Tabla F) : Tabla F :=
  {| filas := filter (fun f => negb (donde f)) (filas t);
     auto_increment := auto_increment t |}.

(** The string comparison of the database (collation [utf8mb4_unicode_ci]
    in [db.py]), of which only reflexivity is assumed. *)
Record Collation : Type := {
  col_eq : str -> str -> bool;
  col_eq_refl : forall s, col_eq s s = true
}.

(** The comparison that tells two strings apart exactly when they differ. *)
Definition col_exacta : Collation.
Proof.
  refine {| col_eq := str_eqb |}.
  intro s. induction s as [|c s IH]; simpl; [reflexivity|].
  now rewrite N.eqb_refl, IH.
Defined.

(** ** The world of a request *)

(** A value of the JSON object a Socket.IO client sends.  [PyOtro] is a
    float, an array or an object, with its text under [str()] and its truth
    value. *)
Inductive PyVal : Type :=
| PyNone
| PyBool (b : bool)
| PyInt (z : Z)
| PyStr (s : str)
| PyOtro (texto : str) (verdad : bool).

(** The values of an event's payload: [VIso f] is [f.isoformat() + "Z"],
    [VPy v] a value of the client handed back as it came. *)
Inductive Valor : Type :=
| VInt (z : Z)
| VStr (s : str)
| VIso (f : fecha)
| VPy (v : PyVal).

(** [emit(nombre, datos, to=destino)] *)
Record Evento : Type := {
  ev_nombre : string;
  ev_datos : list (string * Valor);
  ev_to : str
}.

(** What a request can read and change.  [conexion] is the database as the
    connection of the request sees it ([autocommit=False]: with its writes
    not yet committed); [confirmada] is the committed database.  [sio_rooms]
    is the room registry of Socket.IO: the pairs (connection id, room).
    [sql_log] is the text of the statements the cursors were given, in
    order (runs of blanks written as one space). *)
Record World : Type := {
  conexion : DB;
  confirmada : DB;
  emitidos : list Evento;
  flashes : list string;
  sio_rooms : list (Z * str);
  sql_log : list string;
  utc_src : nat -> fecha;
  utc_pos : nat;
  rnd_src : nat -> nat;
  rnd_pos : nat
}.

Definition con_conexion (db : DB) (w : World) : World :=
  {| conexion := db; confirmada := confirmada w; emitidos := emitidos w;
     flashes := flashes w; sio_rooms := sio_rooms w; sql_log := sql_log w;
     utc_src := utc_src w; utc_pos := utc_pos w;
     rnd_src := rnd_src w; rnd_pos := rnd_pos w |}.

Definition con_confirmada (db : DB) (w : World) : World :=
  {| conexion := conexion w; confirmada := db; emitidos := emitidos w;
     flashes := flashes w; sio_rooms := sio_rooms w; sql_log := sql_log w;
     utc_src := utc_src w; utc_pos := utc_pos w;
     rnd_src := rnd_src w; rnd_pos := rnd_pos w |}.

Definition con_emitidos (l : list Evento) (w : World) : World :=
  {| conexion := conexion w; confirmada := confirmada w; emitidos := l;
     flashes := flashes w; sio_rooms := sio_rooms w; sql_log := sql_log w;
     utc_src := utc_src w; utc_pos := utc_pos w;
     rnd_src := rnd_src w; rnd_pos := rnd_pos w |}.

Definition con_flashes (l : list string) (w : World) : World :=
  {| conexion := conexion w; confirmada := confirmada w; emitidos := emitidos w;
     flashes := l; sio_rooms := sio_rooms w; sql_log := sql_log w;
     utc_src := utc_src w; utc_pos := utc_pos w;
     rnd_src := rnd_src w; rnd_pos := rnd_pos w |}.

Definition con_sio_rooms (l : list (Z * str)) (w : World) : World :=
  {| conexion := conexion w; confirmada := confirmada w; emitidos := emitidos w;
     flashes := flashes w; sio_rooms := l; sql_log := sql_log w;
     utc_src := utc_src w; utc_pos := utc_pos w;
     rnd_src := rnd_src w; rnd_pos := rnd_pos w |}.

Definition con_sql_log (l : list string) (w : World) : World :=
  {| conexion := conexion w; confirmada := confirmada w; emitidos := emitidos w;
     flashes := flashes w; sio_rooms := sio_rooms w; sql_log := l;
     utc_src := utc_src w; utc_pos := utc_pos w;
     rnd_src := rnd_src w; rnd_pos := rnd_pos w |}.

Definition con_utc_pos (n : nat) (w : World) : World :=
  {| conexion := conexion w; confirmada := confirmada w; emitidos := emitidos w;
     flashes := flashes w; sio_rooms := sio_rooms w; sql_log := sql_log w;
     utc_src := utc_src w; utc_pos := n;
     rnd_src := rnd_src w; rnd_pos := rnd_pos w |}.

Definition con_rnd_pos (n : nat) (w : World) : World :=
  {| conexion := conexion w; confirmada := confirmada w; emitidos := emitidos w;
     flashes := flashes w; sio_rooms := sio_rooms w; sql_log := sql_log w;
     utc_src := utc_src w; utc_pos := utc_pos w;
     rnd_src := rnd_src w; rnd_pos := n |}.

(** ** The monad of a handler: state, exceptions, and fuel for [while True] *)

Inductive Excepcion : Type :=
| ValueError
| KeyError
| IndexError
| AttributeError
| TypeError.

Inductive Resultado (A : Type) : Type :=
| Ret (a : A)
| Raise (e : Excepcion)
| Agotado.

Arguments Raise {A} e.
Arguments Agotado {A}.

Definition M (A : Type) : Type := World -> Resultado A * World.

Definition ret (A : Type) (a : A) : M A := fun w => (Ret a, w).

Definition raise (A : Type) (e : Excepcion) : M A := fun w => (Raise e, w).

Definition bind (A B : Type) (m : M A) (k : A -> M B) : M B :=
  fun w =>
    match m w with
    | (Ret a, w') => k a w'
    | (Raise e, w') => (Raise e, w')
    | (Agotado, w') => (Agotado, w')
    end.

Arguments raise {A} e.

Declare Scope py_scope.
Delimit Scope py_scope with py.
Notation "x <- m ;; k" := (bind m (fun x => k))
  (at level 61, m at next level, right associativity) : py_scope.
Notation "m ;; k" := (bind m (fun _ => k))
  (at level 61, right associativity) : py_scope.
Local Open Scope py_scope.

(** [datetime.utcnow()] *)
Definition utcnow : M fecha :=
  fun w => (Ret (utc_src w (utc_pos w)), con_utc_pos (S (utc_pos w)) w).

(** [secrets.randbelow(n)]: the next draw, brought below [n]. *)
Definition randbelow (n : nat) : M nat :=
  fun w => (Ret (Nat.modulo (rnd_src w (rnd_pos w)) n), con_rnd_pos (S (rnd_pos w)) w).

(** [consultar_db(query, args)] of [db.py]: the rows of a SELECT, read
    through the connection of the request. *)
Definition consultar_db (F : Type) (sql : string) (query : DB -> list F) : M (list F) :=
  fun w => (Ret (query (conexion w)), con_sql_log (sql_log w ++ [sql]) w).

(** [consultar_db(query, args, one=True)]: [filas[0] if filas else None]. *)
Definition consultar_db_one (F : Type) (sql : string) (query : DB -> list F) : M (option F) :=
  filas <- consultar_db sql query ;; ret (hd_error filas).

(** [cur.execute(...)] of an INSERT or a DELETE; the value is [cur.lastrowid]. *)
Definition execute (sql : string) (stmt : DB -> DB * Z) : M Z :=
  fun w =>
    let (db, id) := stmt (conexion w) in
    (Ret id, con_sql_log (sql_log w ++ [sql]) (con_conexion db w)).

(** [db.commit()] *)
Definition commit : M unit :=
  fun w => (Ret tt, con_confirmada (conexion w) w).

(** [flash(msg)] *)
Definition flash (msg : string) : M unit :=
  fun w => (Ret tt, con_flashes (flashes w ++ [msg]) w).

(** [socketio.emit(nombre, datos, to=destino)] and, inside a Socket.IO
    handler, [emit(nombre, datos, to=destino)]. *)
Definition emit (nombre : string) (datos : list (string * Valor)) (destino : str) : M unit :=
  fun w => (Ret tt, con_emitidos (emitidos w ++ [{| ev_nombre := nombre; ev_datos := datos; ev_to := destino |}]) w).

(** [join_room(room)] for the connection [sid]. *)
Definition join_room (sid : Z) (room : str) : M unit :=
  fun w => (Ret tt, con_sio_rooms (sio_rooms w ++ [(sid, room)]) w).

(** The connections an event sent to [room] reaches. *)
Definition destinatarios (w : World) (room : str) : list Z :=
  map fst (filter (fun p => str_eqb (snd p) room) (sio_rooms w)).

(** [for x in xs: body(x)] *)
Fixpoint for_each (A : Type) (xs : list A) (body : A -> M unit) : M unit :=
  match xs with
  | [] => ret tt
  | x :: xs' => body x ;; for_each xs' body
  end.

(** A request from its first statement to [cerrar_db]: the connection opens
    on the committed data, and what was not committed is lost when it
    closes. *)
Definition atender (A : Type) (handler : M A) (w : World) : Resultado A * World :=
  let (r, w') := handler (con_conexion (confirmada w) w) in
  (r, con_conexion (confirmada w') w').

(** ** The application: [app.py] *)

(** The Flask session: [session["user_id"]] and [session["username"]], set
    together at login and cleared together at logout. *)
Record Session : Type := {
  ses_user_id : option Z;
  ses_username : option str
}.

(** The [data] of a [send_message] event; [data.get(k)] of a missing key is
    [PyNone]. *)
Record Data : Type := {
  data_room_type : PyVal;
  data_room_id : PyVal;
  data_body : PyVal
}.

(** An uploaded file: [file.filename] and [file.read()]. *)
Record FileStorage : Type := {
  fs_filename : str;
  fs_read : bytes
}.

(** A row of the history: the columns of the SELECT of [api_messages]. *)
Record FilaHistorial : Type := {
  h_id_mensaje : Z;
  h_contenido : str;
  h_fecha_envio : fecha;
  h_es_sistema : bool;
  h_tipo_archivo : option str;
  h_sender : option str
}.

(** What a view returns. *)
Inductive Respuesta : Type :=
| redirect (endpoint : string)
| jsonify_filas (rows : list FilaHistorial)
| jsonify_error (msg : string) (status : Z)
| jsonify_success (id_mensaje : Z)
| texto (body : string) (status : Z)
| Response (data : bytes) (mimetype : string).

(** [app.config["MAX_CONTENT_LENGTH"]]: Flask refuses a longer request body
    when the form is parsed, before the statements embedded here; a handler
    below starts from the parsed fields. *)
Definition MAX_CONTENT_LENGTH : Z := 20 * 1024 * 1024.

Definition ALLOWED_EXTENSIONS : list str := [lit "mp3"; lit "mp4"; lit "jpg"; lit "png"].

Definition CODIGO_ALFABETO : str := lit "0123456789".

(** [x in conjunto] for strings. *)
Definition en (x : str) (conjunto : list str) : bool := existsb (str_eqb x) conjunto.

(** [f"{tipo_sala}_{id_sala}"] *)
Definition nombre_sala (tipo_sala : str) (id_sala : Z) : str :=
  tipo_sala ++ lit "_" ++ str_of_int id_sala.

(** [f"user_{id_usuario}"] *)
Definition nombre_sala_usuario (id_usuario : Z) : str :=
  lit "user_" ++ str_of_int id_usuario.

(** [request.form.get(k, "")] and [request.args.get(k, "")] *)
Definition get_default (campo : option str) : str :=
  match campo with
  | Some s => s
  | None => []
  end.

(** [session.get("username", default)] *)
Definition username_or (ses : Session) (default : string) : str :=
  match ses_username ses with
  | Some n => n
  | None => lit default
  end.

(** [session["user_id"]] *)
Definition session_user_id (ses : Session) : M Z :=
  match ses_user_id ses with
  | Some u => ret u
  | None => raise KeyError
  end.

(** [xs[i]] *)
Definition index (A : Type) (xs : list A) (i : nat) : M A :=
  match nth_error xs i with
  | Some x => ret x
  | None => raise IndexError
  end.

(** The decorator [requiere_login]. *)
Definition requiere_login (ses : Session) (fn : M Respuesta) : M Respuesta :=
  match ses_user_id ses with
  | None => ret (redirect "login")
  | Some _ => fn
  end.

(** *** The SQL statements *)

Section SQL.
Variable C : Collation.

(** [SELECT ... FROM Salas WHERE codigo = %s] *)
Definition select_salas_codigo (codigo : str) (db : DB) : list Sala :=
  filter (fun s => col_eq C (sala_codigo s) codigo) (filas (Salas db)).

(** [SELECT id_sala, id_creador FROM Salas WHERE id_sala = %s] *)
Definition select_salas_id (id_sala : Z) (db : DB) : list Sala :=
  filter (fun s => sala_id_sala s =? id_sala) (filas (Salas db)).

(** [SELECT id FROM Miembros_Sala WHERE id_sala = %s AND id_usuario = %s] *)
Definition select_miembro (id_sala id_usuario : Z) (db : DB) : list Miembro :=
  filter (fun m => (mie_id_sala m =? id_sala) && (mie_id_usuario m =? id_usuario))
         (filas (Miembros_Sala db)).

(** [SELECT id_sala FROM Miembros_Sala WHERE id_usuario = %s] *)
Definition select_salas_de_usuario (id_usuario : Z) (db : DB) : list Miembro :=
  filter (fun m => mie_id_usuario m =? id_usuario) (filas (Miembros_Sala db)).

(** [SELECT archivo_datos, tipo_archivo, contenido FROM Mensajes_Sala
    WHERE id_mensaje = %s] *)
Definition select_mensaje (id_mensaje : Z) (db : DB) : list Mensaje :=
  filter (fun m => men_id_mensaje m =? id_mensaje) (filas (Mensajes_Sala db)).

(** [INSERT INTO Miembros_Sala (id_sala, id_usuario, fecha_union)] *)
Definition insert_miembro (id_sala id_usuario : Z) (f : fecha) (db : DB) : DB * Z :=
  let (t, id) :=
    insertar (fun id => {| mie_id := id; mie_id_sala := id_sala;
                           mie_id_usuario := id_usuario; mie_fecha_union := f |})
             (Miembros_Sala db) in
  (con_Miembros_Sala t db, id).

(** [INSERT INTO Mensajes_Sala (...)] with the columns it leaves out NULL. *)
Definition insert_mensaje (id_sala : Z) (id_emisor : option Z) (contenido : str)
    (f : fecha) (es_sistema : bool) (tipo_archivo : option str)
    (archivo_datos : option bytes) (db : DB) : DB * Z :=
  let (t, id) :=
    insertar (fun id => {| men_id_mensaje := id; men_id_sala := id_sala;
                           men_id_emisor := id_emisor; men_contenido := contenido;
                           men_fecha_envio := f; men_es_sistema := es_sistema;
                           men_tipo_archivo := tipo_archivo;
                           men_archivo_datos := archivo_datos |})
             (Mensajes_Sala db) in
  (con_Mensajes_Sala t db, id).

(** [INSERT INTO Salas (codigo, nombre_sala, id_creador, fecha_creacion)] *)
Definition insert_sala (codigo nombre : str) (id_creador : Z) (f : fecha) (db : DB) : DB * Z :=
  let (t, id) :=
    insertar (fun id => {| sala_id_sala := id; sala_codigo := codigo;
                           sala_nombre_sala := nombre; sala_id_creador := id_creador;
                           sala_fecha_creacion := f |})
             (Salas db) in
  (con_Salas t db, id).

(** [DELETE FROM Miembros_Sala WHERE id_sala = %s AND id_usuario = %s] *)
Definition delete_miembro (id_sala id_usuario : Z) (db : DB) : DB * Z :=
  (con_Miembros_Sala
     (borrar (fun m => (mie_id_sala m =? id_sala) && (mie_id_usuario m =? id_usuario))
             (Miembros_Sala db)) db, 0).

(** Modelled from the spec: the schema is not among the sources.  The spec
    has the deletion of a room cascade "to all Memberships and Messages of
    that room", and [room_delete] says so in its comment.
    [DELETE FROM Salas WHERE id_sala = %s]: the rooms with this id go, and
    with a room that goes its members and messages. *)
Definition delete_sala (id_sala : Z) (db : DB) : DB * Z :=
  let cae := existsb (fun s => sala_id_sala s =? id_sala) (filas (Salas db)) in
  ({| Usuarios := Usuarios db;
      Salas := borrar (fun s => sala_id_sala s =? id_sala) (Salas db);
      Miembros_Sala := borrar (fun m => cae && (mie_id_sala m =? id_sala)) (Miembros_Sala db);
      Mensajes_Sala := borrar (fun m => cae && (men_id_sala m =? id_sala)) (Mensajes_Sala db) |},
   0).

(** The insertion of [x] in a list in descending order of [key]. *)
Fixpoint insertar_desc (A : Type) (key : A -> Z) (x : A) (l : list A) : list A :=
  match l with
  | [] => [x]
  | y :: l' => if key y <=? key x then x :: l else y :: insertar_desc key x l'
  end.

(** [ORDER BY key DESC] *)
Fixpoint order_by_desc (A : Type) (key : A -> Z) (l : list A) : list A :=
  match l with
  | [] => []
  | x :: l' => insertar_desc key x (order_by_desc key l')
  end.

(** The selected columns of a message, with the [usuario] of its sender. *)
Definition fila_historial (m : Mensaje) (sender : option str) : FilaHistorial :=
  {| h_id_mensaje := men_id_mensaje m; h_contenido := men_contenido m;
     h_fecha_envio := men_fecha_envio m; h_es_sistema := men_es_sistema m;
     h_tipo_archivo := men_tipo_archivo m; h_sender := sender |}.

(** [Mensajes_Sala m LEFT JOIN Usuarios u ON u.id_usuario = m.id_emisor],
    projected on the selected columns: a message with no matching user (a
    NULL sender among them) gives one row with a NULL [sender]. *)
Definition left_join_usuarios (us : list Usuario) (m : Mensaje) : list FilaHistorial :=
  match filter (fun u => match men_id_emisor m with
                         | Some e => usr_id_usuario u =? e
                         | None => false
                         end) us with
  | [] => [fila_historial m None]
  | con => map (fun u => fila_historial m (Some (usr_usuario u))) con
  end.

(** The SELECT of [api_messages]: join, WHERE, ORDER BY ... DESC, LIMIT 50. *)
Definition select_historial (id_sala : Z) (db : DB) : list FilaHistorial :=
  firstn 50
    (order_by_desc h_id_mensaje
       (flat_map (left_join_usuarios (filas (Usuarios db)))
          (filter (fun m => men_id_sala m =? id_sala) (filas (Mensajes_Sala db))))).

End SQL.

(** *** The functions and views of [app.py] *)

Section App.
Variable U : Unicode.
Variable C : Collation.

(** [secrets.choice(seq)] *)
Definition secrets_choice (seq : str) : M N :=
  i <- randbelow (List.length seq) ;; index seq i.

(** ["".join(secrets.choice(CODIGO_ALFABETO) for _ in range(n))] *)
Fixpoint join_choices (n : nat) : M str :=
  match n with
  | O => ret []
  | S n' => c <- secrets_choice CODIGO_ALFABETO ;; s <- join_choices n' ;; ret (c :: s)
  end.

(** [generar_codigo_sala()]; [fuel] bounds the turns of its [while True]. *)
Fixpoint generar_codigo_sala (fuel : nat) : M str :=
  match fuel with
  | O => fun w => (Agotado, w)
  | S fuel' =>
      codigo <- join_choices 6 ;;
      existe <- consultar_db_one "SELECT id_sala FROM Salas WHERE codigo = %s"
                  (select_salas_codigo C codigo) ;;
      match existe with
      | None => ret codigo
      | Some _ => generar_codigo_sala fuel'
      end
  end.

(** [usuario_en_sala(id_usuario, id_sala)] *)
Definition usuario_en_sala (id_usuario id_sala : Z) : M bool :=
  fila <- consultar_db_one "SELECT id FROM Miembros_Sala WHERE id_sala = %s AND id_usuario = %s"
            (select_miembro id_sala id_usuario) ;;
  ret (match fila with Some _ => true | None => false end).

(** [archivo_permitido(filename)] *)
Definition archivo_permitido (filename : str) : M bool :=
  if contiene punto filename then
    ext <- index (rsplit1 punto filename) 1 ;;
    ret (en (lower U ext) ALLOWED_EXTENSIONS)
  else ret false.

(** [insertar_aviso_sala(id_sala, mensaje, fecha)] *)
Definition insertar_aviso_sala (id_sala : Z) (mensaje : str) (f : fecha) : M unit :=
  execute "INSERT INTO Mensajes_Sala (id_sala, id_emisor, contenido, fecha_envio, es_sistema) VALUES (%s, NULL, %s, %s, 1)"
          (insert_mensaje id_sala None mensaje f true None None) ;;
  commit.

(** [int(s)] on a string. *)
Definition int_str (s : str) : M Z :=
  match py_int U s with
  | Some z => ret z
  | None => raise ValueError
  end.

Definition aviso_datos (id_sala : Z) (aviso : str) (f : fecha) : list (string * Valor) :=
  [("room_type"%string, VStr (lit "room")); ("room_id"%string, VInt id_sala);
   ("body"%string, VStr aviso); ("timestamp"%string, VIso f)].

(** [room_create], route [/rooms/create]. *)
Definition room_create (ses : Session) (form_name : option str) (fuel : nat) : M Respuesta :=
  requiere_login ses (
    id_usuario <- session_user_id ses ;;
    let nombre := strip U (get_default form_name) in
    let nombre := match nombre with [] => lit "Sala sin nombre" | _ => nombre end in
    codigo <- generar_codigo_sala fuel ;;
    f1 <- utcnow ;;
    id_sala <- execute "INSERT INTO Salas (codigo, nombre_sala, id_creador, fecha_creacion) VALUES (%s, %s, %s, %s)"
                 (insert_sala codigo nombre id_usuario f1) ;;
    f2 <- utcnow ;;
    execute "INSERT INTO Miembros_Sala (id_sala, id_usuario, fecha_union) VALUES (%s, %s, %s)"
            (insert_miembro id_sala id_usuario f2) ;;
    commit ;;
    f <- utcnow ;;
    let aviso := username_or ses "Anon" ++ lit " se unio a la sala." in
    insertar_aviso_sala id_sala aviso f ;;
    emit "room_notice" (aviso_datos id_sala aviso f) (nombre_sala (lit "room") id_sala) ;;
    flash "Sala creada." ;;
    ret (redirect "chat")).

(** [room_join], route [/rooms/join]. *)
Definition room_join (ses : Session) (form_code : option str) : M Respuesta :=
  requiere_login ses (
    id_usuario <- session_user_id ses ;;
    let codigo := upper U (strip U (get_default form_code)) in
    if negb (List.length codigo =? 6)%nat || negb (isdigit U codigo) then
      flash "Codigo invalido." ;; ret (redirect "chat")
    else
      sala <- consultar_db_one "SELECT id_sala, codigo, nombre_sala FROM Salas WHERE codigo = %s"
                (select_salas_codigo C codigo) ;;
      match sala with
      | None => flash "Sala no encontrada." ;; ret (redirect "chat")
      | Some sala =>
          existente <- consultar_db_one "SELECT id FROM Miembros_Sala WHERE id_sala = %s AND id_usuario = %s"
                         (select_miembro (sala_id_sala sala) id_usuario) ;;
          match existente with
          | Some _ => flash "Ya estas en esa sala." ;; ret (redirect "chat")
          | None =>
              f1 <- utcnow ;;
              execute "INSERT INTO Miembros_Sala (id_sala, id_usuario, fecha_union) VALUES (%s, %s, %s)"
                      (insert_miembro (sala_id_sala sala) id_usuario f1) ;;
              commit ;;
              flash "Te uniste a la sala." ;;
              f <- utcnow ;;
              let aviso := username_or ses "Anon" ++ lit " se unio a la sala." in
              insertar_aviso_sala (sala_id_sala sala) aviso f ;;
              emit "room_notice" (aviso_datos (sala_id_sala sala) aviso f)
                   (nombre_sala (lit "room") (sala_id_sala sala)) ;;
              emit "actualizar_ui" [("motivo"%string, VStr (lit "nueva_sala"))]
                   (nombre_sala_usuario id_usuario) ;;
              ret (redirect "chat")
          end
      end).

(** [room_delete], route [/rooms/delete]. *)
Definition room_delete (ses : Session) (form_room_id : option str) : M Respuesta :=
  requiere_login ses (
    id_usuario <- session_user_id ses ;;
    let room_id := strip U (get_default form_room_id) in
    if negb (isdigit U room_id) then
      flash "Sala invalida." ;; ret (redirect "chat")
    else
      room_id <- int_str room_id ;;
      sala <- consultar_db_one "SELECT id_sala, id_creador FROM Salas WHERE id_sala = %s"
                (select_salas_id room_id) ;;
      match sala with
      | None => flash "Sala no encontrada." ;; ret (redirect "chat")
      | Some sala =>
          if negb (sala_id_creador sala =? id_usuario) then
            flash "Solo el creador puede borrar la sala." ;; ret (redirect "chat")
          else
            execute "DELETE FROM Salas WHERE id_sala = %s" (delete_sala room_id) ;;
            commit ;;
            emit "actualizar_ui" [("motivo"%string, VStr (lit "sala_eliminada"))]
                 (nombre_sala (lit "room") room_id) ;;
            flash "Sala eliminada." ;;
            ret (redirect "chat")
      end).

(** [room_leave], route [/rooms/leave]. *)
Definition room_leave (ses : Session) (form_room_id : option str) : M Respuesta :=
  requiere_login ses (
    id_usuario <- session_user_id ses ;;
    let room_id := strip U (get_default form_room_id) in
    if negb (isdigit U room_id) then
      flash "Sala invalida." ;; ret (redirect "chat")
    else
      room_id <- int_str room_id ;;
      miembro <- consultar_db_one "SELECT id FROM Miembros_Sala WHERE id_sala = %s AND id_usuario = %s"
                   (select_miembro room_id id_usuario) ;;
      match miembro with
      | None => flash "No perteneces a esa sala." ;; ret (redirect "chat")
      | Some _ =>
          execute "DELETE FROM Miembros_Sala WHERE id_sala = %s AND id_usuario = %s"
                  (delete_miembro room_id id_usuario) ;;
          commit ;;
          f <- utcnow ;;
          let aviso := username_or ses "Anon" ++ lit " salio de la sala." in
          insertar_aviso_sala room_id aviso f ;;
          emit "room_notice" (aviso_datos room_id aviso f) (nombre_sala (lit "room") room_id) ;;
          flash "Saliste de la sala." ;;
          ret (redirect "chat")
      end).

(** [api_messages], route [/api/messages]. *)
Definition api_messages (ses : Session) (arg_room_type arg_room_id : option str) : M Respuesta :=
  requiere_login ses (
    id_usuario <- session_user_id ses ;;
    let room_type := get_default arg_room_type in
    let room_id := get_default arg_room_id in
    if negb (isdigit U room_id) || negb (str_eqb room_type (lit "room")) then
      ret (jsonify_filas [])
    else
      room_id <- int_str room_id ;;
      miembro <- usuario_en_sala id_usuario room_id ;;
      if negb miembro then ret (jsonify_filas [])
      else
        rows <- consultar_db "SELECT m.id_mensaje, m.contenido, m.fecha_envio, m.es_sistema, m.tipo_archivo, u.usuario AS sender FROM Mensajes_Sala m LEFT JOIN Usuarios u ON u.id_usuario = m.id_emisor WHERE m.id_sala = %s ORDER BY m.id_mensaje DESC LIMIT 50"
                (select_historial room_id) ;;
        ret (jsonify_filas (rev rows))).

(** [upload_media], route [/upload-media]. *)
Definition upload_media (ses : Session) (form_room_id : option str)
    (files_file : option FileStorage) : M Respuesta :=
  requiere_login ses (
    id_usuario <- session_user_id ses ;;
    let room_id := strip U (get_default form_room_id) in
    if negb (isdigit U room_id) then ret (jsonify_error "Sala invalida." 400)
    else
      room_id <- int_str room_id ;;
      miembro <- usuario_en_sala id_usuario room_id ;;
      if negb miembro then ret (jsonify_error "No eres miembro de esa sala." 403)
      else
        match files_file with
        | None => ret (jsonify_error "No se subio archivo." 400)
        | Some file =>
            permitido <- match fs_filename file with
                         | [] => ret false
                         | _ => archivo_permitido (fs_filename file)
                         end ;;
            if negb permitido then ret (jsonify_error "Archivo no permitido." 400)
            else
              let archivo_contenido := fs_read file in
              ext0 <- index (rsplit1 punto (fs_filename file)) 1 ;;
              let ext := lower U ext0 in
              let file_type :=
                if str_eqb ext (lit "mp3") then lit "audio"
                else if str_eqb ext (lit "mp4") then lit "video"
                else if en ext [lit "jpg"; lit "png"] then lit "image"
                else lit "file" in
              f <- utcnow ;;
              lastrowid <- execute "INSERT INTO Mensajes_Sala (id_sala, id_emisor, contenido, fecha_envio, es_sistema, tipo_archivo, archivo_datos) VALUES (%s, %s, %s, %s, 0, %s, %s)"
                             (insert_mensaje room_id (Some id_usuario) (fs_filename file) f
                                false (Some file_type) (Some archivo_contenido)) ;;
              commit ;;
              let id_mensaje := lastrowid in
              f2 <- utcnow ;;
              emit "media_message"
                   [("room_type"%string, VStr (lit "room")); ("room_id"%string, VInt room_id);
                    ("id_mensaje"%string, VInt id_mensaje); ("type"%string, VStr file_type);
                    ("sender"%string, VStr (username_or ses "anon"));
                    ("timestamp"%string, VIso f2)]
                   (nombre_sala (lit "room") room_id) ;;
              ret (jsonify_success id_mensaje)
        end).

(** [d.get(k, default)] on a dict with string keys, for a key read from a
    nullable column. *)
Fixpoint dict_get (d : list (str * string)) (k : option str) (default : string) : string :=
  match d with
  | [] => default
  | (k', v) :: d' =>
      match k with
      | Some k0 => if str_eqb k0 k' then v else dict_get d' k default
      | None => default
      end
  end.

(** [get_media], route [/get-media/<int:id_mensaje>].  It is not wrapped in
    [requiere_login], and reads neither the session nor [Miembros_Sala]. *)
Definition get_media (ses : Session) (id_mensaje : Z) : M Respuesta :=
  mensaje <- consultar_db_one "SELECT archivo_datos, tipo_archivo, contenido FROM Mensajes_Sala WHERE id_mensaje = %s"
               (select_mensaje id_mensaje) ;;
  match mensaje with
  | None => ret (texto "Not found" 404)
  | Some mensaje =>
      match men_archivo_datos mensaje with
      | None => ret (texto "Not found" 404)
      | Some [] => ret (texto "Not found" 404)
      | Some archivo_datos =>
          let mime_types :=
            [(lit "audio", "audio/mpeg"%string);
             (lit "video", "video/mp4"%string);
             (lit "image",
              if endswith (lower U (men_contenido mensaje)) (lit ".jpeg")
                 || endswith (lower U (men_contenido mensaje)) (lit ".jpg")
              then "image/jpeg"%string else "image/png"%string)] in
          let mime_type :=
            dict_get mime_types (men_tipo_archivo mensaje) "application/octet-stream" in
          ret (Response archivo_datos mime_type)
      end
  end.

(** The truth value of a Python value. *)
Definition truthy (v : PyVal) : bool :=
  match v with
  | PyNone => false
  | PyBool b => b
  | PyInt z => negb (z =? 0)
  | PyStr [] => false
  | PyStr _ => true
  | PyOtro _ b => b
  end.

(** [str(v)] *)
Definition py_str (v : PyVal) : str :=
  match v with
  | PyNone => lit "None"
  | PyBool true => lit "True"
  | PyBool false => lit "False"
  | PyInt z => str_of_int z
  | PyStr s => s
  | PyOtro t _ => t
  end.

(** [v != s] for a string [s]. *)
Definition py_ne_str (v : PyVal) (s : str) : bool :=
  match v with
  | PyStr t => negb (str_eqb t s)
  | _ => true
  end.

(** [v.strip()]: only a string has the method. *)
Definition py_strip (v : PyVal) : M str :=
  match v with
  | PyStr s => ret (strip U s)
  | _ => raise AttributeError
  end.

(** [int(v)], reached only when [str(v).isdigit()]: an integer is itself and
    a string is read in base ten.  (The text of a float, [None] or a boolean
    is not made of digits; [int()] of an array or an object is a
    [TypeError].) *)
Definition py_int_val (v : PyVal) : M Z :=
  match v with
  | PyInt z => ret z
  | PyBool b => ret (if b then 1 else 0)
  | PyStr s => int_str s
  | PyNone => raise TypeError
  | PyOtro _ _ => raise TypeError
  end.

(** [session.get("user_id")] followed by [if not id_usuario: return]. *)
Definition session_get_user_id (ses : Session) : option Z :=
  match ses_user_id ses with
  | Some 0 => None
  | o => o
  end.

(** [manejar_conexion], event [connect], for the connection [sid]. *)
Definition manejar_conexion (ses : Session) (sid : Z) : M unit :=
  match session_get_user_id ses with
  | None => ret tt
  | Some id_usuario =>
      join_room sid (nombre_sala_usuario id_usuario) ;;
      salas <- consultar_db "SELECT id_sala FROM Miembros_Sala WHERE id_usuario = %s"
                 (select_salas_de_usuario id_usuario) ;;
      for_each salas (fun sala => join_room sid (nombre_sala (lit "room") (mie_id_sala sala)))
  end.

(** [manejar_envio_mensaje], event [send_message]. *)
Definition manejar_envio_mensaje (ses : Session) (data : Data) : M unit :=
  match session_get_user_id ses with
  | None => ret tt
  | Some id_usuario =>
      let room_type := data_room_type data in
      let room_id := data_room_id data in
      body <- py_strip (if truthy (data_body data) then data_body data else PyStr []) ;;
      if py_ne_str room_type (lit "room") || negb (isdigit U (py_str room_id))
         || match body with [] => true | _ => false end
      then ret tt
      else
        room_id <- py_int_val room_id ;;
        miembro <- usuario_en_sala id_usuario room_id ;;
        if negb miembro then ret tt
        else
          f <- utcnow ;;
          execute "INSERT INTO Mensajes_Sala (id_sala, id_emisor, contenido, fecha_envio, es_sistema) VALUES (%s, %s, %s, %s, 0)"
                  (insert_mensaje room_id (Some id_usuario) body f false None None) ;;
          commit ;;
          emit "message"
               [("room_type"%string, VPy room_type); ("room_id"%string, VInt room_id);
                ("body"%string, VStr body);
                ("sender"%string, VStr (username_or ses "anon"));
                ("timestamp"%string, VIso f)]
               (nombre_sala (py_str room_type) room_id)
  end.

End App.

(** *** Accounts and the chat page: the rest of [app.py]

    The password functions, and the views [index], [register], [login],
    [logout] and [chat].  A view that writes the session returns the session
    it leaves; a view that renders a page returns the template and what it
    is given. *)

(** [s.split(sep, 1)] for a one-character [sep]: the split at the first
    [sep]. *)
Fixpoint split_aux (sep : N) (s : str) : option (str * str) :=
  match s with
  | [] => None
  | c :: s' =>
      if N.eqb c sep then Some ([], s')
      else match split_aux sep s' with
           | Some (a, b) => Some (c :: a, b)
           | None => None
           end
  end.

Definition split1 (sep : N) (s : str) : list str :=
  match split_aux sep s with
  | Some (a, b) => [a; b]
  | None => [s]
  end.

Definition dolar : N := 36.

(** A number below 256 as a byte. *)
Definition byte_of_N (n : N) : Byte.byte :=
  match Byte.of_N n with
  | Some b => b
  | None => Byte.x00
  end.

(** The UTF-8 encoding of a character; [None] for a surrogate (and for a
    number that is no code point), where [str.encode] raises
    [UnicodeEncodeError]. *)
Definition encode_char (c : N) : option bytes :=
  if (c <? 128)%N then Some [byte_of_N c]
  else if (c <? 2048)%N then
    Some [byte_of_N (192 + c / 64); byte_of_N (128 + c mod 64)]
  else if (c <? 65536)%N then
    if (55296 <=? c)%N && (c <=? 57343)%N then None
    else Some [byte_of_N (224 + c / 4096); byte_of_N (128 + (c / 64) mod 64);
               byte_of_N (128 + c mod 64)]
  else if (c <? 1114112)%N then
    Some [byte_of_N (240 + c / 262144); byte_of_N (128 + (c / 4096) mod 64);
          byte_of_N (128 + (c / 64) mod 64); byte_of_N (128 + c mod 64)]
  else None.

Fixpoint encode_utf8 (s : str) : option bytes :=
  match s with
  | [] => Some []
  | c :: s' =>
      match encode_char c, encode_utf8 s' with
      | Some b, Some bs => Some (b ++ bs)
      | _, _ => None
      end
  end.

(** [s.encode("utf-8")]; [UnicodeEncodeError] is a [ValueError]. *)
Definition encode (s : str) : M bytes :=
  match encode_utf8 s with
  | Some b => ret b
  | None => raise ValueError
  end.

Definition hexdigits : str := lit "0123456789abcdef".

(** [secrets.token_bytes(n)]: [n] draws of a byte. *)
Fixpoint token_bytes (n : nat) : M (list nat) :=
  match n with
  | O => ret []
  | S n' => b <- randbelow 256 ;; bs <- token_bytes n' ;; ret (b :: bs)
  end.

(** The two hexadecimal digits of a byte, as [bytes.hex()] writes them. *)
Definition hex_byte (b : nat) : str :=
  [nth (Nat.div b 16) hexdigits 48%N; nth (Nat.modulo b 16) hexdigits 48%N].

(** [secrets.token_hex(n)] *)
Definition token_hex (n : nat) : M str :=
  bs <- token_bytes n ;; ret (flat_map hex_byte bs).

(** A page: a response, or [render_template(plantilla, ...)] with the
    values the template is given. *)
Record FilaSala : Type := {
  fsala_id : Z;
  fsala_nombre : str;
  fsala_codigo : str;
  fsala_id_creador : Z
}.

Inductive Vista : Type :=
| vista (r : Respuesta)
| render_template (plantilla : string) (username : option str) (user_id : option Z)
                  (rooms : list FilaSala).

(** [index], route [/]. *)
Definition index_view (ses : Session) : M Respuesta :=
  match ses_user_id ses with
  | Some _ => ret (redirect "chat")
  | None => ret (redirect "login")
  end.

(** [logout], route [/logout]: [session.clear()]. *)
Definition logout (ses : Session) : M (Respuesta * Session) :=
  ret (redirect "login", {| ses_user_id := None; ses_username := None |}).

Section Cuentas.
Variable U : Unicode.
Variable C : Collation.

(** [hashlib.sha256(datos).hexdigest()]: the library function, of which
    nothing is assumed. *)
Variable sha256_hexdigest : bytes -> str.

(** The three-way comparison of two strings in the collation of the
    database, for ORDER BY; nothing is assumed of it. *)
Variable col_cmp : str -> str -> comparison.

(** [hashear_contrasena(contrasena)] *)
Definition hashear_contrasena (contrasena : str) : M str :=
  salt <- token_hex 16 ;;
  datos <- encode (salt ++ contrasena) ;;
  let digest := sha256_hexdigest datos in
  ret (salt ++ lit "$" ++ digest).

(** [verificar_contrasena(contrasena, almacenada)]: the [ValueError] of the
    unpacking is caught; the encoding is outside the [try]. *)
Definition verificar_contrasena (contrasena almacenada : str) : M bool :=
  match split1 dolar almacenada with
  | [salt; digest] =>
      datos <- encode (salt ++ contrasena) ;;
      let check := sha256_hexdigest datos in
      ret (str_eqb check digest)
  | _ => ret false
  end.

(** [SELECT ... FROM Usuarios WHERE usuario = %s] *)
Definition select_usuario (usuario : str) (db : DB) : list Usuario :=
  filter (fun u => col_eq C (usr_usuario u) usuario) (filas (Usuarios db)).

(** [INSERT INTO Usuarios (usuario, contrasena)] *)
Definition insert_usuario (usuario contrasena : str) (db : DB) : DB * Z :=
  let (t, id) :=
    insertar (fun id => {| usr_id_usuario := id; usr_usuario := usuario;
                           usr_contrasena := contrasena |})
             (Usuarios db) in
  ({| Usuarios := t; Salas := Salas db;
      Miembros_Sala := Miembros_Sala db; Mensajes_Sala := Mensajes_Sala db |}, id).

(** [register], route [/register]. *)
Definition register (metodo : string) (form_username form_password : option str) : M Vista :=
  if String.eqb metodo "POST" then
    let usuario := strip U (get_default form_username) in
    let contrasena := strip U (get_default form_password) in
    if match usuario with [] => true | _ => false end
       || match contrasena with [] => true | _ => false end
    then flash "Completa usuario y contrasena." ;; ret (vista (redirect "register"))
    else
      existente <- consultar_db_one "SELECT id_usuario FROM Usuarios WHERE usuario = %s"
                     (select_usuario usuario) ;;
      match existente with
      | Some _ => flash "El usuario ya existe." ;; ret (vista (redirect "register"))
      | None =>
          hash <- hashear_contrasena contrasena ;;
          execute "INSERT INTO Usuarios (usuario, contrasena) VALUES (%s, %s)"
                  (insert_usuario usuario hash) ;;
          commit ;;
          flash "Cuenta creada. Inicia sesion." ;;
          ret (vista (redirect "login"))
      end
  else ret (render_template "register.html" None None []).

(** [login], route [/login]. *)
Definition login (ses : Session) (metodo : string)
    (form_username form_password : option str) : M (Vista * Session) :=
  if String.eqb metodo "POST" then
    let usuario := strip U (get_default form_username) in
    let contrasena := strip U (get_default form_password) in
    user <- consultar_db_one "SELECT id_usuario, contrasena FROM Usuarios WHERE usuario = %s"
              (select_usuario usuario) ;;
    match user with
    | None => flash "Credenciales invalidas." ;; ret (vista (redirect "login"), ses)
    | Some user =>
        ok <- verificar_contrasena contrasena (usr_contrasena user) ;;
        if negb ok then
          flash "Credenciales invalidas." ;; ret (vista (redirect "login"), ses)
        else
          ret (vista (redirect "chat"),
               {| ses_user_id := Some (usr_id_usuario user); ses_username := Some usuario |})
    end
  else ret (render_template "login.html" None None [], ses).

(** [a <= b] for the rows of the chat page: [ORDER BY s.nombre_sala, s.codigo]. *)
Definition fila_sala_leb (a b : FilaSala) : bool :=
  match col_cmp (fsala_nombre a) (fsala_nombre b) with
  | Lt => true
  | Gt => false
  | Eq => match col_cmp (fsala_codigo a) (fsala_codigo b) with
          | Gt => false
          | _ => true
          end
  end.

Fixpoint insertar_orden (A : Type) (leb : A -> A -> bool) (x : A) (l : list A) : list A :=
  match l with
  | [] => [x]
  | y :: l' => if leb x y then x :: l else y :: insertar_orden leb x l'
  end.

(** [ORDER BY] with the order [leb]. *)
Fixpoint order_by (A : Type) (leb : A -> A -> bool) (l : list A) : list A :=
  match l with
  | [] => []
  | x :: l' => insertar_orden leb x (order_by leb l')
  end.

(** The SELECT of [chat]: [Salas s JOIN Miembros_Sala m ON m.id_sala =
    s.id_sala WHERE m.id_usuario = %s ORDER BY s.nombre_sala, s.codigo]. *)
Definition select_salas_chat (id_usuario : Z) (db : DB) : list FilaSala :=
  order_by fila_sala_leb
    (flat_map
       (fun s =>
          map (fun _ => {| fsala_id := sala_id_sala s; fsala_nombre := sala_nombre_sala s;
                           fsala_codigo := sala_codigo s;
                           fsala_id_creador := sala_id_creador s |})
              (filter (fun m => (mie_id_sala m =? sala_id_sala s)
                                && (mie_id_usuario m =? id_usuario))
                      (filas (Miembros_Sala db))))
       (filas (Salas db))).

(** [chat], route [/chat], under [requiere_login]. *)
Definition chat (ses : Session) : M Vista :=
  match ses_user_id ses with
  | None => ret (vista (redirect "login"))
  | Some _ =>
      id_usuario <- session_user_id ses ;;
      salas <- consultar_db "SELECT s.id_sala AS id, s.nombre_sala AS nombre, s.codigo, s.id_creador FROM Salas s JOIN Miembros_Sala m ON m.id_sala = s.id_sala WHERE m.id_usuario = %s ORDER BY s.nombre_sala, s.codigo"
                 (select_salas_chat id_usuario) ;;
      username <- match ses_username ses with
                  | Some n => ret n
                  | None => raise KeyError
                  end ;;
      ret (render_template "chat.html" (Some username) (Some id_usuario) salas)
  end.

End Cuentas.

Arguments lit : simpl never.
Arguments str_of_int : simpl never.
Arguments nombre_sala : simpl never.
Arguments nombre_sala_usuario : simpl never.
Arguments select_salas_codigo : simpl never.
Arguments select_salas_id : simpl never.
Arguments select_miembro : simpl never.
Arguments select_salas_de_usuario : simpl never.
Arguments select_mensaje : simpl never.
Arguments select_historial : simpl never.
Arguments username_or : simpl never.
Arguments aviso_datos : simpl never.
Arguments strip : simpl never.
Arguments isdigit : simpl never.
Arguments py_int : simpl never.

(** Unfolds the monad and the primitives of a request, so that [cbn] runs a
    handler up to the next test it cannot decide. *)
Ltac desplegar_en H :=
  unfold atender, requiere_login, session_user_id, usuario_en_sala, insertar_aviso_sala,
    consultar_db_one, consultar_db, execute, commit, flash, emit, join_room, utcnow,
    int_str, index, bind, ret, raise in H.

Ltac desplegar :=
  unfold atender, requiere_login, session_user_id, usuario_en_sala, insertar_aviso_sala,
    consultar_db_one, consultar_db, execute, commit, flash, emit, join_room, utcnow,
    int_str, index, bind, ret, raise.

(** ** Worlds and inputs of the statements *)

(** The world between two requests: no connection holds a pending write. *)
Definition en_reposo (w : World) : World := con_conexion (confirmada w) w.

(** A room code as [generar_codigo_sala] makes them: six characters, each
    one of [0] to [9]. *)
Definition es_codigo (c : str) : bool :=
  (List.length c =? 6)%nat && forallb ascii_isdigit c.

(** The user has a row in [Miembros_Sala] for the room. *)
Definition es_miembro (id_usuario id_sala : Z) (db : DB) : Prop :=
  exists m, In m (filas (Miembros_Sala db))
            /\ mie_id_sala m = id_sala /\ mie_id_usuario m = id_usuario.

(** A small database: users 1 (ana) and 2 (beto), the room 7 of ana with code
    123456, of which only ana is a member, and no message. *)
Definition db_ejemplo : DB :=
  {| Usuarios :=
       {| filas := [ {| usr_id_usuario := 1; usr_usuario := lit "ana"; usr_contrasena := [] |};
                     {| usr_id_usuario := 2; usr_usuario := lit "beto"; usr_contrasena := [] |} ];
          auto_increment := 3 |};
     Salas :=
       {| filas := [ {| sala_id_sala := 7; sala_codigo := lit "123456";
                        sala_nombre_sala := lit "Test"; sala_id_creador := 1;
                        sala_fecha_creacion := 0 |} ];
          auto_increment := 8 |};
     Miembros_Sala :=
       {| filas := [ {| mie_id := 1; mie_id_sala := 7; mie_id_usuario := 1;
                        mie_fecha_union := 0 |} ];
          auto_increment := 2 |};
     Mensajes_Sala := {| filas := []; auto_increment := 1 |} |}.

(** The world on [db_ejemplo]: the connection 40 of ana is in her two
    rooms of Socket.IO; the clock reads 100, 101, ...; the draws are
    0, 1, 2, ... *)
Definition mundo_ejemplo : World :=
  {| conexion := db_ejemplo; confirmada := db_ejemplo; emitidos := []; flashes := [];
     sio_rooms := [(40, lit "user_1"); (40, lit "room_7")]; sql_log := [];
     utc_src := fun n => 100 + Z.of_nat n; utc_pos := 0;
     rnd_src := fun n => n; rnd_pos := 0 |}.

Definition ana : Session := {| ses_user_id := Some 1; ses_username := Some (lit "ana") |}.
Definition beto : Session := {| ses_user_id := Some 2; ses_username := Some (lit "beto") |}.
Definition anonimo : Session := {| ses_user_id := None; ses_username := None |}.

(** The text of the statements, as the theorems below name them. *)
Definition SQL_SELECT_SALA_ID : string :=
  "SELECT id_sala, id_creador FROM Salas WHERE id_sala = %s".
Definition SQL_DELETE_SALA : string := "DELETE FROM Salas WHERE id_sala = %s".
Definition SQL_SELECT_MIEMBRO : string :=
  "SELECT id FROM Miembros_Sala WHERE id_sala = %s AND id_usuario = %s".
Definition SQL_DELETE_MIEMBRO : string :=
  "DELETE FROM Miembros_Sala WHERE id_sala = %s AND id_usuario = %s".
Definition SQL_INSERT_AVISO : string :=
  "INSERT INTO Mensajes_Sala (id_sala, id_emisor, contenido, fecha_envio, es_sistema) VALUES (%s, NULL, %s, %s, 1)".
Definition SQL_SELECT_MEDIA : string :=
  "SELECT archivo_datos, tipo_archivo, contenido FROM Mensajes_Sala WHERE id_mensaje = %s".
Definition SQL_INSERT_MENSAJE : string :=
  "INSERT INTO Mensajes_Sala (id_sala, id_emisor, contenido, fecha_envio, es_sistema) VALUES (%s, %s, %s, %s, 0)".
Definition SQL_INSERT_MEDIA : string :=
  "INSERT INTO Mensajes_Sala (id_sala, id_emisor, contenido, fecha_envio, es_sistema, tipo_archivo, archivo_datos) VALUES (%s, %s, %s, %s, 0, %s, %s)".
Definition SQL_SELECT_HISTORIAL : string :=
  "SELECT m.id_mensaje, m.contenido, m.fecha_envio, m.es_sistema, m.tipo_archivo, u.usuario AS sender FROM Mensajes_Sala m LEFT JOIN Usuarios u ON u.id_usuario = m.id_emisor WHERE m.id_sala = %s ORDER BY m.id_mensaje DESC LIMIT 50".

(** The event [room_delete] sends after the [DELETE]. *)
Definition evento_sala_eliminada (room_id : Z) : Evento :=
  {| ev_nombre := "actualizar_ui";
     ev_datos := [("motivo"%string, VStr (lit "sala_eliminada"))];
     ev_to := nombre_sala (lit "room") room_id |}.

(** The [message] event of a message of [sender] in the room [rid]. *)
Definition evento_message (ses : Session) (rid : Z) (body : str) (f : fecha) : Evento :=
  {| ev_nombre := "message";
     ev_datos := [("room_type"%string, VPy (PyStr (lit "room")));
                  ("room_id"%string, VInt rid);
                  ("body"%string, VStr body);
                  ("sender"%string, VStr (username_or ses "anon"));
                  ("timestamp"%string, VIso f)];
     ev_to := nombre_sala (lit "room") rid |}.

(** The committed database, the events and the flashes are those of [w];
    the handler returned [None] or raised. *)
Definition sin_efecto (A : Type) (w : World) (r : Resultado A * World) : Prop :=
  confirmada (snd r) = confirmada w
  /\ emitidos (snd r) = emitidos w
  /\ flashes (snd r) = flashes w
  /\ sio_rooms (snd r) = sio_rooms w.

(** The code the turn [k] of the loop of [generar_codigo_sala] draws, from
    the position [pos] of the source of randomness: six draws, each brought
    to a digit. *)
Definition candidato (src : nat -> nat) (pos k : nat) : str :=
  map (fun i => N.of_nat (48 + Nat.modulo (src (pos + 6 * k + i)%nat) 10)) (seq 0 6).

(** A room of the database has this code, up to the comparison of the
    database. *)
Definition codigo_en_uso (C : Collation) (c : str) (db : DB) : Prop :=
  exists s, In s (filas (Salas db)) /\ col_eq C (sala_codigo s) c = true.

(** A room with 52 messages: the database of the example with the
    messages 1 to 52 of ana in room 7. *)
Definition db_historial : DB :=
  con_Mensajes_Sala
    {| filas := map (fun i => {| men_id_mensaje := Z.of_nat i; men_id_sala := 7;
                                 men_id_emisor := Some 1; men_contenido := lit "hola";
                                 men_fecha_envio := Z.of_nat i; men_es_sistema := false;
                                 men_tipo_archivo := None; men_archivo_datos := None |})
                    (seq 1 52);
       auto_increment := 53 |}
    db_ejemplo.

Definition mundo_historial : World :=
  con_confirmada db_historial (con_conexion db_historial mundo_ejemplo).

(** A message with a file: the upload of [a.mp3] by ana to room 7, and
    the world where it is the only message. *)
Definition mensaje_media : Mensaje :=
  {| men_id_mensaje := 1; men_id_sala := 7; men_id_emisor := Some 1;
     men_contenido := lit "a.mp3"; men_fecha_envio := 0; men_es_sistema := false;
     men_tipo_archivo := Some (lit "audio");
     men_archivo_datos := Some [Byte.x01; Byte.x02] |}.

Definition db_media : DB :=
  con_Mensajes_Sala {| filas := [mensaje_media]; auto_increment := 2 |} db_ejemplo.

Definition mundo_media : World :=
  con_confirmada db_media (con_conexion db_media mundo_ejemplo).

(** The orders of the history, on a key. *)
Section Ordenes.
Variable A : Type.
Variable key : A -> Z.

Definition desc (a b : A) : Prop := key b <= key a.
Definition desc_estricto (a b : A) : Prop := key b < key a.
Definition asc_estricto (a b : A) : Prop := key a < key b.

End Ordenes.

(** ** Worlds and inputs of the further properties *)

Arguments select_usuario : simpl never.
Arguments hashear_contrasena : simpl never.
Arguments verificar_contrasena : simpl never.

(** A stand-in for the digest, to evaluate the password functions. *)
Definition digest_ejemplo (datos : bytes) : str :=
  map (fun b => Byte.to_N b) datos.

Definition SQL_SELECT_USUARIO_REGISTER : string :=
  "SELECT id_usuario FROM Usuarios WHERE usuario = %s".
Definition SQL_SELECT_USUARIO_LOGIN : string :=
  "SELECT id_usuario, contrasena FROM Usuarios WHERE usuario = %s".
Definition SQL_INSERT_SALA : string :=
  "INSERT INTO Salas (codigo, nombre_sala, id_creador, fecha_creacion) VALUES (%s, %s, %s, %s)".
Definition SQL_SELECT_SALAS_CHAT : string :=
  "SELECT s.id_sala AS id, s.nombre_sala AS nombre, s.codigo, s.id_creador FROM Salas s JOIN Miembros_Sala m ON m.id_sala = s.id_sala WHERE m.id_usuario = %s ORDER BY s.nombre_sala, s.codigo".

(** Two worlds that differ at most by the position in the source of
    randomness and by the log of statements. *)
Definition mismo_salvo_azar (w w' : World) : Prop :=
  conexion w' = conexion w /\ confirmada w' = confirmada w
  /\ emitidos w' = emitidos w /\ flashes w' = flashes w
  /\ sio_rooms w' = sio_rooms w
  /\ utc_src w' = utc_src w /\ utc_pos w' = utc_pos w.

(** The row of the chat page for a room. *)
Definition fila_de_sala (s : Sala) : FilaSala :=
  {| fsala_id := sala_id_sala s; fsala_nombre := sala_nombre_sala s;
     fsala_codigo := sala_codigo s; fsala_id_creador := sala_id_creador s |}.

(** An AUTO_INCREMENT key: no id twice, and every id below the counter. *)
Definition clave_primaria (F : Type) (key : F -> Z) (t : Tabla F) : Prop :=
  NoDup (map key (filas t)) /\ forall x, In x (filas t) -> key x < auto_increment t.

(** A coherent database: the ids are keys; no two users have the same
    name; no two rooms have the same code, and every code is six digits;
    the room of a membership has an id below the counter of the rooms; and
    no user is twice a member of the same room. *)
Record coherente (db : DB) : Prop := {
  coh_pk_usuarios : clave_primaria usr_id_usuario (Usuarios db);
  coh_pk_salas : clave_primaria sala_id_sala (Salas db);
  coh_pk_miembros : clave_primaria mie_id (Miembros_Sala db);
  coh_pk_mensajes : clave_primaria men_id_mensaje (Mensajes_Sala db);
  coh_usuarios : NoDup (map usr_usuario (filas (Usuarios db)));
  coh_codigos : NoDup (map sala_codigo (filas (Salas db)));
  coh_es_codigo : forall s, In s (filas (Salas db)) -> es_codigo (sala_codigo s) = true;
  coh_miembros_sala :
    forall m, In m (filas (Miembros_Sala db)) -> mie_id_sala m < auto_increment (Salas db);
  coh_membresias :
    NoDup (map (fun m => (mie_id_sala m, mie_id_usuario m)) (filas (Miembros_Sala db)))
}.

(** The writes of [app.py], each with the test the code makes before it:
    [register] inserts a user after the SELECT by name finds none;
    [room_create] inserts a room, with a code [generar_codigo_sala] found
    free, and its first member; [room_join] inserts a member of a room it
    found, after the SELECT of the membership finds none; messages and
    notices are inserted, and rooms and memberships deleted, with no test
    on the table written. *)
Inductive escribe (C : Collation) (db : DB) : DB -> Prop :=
| esc_usuario (usuario hash : str) :
    select_usuario C usuario db = [] ->
    escribe C db (fst (insert_usuario usuario hash db))
| esc_sala (codigo nombre : str) (u : Z) (f1 f2 : fecha) :
    es_codigo codigo = true ->
    select_salas_codigo C codigo db = [] ->
    escribe C db (fst (insert_miembro (auto_increment (Salas db)) u f2
                         (fst (insert_sala codigo nombre u f1 db))))
| esc_miembro (sala : Sala) (u : Z) (f : fecha) :
    In sala (filas (Salas db)) ->
    select_miembro (sala_id_sala sala) u db = [] ->
    escribe C db (fst (insert_miembro (sala_id_sala sala) u f db))
| esc_mensaje (rid : Z) (em : option Z) (contenido : str) (f : fecha) (sis : bool)
              (tipo : option str) (datos : option bytes) :
    escribe C db (fst (insert_mensaje rid em contenido f sis tipo datos db))
| esc_delete_sala (rid : Z) :
    escribe C db (fst (delete_sala rid db))
| esc_delete_miembro (rid u : Z) :
    escribe C db (fst (delete_miembro rid u db)).

(** What a request commits: a sequence of such writes. *)
Inductive efecto (C : Collation) : DB -> DB -> Prop :=
| ef_nada (db : DB) : efecto C db db
| ef_paso (db1 db2 db3 : DB) : escribe C db1 db2 -> efecto C db2 db3 -> efecto C db1 db3.

(** ** Strings *)

Lemma str_eqb_refl (s : str) : str_eqb s s = true.
Proof.
  induction s as [|c s IH]; simpl; [reflexivity|].
  now rewrite N.eqb_refl, IH.
Qed.

Lemma str_eqb_eq (a b : str) : str_eqb a b = true <-> a = b.
Proof.
  revert b; induction a as [|x a IH]; intros [|y b]; simpl; split; intro H;
    try reflexivity; try discriminate.
  - apply andb_prop in H as [Hx Hr]. apply N.eqb_eq in Hx. apply IH in Hr.
    now subst.
  - injection H as -> ->. now rewrite N.eqb_refl, str_eqb_refl.
Qed.

Section StrFacts.
Variable U : Unicode.

Lemma digit_is_ascii (c : N) : ascii_isdigit c = true -> es_ascii c.
Proof.
  unfold ascii_isdigit, es_ascii. intro H.
  apply andb_prop in H as [_ H]. apply N.leb_le in H. lia.
Qed.

Lemma digit_not_space (c : N) : ascii_isdigit c = true -> uc_isspace U c = false.
Proof.
  intro H. rewrite uc_isspace_ascii by now apply digit_is_ascii.
  unfold ascii_isdigit in H. unfold ascii_isspace.
  apply andb_prop in H as [H1 H2]. apply N.leb_le in H1, H2.
  destruct (N.leb_spec 9 c), (N.leb_spec c 13), (N.leb_spec 28 c), (N.leb_spec c 32);
    simpl; try reflexivity; lia.
Qed.

Lemma digit_upper (c : N) : ascii_isdigit c = true -> ascii_upper c = c.
Proof.
  unfold ascii_isdigit, ascii_upper. intro H.
  apply andb_prop in H as [_ H]. apply N.leb_le in H.
  destruct (N.leb_spec 97 c); simpl; [lia | reflexivity].
Qed.

Lemma digits_ascii (s : str) : forallb ascii_isdigit s = true -> Forall es_ascii s.
Proof.
  intro H. apply Forall_forall. intros c Hc.
  apply digit_is_ascii. rewrite forallb_forall in H. now apply H.
Qed.

Lemma lstrip_digits (s : str) : forallb ascii_isdigit s = true -> lstrip U s = s.
Proof.
  destruct s as [|c s]; simpl; [reflexivity|].
  intro H. apply andb_prop in H as [H _]. now rewrite digit_not_space.
Qed.

Lemma forallb_rev (A : Type) (f : A -> bool) (l : list A) :
  forallb f (rev l) = forallb f l.
Proof.
  induction l as [|x l IH]; simpl; [reflexivity|].
  rewrite forallb_app, IH. simpl. rewrite andb_true_r. apply andb_comm.
Qed.

Lemma strip_digits (s : str) : forallb ascii_isdigit s = true -> strip U s = s.
Proof.
  intro H. unfold strip, rstrip. rewrite (lstrip_digits s H).
  rewrite lstrip_digits by now rewrite forallb_rev.
  apply rev_involutive.
Qed.

Lemma upper_digits (s : str) : forallb ascii_isdigit s = true -> upper U s = s.
Proof.
  intro H. unfold upper. rewrite uc_upper_ascii by now apply digits_ascii.
  induction s as [|c s IH]; simpl; [reflexivity|].
  simpl in H. apply andb_prop in H as [Hc Hs].
  now rewrite digit_upper, IH.
Qed.

Lemma isdigit_digits (s : str) :
  s <> [] -> forallb ascii_isdigit s = true -> isdigit U s = true.
Proof.
  intros Hne H. destruct s as [|c s]; [congruence|].
  unfold isdigit. apply forallb_forall. intros x Hx.
  rewrite forallb_forall in H.
  rewrite uc_isdigit_ascii by (apply digit_is_ascii; now apply H).
  now apply H.
Qed.

(** A code of six ASCII digits goes through [strip], [upper] and the
    format check of [room_join] as it is. *)
Lemma codigo_normal (c : str) :
  es_codigo c = true ->
  upper U (strip U c) = c /\ List.length c = 6%nat /\ isdigit U c = true.
Proof.
  unfold es_codigo. intro H. apply andb_prop in H as [Hl Hd].
  apply Nat.eqb_eq in Hl.
  rewrite strip_digits, upper_digits by assumption.
  repeat split; [assumption|].
  apply isdigit_digits; [|assumption].
  intro E. now rewrite E in Hl.
Qed.

End StrFacts.

(** ** Joining a room *)

Section Join.
Variable U : Unicode.
Variable C : Collation.

(** Claim C8, as the code has it: the code of a join request is trimmed and
    upper-cased first; when what remains is not six characters that
    [str.isdigit] accepts, the request ends with the flash
    [Codigo invalido.] and nothing else: no statement reaches the database
    and no event is sent. *)
Theorem room_join_codigo_invalido (ses : Session) (u : Z) (form_code : option str) (w : World) :
  ses_user_id ses = Some u ->
  (List.length (upper U (strip U (get_default form_code))) =? 6)%nat
    && isdigit U (upper U (strip U (get_default form_code))) = false ->
  atender (room_join U C ses form_code) w =
    (Ret (redirect "chat"), con_flashes (flashes w ++ ["Codigo invalido."%string]) (en_reposo w)).
Proof.
  intros Hu Hbad.
  unfold atender, room_join, requiere_login, session_user_id. rewrite Hu.
  unfold bind at 1. unfold ret at 1.
  apply andb_false_iff in Hbad.
  assert (Hc : negb (List.length (upper U (strip U (get_default form_code))) =? 6)%nat
               || negb (isdigit U (upper U (strip U (get_default form_code)))) = true).
  { destruct Hbad as [-> | ->]; simpl; [reflexivity | apply orb_true_r]. }
  rewrite Hc. reflexivity.
Qed.

(** The first row of a selection, when the rows that match share the key
    of a row known to match. *)
Lemma hd_filter_unico (A : Type) (f : A -> bool) (key : A -> Z) (l : list A) (x : A) :
  In x l -> f x = true ->
  (forall y, In y l -> f y = true -> key y = key x) ->
  exists y, hd_error (filter f l) = Some y /\ key y = key x /\ In y l.
Proof.
  intros Hin Hf Huniq.
  destruct (filter f l) as [|y l'] eqn:E.
  - assert (Hx : In x (filter f l)) by (apply filter_In; now split).
    rewrite E in Hx. destruct Hx.
  - exists y. assert (Hy : In y (filter f l)) by (rewrite E; now left).
    apply filter_In in Hy as [Hy1 Hy2]. simpl. repeat split; auto.
Qed.

Lemma select_miembro_vacio (u r : Z) (db : DB) :
  ~ es_miembro u r db -> select_miembro r u db = [].
Proof.
  intro H. unfold select_miembro.
  destruct (filter _ _) as [|m l] eqn:E; [reflexivity|].
  exfalso. apply H.
  assert (Hm : In m (m :: l)) by now left.
  rewrite <- E in Hm. apply filter_In in Hm as [Hin Hm].
  apply andb_prop in Hm as [H1 H2]. apply Z.eqb_eq in H1, H2.
  exists m. auto.
Qed.

Lemma select_miembro_hay (u r : Z) (db : DB) :
  es_miembro u r db -> exists m, hd_error (select_miembro r u db) = Some m.
Proof.
  intros (m & Hin & H1 & H2). unfold select_miembro.
  destruct (filter _ _) as [|m' l] eqn:E.
  - assert (Hm : In m []).
    { rewrite <- E. apply filter_In. split; [assumption|].
      now rewrite H1, H2, !Z.eqb_refl. }
    destruct Hm.
  - now exists m'.
Qed.

(** Claim C1: a logged-in user sends the six-digit code of an existing room
    (the only room the database matches with that code).  If the user has no
    row in [Miembros_Sala] for the room, the request adds exactly one row to
    [Miembros_Sala] (this room, this user) and exactly one row to
    [Mensajes_Sala] (a system notice of this room), and leaves the rooms and
    users as they were.  If the user has such a row, the request is answered
    with the flash [Ya estas en esa sala.] and the database and the events
    are untouched. *)
Theorem room_join_una_membresia
    (ses : Session) (u : Z) (c : str) (sala : Sala) (w : World) :
  ses_user_id ses = Some u ->
  es_codigo c = true ->
  In sala (filas (Salas (confirmada w))) ->
  sala_codigo sala = c ->
  (forall s', In s' (filas (Salas (confirmada w))) ->
              col_eq C (sala_codigo s') c = true -> sala_id_sala s' = sala_id_sala sala) ->
  (~ es_miembro u (sala_id_sala sala) (confirmada w) ->
   exists w',
     atender (room_join U C ses (Some c)) w = (Ret (redirect "chat"), w')
     /\ filas (Miembros_Sala (confirmada w')) =
          filas (Miembros_Sala (confirmada w)) ++
          [ {| mie_id := auto_increment (Miembros_Sala (confirmada w));
               mie_id_sala := sala_id_sala sala;
               mie_id_usuario := u;
               mie_fecha_union := utc_src w (utc_pos w) |} ]
     /\ filas (Mensajes_Sala (confirmada w')) =
          filas (Mensajes_Sala (confirmada w)) ++
          [ {| men_id_mensaje := auto_increment (Mensajes_Sala (confirmada w));
               men_id_sala := sala_id_sala sala;
               men_id_emisor := None;
               men_contenido := username_or ses "Anon" ++ lit " se unio a la sala.";
               men_fecha_envio := utc_src w (S (utc_pos w));
               men_es_sistema := true;
               men_tipo_archivo := None;
               men_archivo_datos := None |} ]
     /\ Salas (confirmada w') = Salas (confirmada w)
     /\ Usuarios (confirmada w') = Usuarios (confirmada w)
     /\ flashes w' = flashes w ++ ["Te uniste a la sala."%string]
     /\ map ev_nombre (emitidos w') =
          map ev_nombre (emitidos w) ++ ["room_notice"%string; "actualizar_ui"%string])
  /\
  (es_miembro u (sala_id_sala sala) (confirmada w) ->
   exists w',
     atender (room_join U C ses (Some c)) w = (Ret (redirect "chat"), w')
     /\ confirmada w' = confirmada w
     /\ flashes w' = flashes w ++ ["Ya estas en esa sala."%string]
     /\ emitidos w' = emitidos w).
Proof.
  intros Hu Hc Hin Hcod Huniq.
  destruct (codigo_normal U c Hc) as (Hnorm & Hlen & Hdig).
  destruct (hd_filter_unico (fun s => col_eq C (sala_codigo s) c) sala_id_sala
              (filas (Salas (confirmada w))) sala Hin) as (s0 & Hhd & Hid & Hin0).
  { rewrite Hcod. apply col_eq_refl. }
  { exact Huniq. }
  fold (select_salas_codigo C c (confirmada w)) in Hhd.
  split.
  - intro Hno. apply select_miembro_vacio in Hno.
    unfold room_join. desplegar. rewrite Hu.
    unfold get_default. rewrite Hnorm, Hlen, Hdig. cbn.
    rewrite Hhd. cbn. rewrite Hid, Hno. cbn.
    eexists. split; [reflexivity|]. cbn.
    repeat split; try reflexivity.
    rewrite !map_app. cbn. now rewrite <- app_assoc.
  - intro Hsi. apply select_miembro_hay in Hsi as (m & Hm).
    unfold room_join. desplegar. rewrite Hu.
    unfold get_default. rewrite Hnorm, Hlen, Hdig. cbn.
    rewrite Hhd. cbn. rewrite Hid, Hm. cbn.
    eexists. split; [reflexivity|]. cbn. repeat split; reflexivity.
Qed.

End Join.

(** The request of claim C1 in the example world: beto, who is not in room
    7, joins it with its code. *)
Lemma room_join_una_membresia_ejemplo :
  exists w',
    atender (room_join tabla_ascii col_exacta beto (Some (lit "123456"))) mundo_ejemplo
      = (Ret (redirect "chat"), w')
    /\ map mie_id_usuario (filas (Miembros_Sala (confirmada w'))) = [1; 2]
    /\ map men_es_sistema (filas (Mensajes_Sala (confirmada w'))) = [true].
Proof.
  destruct (room_join_una_membresia tabla_ascii col_exacta beto (u := 2) (c := lit "123456")
              {| sala_id_sala := 7; sala_codigo := lit "123456";
                 sala_nombre_sala := lit "Test"; sala_id_creador := 1;
                 sala_fecha_creacion := 0 |} mundo_ejemplo) as [H _].
  - reflexivity.
  - reflexivity.
  - simpl. left. reflexivity.
  - reflexivity.
  - intros s' [<- | []] _. reflexivity.
  - destruct H as (w' & Hrun & Hm & Hn & _).
    + intros (m & [<- | []] & _ & Hu). discriminate Hu.
    + exists w'. split; [exact Hrun|]. rewrite Hm, Hn. split; reflexivity.
Defined.

(** Claim C8 as stated fails: a code field of seven characters, a space and
    the six digits of room 7, is not refused: the rooms are searched, and
    beto becomes a member.  And a code of six superscript digits, which are
    not decimal digits, is not refused as malformed either: the rooms are
    searched for it. *)
Lemma room_join_codigo_con_espacio :
  List.length (lit " 123456") = 7%nat
  /\ es_codigo (lit " 123456") = false
  /\ fst (atender (room_join tabla_ascii col_exacta beto (Some (lit " 123456"))) mundo_ejemplo)
       = Ret (redirect "chat")
  /\ flashes (snd (atender (room_join tabla_ascii col_exacta beto (Some (lit " 123456")))
                           mundo_ejemplo))
       = ["Te uniste a la sala."%string]
  /\ hd_error (sql_log (snd (atender (room_join tabla_ascii col_exacta beto
                                                (Some (lit " 123456"))) mundo_ejemplo)))
       = Some "SELECT id_sala, codigo, nombre_sala FROM Salas WHERE codigo = %s"%string
  /\ map mie_id_usuario
         (filas (Miembros_Sala (confirmada (snd (atender
            (room_join tabla_ascii col_exacta beto (Some (lit " 123456"))) mundo_ejemplo)))))
       = [1; 2]
  /\ forallb ascii_isdigit [178; 178; 178; 178; 178; 178]%N = false
  /\ flashes (snd (atender (room_join tabla_superindices col_exacta beto
                              (Some [178; 178; 178; 178; 178; 178]%N)) mundo_ejemplo))
       = ["Sala no encontrada."%string]
  /\ sql_log (snd (atender (room_join tabla_superindices col_exacta beto
                              (Some [178; 178; 178; 178; 178; 178]%N)) mundo_ejemplo))
       = ["SELECT id_sala, codigo, nombre_sala FROM Salas WHERE codigo = %s"%string].
Proof.
  repeat split; vm_compute; reflexivity.
Qed.

(** The request of claim C8 in the example world: a code with a letter. *)
Lemma room_join_codigo_invalido_ejemplo :
  atender (room_join tabla_ascii col_exacta beto (Some (lit "12a456"))) mundo_ejemplo =
    (Ret (redirect "chat"),
     con_flashes (flashes mundo_ejemplo ++ ["Codigo invalido."%string]) (en_reposo mundo_ejemplo)).
Proof.
  apply (room_join_codigo_invalido tabla_ascii col_exacta beto (u := 2)
           (Some (lit "12a456")) mundo_ejemplo).
  - reflexivity.
  - reflexivity.
Defined.

(** ** Deleting a room *)

Lemma hd_filter_in (A : Type) (f : A -> bool) (l : list A) (x : A) :
  hd_error (filter f l) = Some x -> In x l /\ f x = true.
Proof.
  intro H. destruct (filter f l) as [|y l'] eqn:E; [discriminate|].
  injection H as ->. apply filter_In. rewrite E. now left.
Qed.

Lemma hd_filter_hay (A : Type) (f : A -> bool) (l : list A) (x : A) :
  In x l -> f x = true -> exists y, hd_error (filter f l) = Some y.
Proof.
  intros Hin Hf. destruct (filter f l) as [|y l'] eqn:E.
  - assert (Hx : In x (filter f l)) by (apply filter_In; now split).
    rewrite E in Hx. destruct Hx.
  - now exists y.
Qed.

Section Delete.
Variable U : Unicode.

(** What a delete request of a logged-in user does, test by test. *)
Lemma room_delete_casos (ses : Session) (u : Z) (form_room_id : option str) (w : World) :
  ses_user_id ses = Some u ->
  atender (room_delete U ses form_room_id) w =
    if negb (isdigit U (strip U (get_default form_room_id))) then
      (Ret (redirect "chat"), con_flashes (flashes w ++ ["Sala invalida."%string]) (en_reposo w))
    else
      match py_int U (strip U (get_default form_room_id)) with
      | None => (Raise ValueError, en_reposo w)
      | Some rid =>
          match hd_error (select_salas_id rid (confirmada w)) with
          | None =>
              (Ret (redirect "chat"),
               con_flashes (flashes w ++ ["Sala no encontrada."%string])
                 (con_sql_log (sql_log w ++ [SQL_SELECT_SALA_ID]) (en_reposo w)))
          | Some sala =>
              if negb (sala_id_creador sala =? u) then
                (Ret (redirect "chat"),
                 con_flashes (flashes w ++ ["Solo el creador puede borrar la sala."%string])
                   (con_sql_log (sql_log w ++ [SQL_SELECT_SALA_ID]) (en_reposo w)))
              else
                (Ret (redirect "chat"),
                 con_flashes (flashes w ++ ["Sala eliminada."%string])
                   (con_emitidos (emitidos w ++ [evento_sala_eliminada rid])
                      (con_sql_log ((sql_log w ++ [SQL_SELECT_SALA_ID]) ++ [SQL_DELETE_SALA])
                         (con_confirmada (fst (delete_sala rid (confirmada w)))
                            (con_conexion (fst (delete_sala rid (confirmada w))) w)))))
          end
      end.
Proof.
  intro Hu. unfold room_delete. desplegar. rewrite Hu.
  destruct (isdigit U (strip U (get_default form_room_id))); cbn; [|reflexivity].
  destruct (py_int U (strip U (get_default form_room_id))) as [rid|]; cbn; [|reflexivity].
  destruct (hd_error (select_salas_id rid (confirmada w))) as [sala|]; cbn; [|reflexivity].
  destruct (sala_id_creador sala =? u); cbn; reflexivity.
Qed.

(** Claim C5: the rooms, members and messages change in a delete request
    only when the acting user is the creator of the room the request names;
    and a request that names an existing room of which the acting user is
    not the creator is answered with the flash
    [Solo el creador puede borrar la sala.], and changes neither the
    database nor the events. *)
Theorem room_delete_solo_el_creador
    (ses : Session) (u : Z) (form_room_id : option str) (w : World) :
  ses_user_id ses = Some u ->
  (confirmada (snd (atender (room_delete U ses form_room_id) w)) <> confirmada w ->
   exists rid sala,
     py_int U (strip U (get_default form_room_id)) = Some rid
     /\ In sala (filas (Salas (confirmada w)))
     /\ sala_id_sala sala = rid
     /\ sala_id_creador sala = u)
  /\
  (forall rid,
     isdigit U (strip U (get_default form_room_id)) = true ->
     py_int U (strip U (get_default form_room_id)) = Some rid ->
     (exists sala, In sala (filas (Salas (confirmada w))) /\ sala_id_sala sala = rid) ->
     (forall sala, In sala (filas (Salas (confirmada w))) ->
                   sala_id_sala sala = rid -> sala_id_creador sala <> u) ->
     exists w',
       atender (room_delete U ses form_room_id) w = (Ret (redirect "chat"), w')
       /\ confirmada w' = confirmada w
       /\ emitidos w' = emitidos w
       /\ flashes w' = flashes w ++ ["Solo el creador puede borrar la sala."%string]).
Proof.
  intro Hu. rewrite (room_delete_casos ses form_room_id w Hu). split.
  - destruct (isdigit U _); cbn; [|congruence].
    destruct (py_int U _) as [rid|]; cbn; [|congruence].
    destruct (hd_error _) as [sala|] eqn:Hsel; cbn; [|congruence].
    destruct (Z.eqb_spec (sala_id_creador sala) u) as [Hcre|Hcre]; cbn; [|congruence].
    intros _. apply hd_filter_in in Hsel as [Hin Hid]. apply Z.eqb_eq in Hid.
    exists rid, sala. auto.
  - intros rid Hdig Hint (sala & Hin & Hid) Hotro.
    rewrite Hdig, Hint. cbn.
    destruct (hd_filter_hay (fun s => sala_id_sala s =? rid) _ sala Hin) as (s0 & Hs0).
    { now apply Z.eqb_eq. }
    unfold select_salas_id. rewrite Hs0.
    apply hd_filter_in in Hs0 as [Hin0 Hid0]. apply Z.eqb_eq in Hid0.
    destruct (Z.eqb_spec (sala_id_creador s0) u) as [Hcre|Hcre]; cbn.
    + exfalso. exact (Hotro s0 Hin0 Hid0 Hcre).
    + eexists. split; [reflexivity|]. cbn. repeat split; reflexivity.
Qed.

(** Claim C6, as the code has it: after a delete request of the creator, the
    one event sent is [actualizar_ui] with the payload
    [{motivo: sala_eliminada}], to the Socket.IO room of the deleted room;
    its payload has no [room_id]. *)
Theorem room_delete_emite_actualizar_ui
    (ses : Session) (u rid : Z) (form_room_id : option str) (w : World) :
  ses_user_id ses = Some u ->
  isdigit U (strip U (get_default form_room_id)) = true ->
  py_int U (strip U (get_default form_room_id)) = Some rid ->
  (exists sala, In sala (filas (Salas (confirmada w))) /\ sala_id_sala sala = rid) ->
  (forall sala, In sala (filas (Salas (confirmada w))) ->
                sala_id_sala sala = rid -> sala_id_creador sala = u) ->
  exists w',
    atender (room_delete U ses form_room_id) w = (Ret (redirect "chat"), w')
    /\ confirmada w' = fst (delete_sala rid (confirmada w))
    /\ emitidos w' =
         emitidos w ++
         [ {| ev_nombre := "actualizar_ui";
              ev_datos := [("motivo"%string, VStr (lit "sala_eliminada"))];
              ev_to := nombre_sala (lit "room") rid |} ]
    /\ flashes w' = flashes w ++ ["Sala eliminada."%string].
Proof.
  intros Hu Hdig Hint (sala & Hin & Hid) Hcre.
  rewrite (room_delete_casos ses form_room_id w Hu), Hdig, Hint. cbn.
  destruct (hd_filter_hay (fun s => sala_id_sala s =? rid) _ sala Hin) as (s0 & Hs0).
  { now apply Z.eqb_eq. }
  unfold select_salas_id. rewrite Hs0.
  apply hd_filter_in in Hs0 as [Hin0 Hid0]. apply Z.eqb_eq in Hid0.
  rewrite (Hcre s0 Hin0 Hid0), Z.eqb_refl. cbn.
  eexists. split; [reflexivity|]. cbn. repeat split; reflexivity.
Qed.

End Delete.

(** The request of claim C5 in the example world: beto asks to delete the
    room 7 of ana. *)
Lemma room_delete_solo_el_creador_ejemplo :
  exists w',
    atender (room_delete tabla_ascii beto (Some (lit "7"))) mundo_ejemplo
      = (Ret (redirect "chat"), w')
    /\ confirmada w' = confirmada mundo_ejemplo
    /\ emitidos w' = emitidos mundo_ejemplo
    /\ flashes w' = flashes mundo_ejemplo ++ ["Solo el creador puede borrar la sala."%string].
Proof.
  destruct (room_delete_solo_el_creador tabla_ascii beto (u := 2) (Some (lit "7")) mundo_ejemplo)
    as [_ H].
  - reflexivity.
  - apply (H 7).
    + reflexivity.
    + reflexivity.
    + eexists. split; [left; reflexivity | reflexivity].
    + intros sala [<- | []] _. simpl. lia.
Defined.

(** Claim C6 as stated fails: ana deletes her room 7; the room is gone, and
    the one event sent is not named [room_deleted] and carries no
    [room_id]. *)
Lemma room_delete_no_emite_room_deleted :
  fst (atender (room_delete tabla_ascii ana (Some (lit "7"))) mundo_ejemplo)
    = Ret (redirect "chat")
  /\ filas (Salas (confirmada (snd (atender (room_delete tabla_ascii ana (Some (lit "7")))
                                           mundo_ejemplo)))) = []
  /\ map ev_nombre (emitidos (snd (atender (room_delete tabla_ascii ana (Some (lit "7")))
                                          mundo_ejemplo)))
       = ["actualizar_ui"%string]
  /\ existsb (fun e => String.eqb (ev_nombre e) "room_deleted"
                       || existsb (fun kv => String.eqb (fst kv) "room_id") (ev_datos e))
             (emitidos (snd (atender (room_delete tabla_ascii ana (Some (lit "7")))
                                     mundo_ejemplo)))
       = false.
Proof.
  repeat split; vm_compute; reflexivity.
Qed.

(** The request of claim C6 in the example world: ana deletes her room 7. *)
Lemma room_delete_emite_actualizar_ui_ejemplo :
  exists w',
    atender (room_delete tabla_ascii ana (Some (lit "7"))) mundo_ejemplo
      = (Ret (redirect "chat"), w')
    /\ confirmada w' = fst (delete_sala 7 (confirmada mundo_ejemplo))
    /\ emitidos w' =
         emitidos mundo_ejemplo ++
         [ {| ev_nombre := "actualizar_ui";
              ev_datos := [("motivo"%string, VStr (lit "sala_eliminada"))];
              ev_to := nombre_sala (lit "room") 7 |} ]
    /\ flashes w' = flashes mundo_ejemplo ++ ["Sala eliminada."%string].
Proof.
  apply (room_delete_emite_actualizar_ui tabla_ascii ana (u := 1) (rid := 7)
           (Some (lit "7")) mundo_ejemplo).
  - reflexivity.
  - reflexivity.
  - reflexivity.
  - eexists. split; [left; reflexivity | reflexivity].
  - intros sala [<- | []] _. reflexivity.
Defined.

(** ** Leaving a room *)

Lemma lit_inj (a b : string) : lit a = lit b -> a = b.
Proof.
  unfold lit. intro H.
  assert (Hl : list_ascii_of_string a = list_ascii_of_string b).
  { revert H. generalize (list_ascii_of_string a) (list_ascii_of_string b).
    intro l; induction l as [|x l IH]; intros [|y l'] H; simpl in H;
      try reflexivity; try discriminate.
    injection H as Hx Hl. apply (f_equal ascii_of_N) in Hx.
    rewrite !ascii_N_embedding in Hx. subst. f_equal. now apply IH. }
  apply (f_equal string_of_list_ascii) in Hl.
  now rewrite !string_of_list_ascii_of_string in Hl.
Qed.

(** [str()] tells two integers apart. *)
Lemma str_of_int_inj (a b : Z) : str_of_int a = str_of_int b -> a = b.
Proof.
  unfold str_of_int. intro H. apply lit_inj in H.
  apply (f_equal NilEmpty.int_of_string) in H.
  rewrite !NilEmpty.isi in H. injection H as H.
  apply (f_equal Z.of_int) in H. now rewrite !DecimalZ.of_to in H.
Qed.

(** Two rooms of the application have different rooms of Socket.IO. *)
Lemma nombre_sala_inj (tipo : str) (a b : Z) :
  nombre_sala tipo a = nombre_sala tipo b -> a = b.
Proof.
  unfold nombre_sala. intro H.
  apply app_inv_head in H. apply app_inv_head in H.
  now apply str_of_int_inj.
Qed.

(** The private room of a user is the room of no room of the application. *)
Lemma nombre_sala_usuario_no_sala (u r : Z) :
  nombre_sala_usuario u <> nombre_sala (lit "room") r.
Proof.
  unfold nombre_sala_usuario, nombre_sala, lit. simpl. discriminate.
Qed.

Lemma for_each_join_room (A : Type) (sid : Z) (f : A -> str) (l : list A) (w : World) :
  fst (for_each l (fun x => join_room sid (f x)) w) = Ret tt
  /\ sio_rooms (snd (for_each l (fun x => join_room sid (f x)) w))
     = sio_rooms w ++ map (fun x => (sid, f x)) l
  /\ confirmada (snd (for_each l (fun x => join_room sid (f x)) w)) = confirmada w.
Proof.
  revert w. induction l as [|x l IH]; intro w; simpl.
  - now rewrite app_nil_r.
  - unfold bind, join_room at 1. simpl.
    specialize (IH (con_sio_rooms (sio_rooms w ++ [(sid, f x)]) w)).
    destruct IH as (H1 & H2 & H3).
    repeat split; [exact H1 | | exact H3].
    rewrite H2. simpl. now rewrite <- app_assoc.
Qed.

(** The rooms of Socket.IO after a [connect]: the private room of the user
    and one room for each row the user has in [Miembros_Sala]. *)
Lemma manejar_conexion_sio_rooms (ses : Session) (u sid : Z) (w : World) :
  session_get_user_id ses = Some u ->
  sio_rooms (snd (atender (manejar_conexion ses sid) w)) =
    sio_rooms w ++ (sid, nombre_sala_usuario u)
      :: map (fun m => (sid, nombre_sala (lit "room") (mie_id_sala m)))
             (select_salas_de_usuario u (confirmada w)).
Proof.
  intro Hu. unfold manejar_conexion. rewrite Hu. desplegar. cbn.
  match goal with
  | |- context [for_each ?l ?b ?w0] =>
      destruct (for_each_join_room sid
                  (fun m => nombre_sala (lit "room") (mie_id_sala m)) l w0) as (_ & H2 & _);
      unfold join_room in H2;
      destruct (for_each l b w0) as [r w1]
  end.
  cbn in H2 |- *. rewrite H2. now rewrite <- app_assoc.
Qed.

Section Leave.
Variable U : Unicode.

(** What a leave request of a logged-in user does, test by test. *)
Lemma room_leave_casos (ses : Session) (u : Z) (form_room_id : option str) (w : World) :
  ses_user_id ses = Some u ->
  atender (room_leave U ses form_room_id) w =
    if negb (isdigit U (strip U (get_default form_room_id))) then
      (Ret (redirect "chat"), con_flashes (flashes w ++ ["Sala invalida."%string]) (en_reposo w))
    else
      match py_int U (strip U (get_default form_room_id)) with
      | None => (Raise ValueError, en_reposo w)
      | Some rid =>
          match hd_error (select_miembro rid u (confirmada w)) with
          | None =>
              (Ret (redirect "chat"),
               con_flashes (flashes w ++ ["No perteneces a esa sala."%string])
                 (con_sql_log (sql_log w ++ [SQL_SELECT_MIEMBRO]) (en_reposo w)))
          | Some _ =>
              let aviso := username_or ses "Anon" ++ lit " salio de la sala." in
              let f := utc_src w (utc_pos w) in
              let db := fst (insert_mensaje rid None aviso f true None None
                               (fst (delete_miembro rid u (confirmada w)))) in
              (Ret (redirect "chat"),
               con_flashes (flashes w ++ ["Saliste de la sala."%string])
                 (con_emitidos
                    (emitidos w ++
                     [ {| ev_nombre := "room_notice";
                          ev_datos := aviso_datos rid aviso f;
                          ev_to := nombre_sala (lit "room") rid |} ])
                    (con_sql_log
                       (((sql_log w ++ [SQL_SELECT_MIEMBRO]) ++ [SQL_DELETE_MIEMBRO])
                          ++ [SQL_INSERT_AVISO])
                       (con_utc_pos (S (utc_pos w))
                          (con_confirmada db (con_conexion db w))))))
          end
      end.
Proof.
  intro Hu. unfold room_leave. desplegar. rewrite Hu.
  destruct (isdigit U (strip U (get_default form_room_id))); cbn; [|reflexivity].
  destruct (py_int U (strip U (get_default form_room_id))) as [rid|]; cbn; [|reflexivity].
  destruct (hd_error (select_miembro rid u (confirmada w))) as [m|]; cbn; reflexivity.
Qed.

(** Claim C9: a member leaves a room.  The request deletes the rows of the
    user in [Miembros_Sala] for the room, adds the system notice of the
    departure to [Mensajes_Sala], and sends the notice to the room; the room
    registry of Socket.IO is left as it was, so every connection that was in
    the room of Socket.IO, those of the leaving user among them, still is,
    and receives that notice.  A connection the user opens afterwards is
    not put in that room. *)
Theorem room_leave_no_desuscribe
    (ses : Session) (u rid : Z) (form_room_id : option str) (w : World) :
  ses_user_id ses = Some u ->
  isdigit U (strip U (get_default form_room_id)) = true ->
  py_int U (strip U (get_default form_room_id)) = Some rid ->
  es_miembro u rid (confirmada w) ->
  exists w',
    atender (room_leave U ses form_room_id) w = (Ret (redirect "chat"), w')
    /\ filas (Miembros_Sala (confirmada w')) =
         filter (fun m => negb ((mie_id_sala m =? rid) && (mie_id_usuario m =? u)))
                (filas (Miembros_Sala (confirmada w)))
    /\ filas (Mensajes_Sala (confirmada w')) =
         filas (Mensajes_Sala (confirmada w)) ++
         [ {| men_id_mensaje := auto_increment (Mensajes_Sala (confirmada w));
              men_id_sala := rid;
              men_id_emisor := None;
              men_contenido := username_or ses "Anon" ++ lit " salio de la sala.";
              men_fecha_envio := utc_src w (utc_pos w);
              men_es_sistema := true;
              men_tipo_archivo := None;
              men_archivo_datos := None |} ]
    /\ Salas (confirmada w') = Salas (confirmada w)
    /\ Usuarios (confirmada w') = Usuarios (confirmada w)
    /\ emitidos w' =
         emitidos w ++
         [ {| ev_nombre := "room_notice";
              ev_datos := aviso_datos rid (username_or ses "Anon" ++ lit " salio de la sala.")
                                      (utc_src w (utc_pos w));
              ev_to := nombre_sala (lit "room") rid |} ]
    /\ sio_rooms w' = sio_rooms w
    /\ destinatarios w' (nombre_sala (lit "room") rid)
       = destinatarios w (nombre_sala (lit "room") rid)
    /\ (forall ses' sid',
          ses_user_id ses' = Some u ->
          (forall room, ~ In (sid', room) (sio_rooms w)) ->
          ~ In sid' (destinatarios (snd (atender (manejar_conexion ses' sid') w'))
                                   (nombre_sala (lit "room") rid))).
Proof.
  intros Hu Hdig Hint Hmie.
  apply select_miembro_hay in Hmie as (m0 & Hm0).
  rewrite (room_leave_casos ses form_room_id w Hu), Hdig, Hint. cbn [negb].
  rewrite Hm0.
  eexists. split; [reflexivity|].
  repeat split; try reflexivity.
  intros ses' sid' Hu' Hfresh Hin.
  unfold destinatarios in Hin. apply in_map_iff in Hin as ([sid0 room0] & Hsid & Hin).
  simpl in Hsid. subst sid0.
  apply filter_In in Hin as [Hin Hroom]. simpl in Hroom.
  apply str_eqb_eq in Hroom. subst room0.
  destruct (Z.eq_dec u 0) as [Hz|Hnz].
  - (* the session of user 0 is taken for no session: nothing is joined *)
    unfold manejar_conexion, session_get_user_id in Hin. rewrite Hu', Hz in Hin.
    cbn in Hin. exact (Hfresh _ Hin).
  - assert (Hget : session_get_user_id ses' = Some u).
    { unfold session_get_user_id. rewrite Hu'. destruct u; congruence. }
    rewrite (manejar_conexion_sio_rooms ses' sid' _ Hget) in Hin.
    apply in_app_or in Hin as [Hin | [Hin | Hin]].
    + cbn in Hin. exact (Hfresh _ Hin).
    + apply (f_equal snd) in Hin. exact (nombre_sala_usuario_no_sala Hin).
    + apply in_map_iff in Hin as (m & Hm & Hin).
      apply (f_equal snd) in Hm. apply nombre_sala_inj in Hm.
      unfold select_salas_de_usuario in Hin. cbn in Hin.
      apply filter_In in Hin as [Hin Hmu].
      apply filter_In in Hin as [_ Hneg].
      rewrite Hm, Hmu, Z.eqb_refl in Hneg. discriminate.
Qed.

End Leave.

(** The request of claim C9 in the example world: ana, whose connection 40
    is in the room of Socket.IO of room 7, leaves room 7; the connection
    stays in it. *)
Lemma room_leave_no_desuscribe_ejemplo :
  exists w',
    atender (room_leave tabla_ascii ana (Some (lit "7"))) mundo_ejemplo
      = (Ret (redirect "chat"), w')
    /\ filas (Miembros_Sala (confirmada w')) = []
    /\ destinatarios w' (nombre_sala (lit "room") 7) = [40].
Proof.
  destruct (room_leave_no_desuscribe tabla_ascii ana (u := 1) (rid := 7)
              (Some (lit "7")) mundo_ejemplo) as (w' & Hrun & Hm & _ & _ & _ & _ & _ & Hd & _).
  - reflexivity.
  - reflexivity.
  - reflexivity.
  - eexists. split; [left; reflexivity | split; reflexivity].
  - exists w'. split; [exact Hrun|]. rewrite Hm, Hd. split; reflexivity.
Defined.

(** ** Downloading a media file *)

Section Media.
Variable U : Unicode.

(** Claim C10: [get_media] sends one statement, the SELECT on
    [Mensajes_Sala], and changes nothing else; it does the same with no
    session as with any session; its answer does not depend on the rows of
    [Miembros_Sala].  The answer is 404 or the non-empty blob of a row of
    [Mensajes_Sala] with the id asked for: there is no other outcome.  It
    is 404 when no row has that id; and when one row has it (the id is the
    key of the table), it is the blob of that row if the row has a
    non-empty one, and 404 if the row has none or an empty one. *)
Theorem get_media_sin_control (ses : Session) (id_mensaje : Z) (w : World) :
  snd (atender (get_media U ses id_mensaje) w)
    = con_sql_log (sql_log w ++ [SQL_SELECT_MEDIA]) (en_reposo w)
  /\ atender (get_media U ses id_mensaje) w = atender (get_media U anonimo id_mensaje) w
  /\ (forall t : Tabla Miembro,
        fst (atender (get_media U ses id_mensaje)
                     (con_confirmada (con_Miembros_Sala t (confirmada w)) w))
        = fst (atender (get_media U ses id_mensaje) w))
  /\ (fst (atender (get_media U ses id_mensaje) w) = Ret (texto "Not found" 404)
      \/ exists m b bs mime,
           In m (filas (Mensajes_Sala (confirmada w)))
           /\ men_id_mensaje m = id_mensaje
           /\ men_archivo_datos m = Some (b :: bs)
           /\ fst (atender (get_media U ses id_mensaje) w) = Ret (Response (b :: bs) mime))
  /\ ((forall m, In m (filas (Mensajes_Sala (confirmada w))) ->
                 men_id_mensaje m <> id_mensaje) ->
      fst (atender (get_media U ses id_mensaje) w) = Ret (texto "Not found" 404))
  /\ (forall m,
        In m (filas (Mensajes_Sala (confirmada w))) ->
        men_id_mensaje m = id_mensaje ->
        (forall m', In m' (filas (Mensajes_Sala (confirmada w))) ->
                    men_id_mensaje m' = id_mensaje -> m' = m) ->
        match men_archivo_datos m with
        | Some (b :: bs) =>
            exists mime, fst (atender (get_media U ses id_mensaje) w)
                         = Ret (Response (b :: bs) mime)
        | _ => fst (atender (get_media U ses id_mensaje) w) = Ret (texto "Not found" 404)
        end).
Proof.
  unfold get_media. desplegar. cbn.
  change (select_mensaje id_mensaje
            (con_Miembros_Sala ?t (confirmada w))) with (select_mensaje id_mensaje (confirmada w)).
  unfold select_mensaje.
  destruct (hd_error (filter (fun m => men_id_mensaje m =? id_mensaje)
                             (filas (Mensajes_Sala (confirmada w))))) as [m0|] eqn:Hsel; cbn.
  - apply hd_filter_in in Hsel as [Hin0 Hid0]. apply Z.eqb_eq in Hid0.
    destruct (men_archivo_datos m0) as [[|b bs]|] eqn:Hdatos; cbn;
      (split; [reflexivity|]); (split; [reflexivity|]); (split; [reflexivity|]);
      (split; [|split]);
      try (intro Hno; elim (Hno m0 Hin0 Hid0));
      try (intros m Hin Hid Huniq; rewrite <- (Huniq m0 Hin0 Hid0), Hdatos;
           first [reflexivity | eexists; reflexivity]).
    + now left.
    + right. exists m0, b, bs. eexists.
      repeat split; [exact Hin0 | exact Hid0 | exact Hdatos].
    + now left.
  - split; [reflexivity|]. split; [reflexivity|]. split; [reflexivity|].
    split; [now left|]. split; [reflexivity|].
    intros m Hin Hid _. exfalso.
    destruct (hd_filter_hay (fun x => men_id_mensaje x =? id_mensaje) _ m Hin) as (y & Hy).
    + now apply Z.eqb_eq.
    + congruence.
Qed.

End Media.

(** A stored blob is served to whoever asks: in a world where message 1 of
    room 7 carries a file, beto, who is not a member of the room, and a
    visitor with no session both receive the bytes; the id 2, which no
    message has, is answered with 404. *)
Lemma get_media_sin_control_ejemplo :
  ~ es_miembro 2 7 (confirmada mundo_media)
  /\ (exists mime, fst (atender (get_media tabla_ascii beto 1) mundo_media)
                   = Ret (Response [Byte.x01; Byte.x02] mime))
  /\ (exists mime, fst (atender (get_media tabla_ascii anonimo 1) mundo_media)
                   = Ret (Response [Byte.x01; Byte.x02] mime))
  /\ fst (atender (get_media tabla_ascii anonimo 2) mundo_media) = Ret (texto "Not found" 404).
Proof.
  split; [|split; [|split]].
  - intros (m & [<- | []] & _ & Hu). discriminate Hu.
  - destruct (get_media_sin_control tabla_ascii beto 1 mundo_media)
      as (_ & _ & _ & _ & _ & H).
    apply (H mensaje_media).
    + left. reflexivity.
    + reflexivity.
    + intros m' [<- | []] _. reflexivity.
  - destruct (get_media_sin_control tabla_ascii anonimo 1 mundo_media)
      as (_ & _ & _ & _ & _ & H).
    apply (H mensaje_media).
    + left. reflexivity.
    + reflexivity.
    + intros m' [<- | []] _. reflexivity.
  - destruct (get_media_sin_control tabla_ascii anonimo 2 mundo_media)
      as (_ & _ & _ & _ & H & _).
    apply H. intros m [<- | []]. discriminate.
Defined.

(** ** Sending a text message *)

Section Send.
Variable U : Unicode.

Lemma py_ne_str_false (v : PyVal) (s : str) : py_ne_str v s = false -> v = PyStr s.
Proof.
  destruct v; simpl; try discriminate.
  intro H. apply negb_false_iff in H. apply str_eqb_eq in H. now subst.
Qed.

Lemma py_int_val_puro (v : PyVal) :
  exists r, (forall w1, py_int_val U v w1 = (r, w1)) /\ r <> Agotado.
Proof.
  unfold py_int_val, int_str, ret, raise.
  destruct v as [ | b | z | s | t v]; try (eexists; split; [reflexivity | discriminate]).
  destruct (py_int U s); eexists; (split; [reflexivity | discriminate]).
Qed.

(** [(data.get("body") or "").strip()]: the trimmed string, the empty string
    for a value that is not true, and an [AttributeError] for a true value
    that is not a string. *)
Lemma body_casos (v : PyVal) :
  (exists raw, v = PyStr raw
     /\ py_strip U (if truthy v then v else PyStr []) = ret (strip U raw))
  \/ ((forall raw, v <> PyStr raw)
      /\ (py_strip U (if truthy v then v else PyStr []) = ret []
          \/ py_strip U (if truthy v then v else PyStr []) = raise AttributeError)).
Proof.
  destruct v as [ | b | z | raw | t v].
  - right. split; [discriminate | left; reflexivity].
  - right. split; [discriminate | destruct b; [right | left]; reflexivity].
  - right. split; [discriminate | simpl; destruct (z =? 0); [left | right]; reflexivity].
  - left. exists raw. split; [reflexivity | destruct raw; reflexivity].
  - right. split; [discriminate | destruct v; [right | left]; reflexivity].
Qed.

(** Claim C3, as the code has it.  A [send_message] event either is accepted,
    and then the sender is logged in and a member of the room named, the body
    is a string that is not empty once trimmed, and the handler adds one row
    to [Mensajes_Sala] with the trimmed body and sends one [message] event
    with the sender, the body and the time of the server to the room; or it
    is dropped without a word: the handler returns [None] (or raises), the
    database is as before, no event is sent and no message is flashed.  An
    event of a logged-in member with a room id made of decimal digits and a
    body not empty once trimmed is accepted. *)
Theorem manejar_envio_mensaje_acepta_o_descarta (ses : Session) (data : Data) (w : World) :
  ((exists u rid raw,
      session_get_user_id ses = Some u
      /\ data_room_type data = PyStr (lit "room")
      /\ data_body data = PyStr raw
      /\ strip U raw <> []
      /\ fst (py_int_val U (data_room_id data) w) = Ret rid
      /\ es_miembro u rid (confirmada w)
      /\ fst (atender (manejar_envio_mensaje U ses data) w) = Ret tt
      /\ filas (Mensajes_Sala (confirmada (snd (atender (manejar_envio_mensaje U ses data) w))))
         = filas (Mensajes_Sala (confirmada w)) ++
           [ {| men_id_mensaje := auto_increment (Mensajes_Sala (confirmada w));
                men_id_sala := rid;
                men_id_emisor := Some u;
                men_contenido := strip U raw;
                men_fecha_envio := utc_src w (utc_pos w);
                men_es_sistema := false;
                men_tipo_archivo := None;
                men_archivo_datos := None |} ]
      /\ emitidos (snd (atender (manejar_envio_mensaje U ses data) w))
         = emitidos w ++ [evento_message ses rid (strip U raw) (utc_src w (utc_pos w))]
      /\ flashes (snd (atender (manejar_envio_mensaje U ses data) w)) = flashes w)
   \/
   ((fst (atender (manejar_envio_mensaje U ses data) w) = Ret tt
     \/ exists e, fst (atender (manejar_envio_mensaje U ses data) w) = Raise e)
    /\ sin_efecto w (atender (manejar_envio_mensaje U ses data) w)))
  /\
  (forall u rid raw,
     session_get_user_id ses = Some u ->
     data_room_type data = PyStr (lit "room") ->
     data_body data = PyStr raw ->
     strip U raw <> [] ->
     isdigit U (py_str (data_room_id data)) = true ->
     fst (py_int_val U (data_room_id data) w) = Ret rid ->
     es_miembro u rid (confirmada w) ->
     fst (atender (manejar_envio_mensaje U ses data) w) = Ret tt
     /\ emitidos (snd (atender (manejar_envio_mensaje U ses data) w))
        = emitidos w ++ [evento_message ses rid (strip U raw) (utc_src w (utc_pos w))]
     /\ map men_contenido
          (filas (Mensajes_Sala (confirmada (snd (atender (manejar_envio_mensaje U ses data) w)))))
        = map men_contenido (filas (Mensajes_Sala (confirmada w))) ++ [strip U raw]).
Proof.
  remember (atender (manejar_envio_mensaje U ses data) w) as R eqn:HR.
  unfold manejar_envio_mensaje in HR.
  destruct (py_int_val_puro (data_room_id data)) as (ri & Hint & Hago).
  split.
  - destruct (session_get_user_id ses) as [u|] eqn:Hu.
    2:{ right. subst R. unfold sin_efecto. desplegar. cbn. auto 10. }
    destruct (body_casos (data_body data)) as [(raw & Hbody & Hb) | (_ & [Hb | Hb])];
      rewrite Hb in HR.
    2:{ right. subst R. unfold sin_efecto. desplegar. cbn. rewrite orb_true_r. cbn. auto 10. }
    2:{ right. subst R. unfold sin_efecto. desplegar. cbn. eauto 10. }
    destruct (py_ne_str (data_room_type data) (lit "room")) eqn:Htipo.
    { right. subst R. unfold sin_efecto. desplegar. cbn. auto 10. }
    apply py_ne_str_false in Htipo.
    destruct (isdigit U (py_str (data_room_id data))) eqn:Hdig.
    2:{ right. subst R. unfold sin_efecto. desplegar. cbn. auto 10. }
    destruct (strip U raw) as [|c body] eqn:Hstrip.
    { right. subst R. unfold sin_efecto. desplegar. cbn. auto 10. }
    unfold atender, bind at 1, ret at 1 in HR. cbn [orb negb] in HR.
    unfold bind at 1 in HR. rewrite Hint in HR.
    destruct ri as [rid | e | ]; [ | | congruence].
    2:{ right. subst R. unfold sin_efecto. cbn. eauto 10. }
    unfold bind at 1, usuario_en_sala, consultar_db_one, consultar_db in HR.
    unfold bind at 1, bind at 1, ret at 1 in HR. cbn [conexion con_conexion con_sql_log] in HR.
    destruct (hd_error (select_miembro rid u (confirmada w))) as [m|] eqn:Hm.
    2:{ right. subst R. unfold sin_efecto. cbn. auto 10. }
    left. exists u, rid, raw.
    apply hd_filter_in in Hm as [Hin Hmm].
    apply andb_prop in Hmm as [Hm1 Hm2]. apply Z.eqb_eq in Hm1, Hm2.
    rewrite Hint, Hstrip. subst R. desplegar. cbn. rewrite Htipo.
    repeat split; try assumption; try discriminate; try reflexivity.
    now exists m.
  - intros u rid raw Hu Htipo Hbody Hne Hdig Hrid Hmie.
    apply select_miembro_hay in Hmie as (m & Hm).
    rewrite Hint in Hrid. cbn in Hrid. subst ri.
    rewrite Hu, Hbody, Htipo in HR.
    destruct (body_casos (PyStr raw)) as [(raw' & Hraw & Hb) | (Hno & _)];
      [ | now elim (Hno raw)].
    injection Hraw as <-. rewrite Hb in HR. rewrite Hdig in HR.
    destruct (strip U raw) as [|c body] eqn:Hstrip; [congruence|].
    unfold atender, bind at 1, ret at 1 in HR. cbn [orb negb py_ne_str] in HR.
    rewrite str_eqb_refl in HR. cbn [orb negb] in HR.
    unfold bind at 1 in HR. rewrite Hint in HR.
    unfold bind at 1, usuario_en_sala, consultar_db_one, consultar_db in HR.
    unfold bind at 1, bind at 1, ret at 1 in HR. cbn [conexion con_conexion con_sql_log] in HR.
    rewrite Hm in HR.
    subst R. desplegar. cbn.
    repeat split; try reflexivity.
    rewrite map_app. reflexivity.
Qed.

End Send.

(** Claim C3 as stated fails on its second half.  Ana, a member of room 7,
    sends a body of blanks, and beto, who is not a member, sends a greeting:
    each event is dropped, the handler returns [None], and nothing is
    sent back: no event is emitted and no message is flashed. *)
Lemma manejar_envio_mensaje_rechazo_mudo :
  atender (manejar_envio_mensaje tabla_ascii ana
             {| data_room_type := PyStr (lit "room"); data_room_id := PyInt 7;
                data_body := PyStr (lit "   ") |}) mundo_ejemplo
    = (Ret tt, mundo_ejemplo)
  /\ fst (atender (manejar_envio_mensaje tabla_ascii beto
                     {| data_room_type := PyStr (lit "room"); data_room_id := PyInt 7;
                        data_body := PyStr (lit "hola") |}) mundo_ejemplo)
     = Ret tt
  /\ emitidos (snd (atender (manejar_envio_mensaje tabla_ascii beto
                     {| data_room_type := PyStr (lit "room"); data_room_id := PyInt 7;
                        data_body := PyStr (lit "hola") |}) mundo_ejemplo))
     = []
  /\ flashes (snd (atender (manejar_envio_mensaje tabla_ascii beto
                     {| data_room_type := PyStr (lit "room"); data_room_id := PyInt 7;
                        data_body := PyStr (lit "hola") |}) mundo_ejemplo))
     = []
  /\ confirmada (snd (atender (manejar_envio_mensaje tabla_ascii beto
                     {| data_room_type := PyStr (lit "room"); data_room_id := PyInt 7;
                        data_body := PyStr (lit "hola") |}) mundo_ejemplo))
     = db_ejemplo.
Proof.
  repeat split; vm_compute; reflexivity.
Qed.

(** An accepted event in the example world: ana writes to her room 7. *)
Example manejar_envio_mensaje_ejemplo :
  let r := atender (manejar_envio_mensaje tabla_ascii ana
                      {| data_room_type := PyStr (lit "room"); data_room_id := PyStr (lit "7");
                         data_body := PyStr (lit " hola ") |}) mundo_ejemplo in
  fst r = Ret tt
  /\ map men_contenido (filas (Mensajes_Sala (confirmada (snd r)))) = [lit "hola"]
  /\ emitidos (snd r) = [evento_message ana 7 (lit "hola") 100].
Proof.
  repeat split; vm_compute; reflexivity.
Qed.

(** ** Uploading a media file *)

Lemma rsplit_aux_none (sep : N) (s : str) :
  contiene sep s = false -> rsplit_aux sep s = None.
Proof.
  unfold contiene. induction s as [|c s IH]; simpl; [reflexivity|].
  intro H. apply orb_false_iff in H as [Hc Hs].
  rewrite (IH Hs). rewrite N.eqb_sym in Hc. now rewrite Hc.
Qed.

(** The split at the last separator: what follows it has none. *)
Lemma rsplit_aux_ultimo (sep : N) (a b : str) :
  contiene sep b = false -> rsplit_aux sep (a ++ sep :: b) = Some (a, b).
Proof.
  intro Hb. induction a as [|c a IH]; simpl.
  - now rewrite (rsplit_aux_none sep b Hb), N.eqb_refl.
  - now rewrite IH.
Qed.

Lemma contiene_app (sep : N) (a b : str) : contiene sep (a ++ sep :: b) = true.
Proof.
  unfold contiene. rewrite existsb_app. simpl.
  rewrite N.eqb_refl. simpl. apply orb_true_r.
Qed.

Section Upload.
Variable U : Unicode.


End Upload.

(** The case of the extension does not matter: ana's upload of [a.MP3] to
    her room 7 is accepted as an [mp3] is, and a row is created with the
    media kind [audio]. *)
Lemma upload_media_extension_mayusculas :
  rsplit1 punto (lit "a.MP3") = [lit "a"; lit "MP3"]
  /\ en (lit "MP3") ALLOWED_EXTENSIONS = false
  /\ fst (atender (upload_media tabla_ascii ana (Some (lit "7"))
                     (Some {| fs_filename := lit "a.MP3"; fs_read := [Byte.x01] |}))
                  mundo_ejemplo)
     = Ret (jsonify_success 1)
  /\ map men_tipo_archivo
       (filas (Mensajes_Sala (confirmada (snd (atender
          (upload_media tabla_ascii ana (Some (lit "7"))
             (Some {| fs_filename := lit "a.MP3"; fs_read := [Byte.x01] |}))
          mundo_ejemplo)))))
     = [Some (lit "audio")].
Proof.
  repeat split; vm_compute; reflexivity.
Qed.


(** ** The history of a room *)

Section Orden.
Variable A : Type.
Variable key : A -> Z.

Lemma insertar_desc_perm (x : A) (l : list A) :
  Permutation (x :: l) (insertar_desc key x l).
Proof.
  induction l as [|y l IH]; simpl; [apply Permutation_refl|].
  destruct (key y <=? key x); [apply Permutation_refl|].
  apply perm_trans with (y :: x :: l); [apply perm_swap | now apply perm_skip].
Qed.

Lemma order_by_desc_perm (l : list A) : Permutation l (order_by_desc key l).
Proof.
  induction l as [|x l IH]; simpl; [apply perm_nil|].
  apply perm_trans with (x :: order_by_desc key l);
    [now apply perm_skip | apply insertar_desc_perm].
Qed.

Lemma insertar_desc_sorted (x : A) (l : list A) :
  StronglySorted (desc key) l -> StronglySorted (desc key) (insertar_desc key x l).
Proof.
  induction 1 as [|y l Hs IH Hy]; simpl.
  - constructor; constructor.
  - destruct (Z.leb_spec (key y) (key x)) as [Hle|Hgt].
    + constructor; [now constructor|].
      constructor; [exact Hle|].
      apply Forall_forall. intros z Hz. rewrite Forall_forall in Hy.
      specialize (Hy z Hz). unfold desc in *. lia.
    + constructor; [exact IH|].
      apply Forall_forall. intros z Hz.
      apply (Permutation_in _ (Permutation_sym (insertar_desc_perm x l))) in Hz.
      destruct Hz as [<- | Hz]; [unfold desc; lia|].
      rewrite Forall_forall in Hy. now apply Hy.
Qed.

Lemma order_by_desc_sorted (l : list A) : StronglySorted (desc key) (order_by_desc key l).
Proof.
  induction l as [|x l IH]; simpl; [constructor | now apply insertar_desc_sorted].
Qed.

(** With no key twice, the descending order is strict. *)
Lemma desc_estricto_of_nodup (l : list A) :
  StronglySorted (desc key) l -> NoDup (map key l) -> StronglySorted (desc_estricto key) l.
Proof.
  induction 1 as [|x l Hs IH Hx]; intro Hnd; [constructor|].
  simpl in Hnd. inversion Hnd as [|k ks Hnotin Hnd']; subst.
  constructor; [now apply IH|].
  apply Forall_forall. intros z Hz. rewrite Forall_forall in Hx.
  specialize (Hx z Hz). unfold desc in Hx. unfold desc_estricto.
  assert (key z <> key x).
  { intro E. apply Hnotin. rewrite <- E. now apply in_map. }
  lia.
Qed.

Lemma sorted_app_inv (R : A -> A -> Prop) (l1 l2 : list A) :
  StronglySorted R (l1 ++ l2) ->
  StronglySorted R l1 /\ StronglySorted R l2
  /\ (forall a b, In a l1 -> In b l2 -> R a b).
Proof.
  induction l1 as [|x l1 IH]; simpl; intro H.
  - repeat split; [constructor | exact H | intros a b []].
  - inversion H as [|y l Hs Hx]; subst.
    destruct (IH Hs) as (H1 & H2 & H3).
    rewrite Forall_forall in Hx.
    repeat split; [| exact H2 |].
    + constructor; [exact H1|]. apply Forall_forall. intros z Hz.
      apply Hx. apply in_or_app. now left.
    + intros a b [<- | Ha] Hb; [apply Hx; apply in_or_app; now right | now apply H3].
Qed.

Lemma sorted_snoc (R : A -> A -> Prop) (l : list A) (x : A) :
  StronglySorted R l -> Forall (fun a => R a x) l -> StronglySorted R (l ++ [x]).
Proof.
  induction 1 as [|y l Hs IH Hy]; intro Hx; simpl.
  - constructor; constructor.
  - inversion Hx as [|z zs Hyx Hlx]; subst.
    constructor; [now apply IH|].
    apply Forall_app. split; [exact Hy | now constructor].
Qed.

(** The reverse of a list in strict descending order is in strict ascending
    order. *)
Lemma rev_desc_asc (l : list A) :
  StronglySorted (desc_estricto key) l -> StronglySorted (asc_estricto key) (rev l).
Proof.
  induction 1 as [|x l Hs IH Hx]; simpl; [constructor|].
  apply sorted_snoc; [exact IH|].
  apply Forall_forall. intros z Hz. apply in_rev in Hz.
  rewrite Forall_forall in Hx. exact (Hx z Hz).
Qed.

End Orden.

Lemma filter_nodup_uno (A : Type) (key : A -> Z) (e : Z) (l : list A) :
  NoDup (map key l) ->
  filter (fun u => key u =? e) l = []
  \/ exists u, filter (fun u => key u =? e) l = [u].
Proof.
  induction l as [|x l IH]; simpl; intro Hnd; [now left|].
  inversion Hnd as [|k ks Hnotin Hnd']; subst.
  destruct (Z.eqb_spec (key x) e) as [He|He].
  - right. exists x. f_equal.
    destruct (filter (fun u => key u =? e) l) as [|y l'] eqn:E; [reflexivity|].
    exfalso. apply Hnotin.
    assert (Hy : In y (filter (fun u => key u =? e) l)) by (rewrite E; now left).
    apply filter_In in Hy as [Hy1 Hy2]. apply Z.eqb_eq in Hy2.
    rewrite He, <- Hy2. now apply in_map.
  - now apply IH.
Qed.

Lemma filter_nunca (A : Type) (l : list A) : filter (fun _ => false) l = [].
Proof. induction l; simpl; auto. Qed.

(** With the primary key of [Usuarios], the join gives one row for each
    message. *)
Lemma left_join_una_fila (us : list Usuario) (m : Mensaje) :
  NoDup (map usr_id_usuario us) ->
  exists sender, left_join_usuarios us m = [fila_historial m sender].
Proof.
  intro Hnd. unfold left_join_usuarios.
  destruct (men_id_emisor m) as [e|].
  - destruct (filter_nodup_uno usr_id_usuario e us Hnd) as [-> | (u & ->)]; eexists; reflexivity.
  - rewrite filter_nunca. eexists; reflexivity.
Qed.

Lemma flat_map_left_join (us : list Usuario) (ms : list Mensaje) :
  NoDup (map usr_id_usuario us) ->
  map h_id_mensaje (flat_map (left_join_usuarios us) ms) = map men_id_mensaje ms
  /\ (forall fila, In fila (flat_map (left_join_usuarios us) ms) ->
                   exists m sender, In m ms /\ fila = fila_historial m sender).
Proof.
  intro Hnd. induction ms as [|m ms [IH1 IH2]]; simpl.
  - split; [reflexivity | intros fila []].
  - destruct (left_join_una_fila us m Hnd) as (s & ->). simpl. split.
    + now rewrite IH1.
    + intros fila [<- | Hin].
      * exists m, s. auto.
      * destruct (IH2 fila Hin) as (m' & s' & Hm' & ->). exists m', s'. auto.
Qed.

Lemma nodup_map_filter (A : Type) (key : A -> Z) (f : A -> bool) (l : list A) :
  NoDup (map key l) -> NoDup (map key (filter f l)).
Proof.
  induction l as [|x l IH]; simpl; intro Hnd; [constructor|].
  inversion Hnd as [|k ks Hnotin Hnd']; subst.
  destruct (f x); simpl; [|now apply IH].
  constructor; [|now apply IH].
  intro Hin. apply Hnotin. apply in_map_iff in Hin as (y & Hy & Hin).
  apply filter_In in Hin as [Hin _]. rewrite <- Hy. now apply in_map.
Qed.

Section Historial.
Variable U : Unicode.

(** Claim C2: a member asks for the history of a room (the ids of
    [Mensajes_Sala] and [Usuarios] being primary keys).  The answer holds
    [min 50 N] rows for a room of [N] messages, in strictly ascending order
    of message id; each row is a message of the room; and the messages of the
    room left out all have a smaller id than every row of the answer: the
    rows are the last 50.  The request changes nothing in the database. *)
Theorem api_messages_ultimos_50
    (ses : Session) (u rid : Z) (arg_room_id : str) (w : World) :
  ses_user_id ses = Some u ->
  isdigit U arg_room_id = true ->
  py_int U arg_room_id = Some rid ->
  es_miembro u rid (confirmada w) ->
  NoDup (map men_id_mensaje (filas (Mensajes_Sala (confirmada w)))) ->
  NoDup (map usr_id_usuario (filas (Usuarios (confirmada w)))) ->
  exists rows antiguos,
    fst (atender (api_messages U ses (Some (lit "room")) (Some arg_room_id)) w)
      = Ret (jsonify_filas rows)
    /\ confirmada (snd (atender (api_messages U ses (Some (lit "room")) (Some arg_room_id)) w))
       = confirmada w
    /\ List.length rows
       = Nat.min 50 (List.length (filter (fun m => men_id_sala m =? rid)
                                         (filas (Mensajes_Sala (confirmada w)))))
    /\ StronglySorted (fun a b => h_id_mensaje a < h_id_mensaje b) rows
    /\ Permutation
         (map men_id_mensaje (filter (fun m => men_id_sala m =? rid)
                                     (filas (Mensajes_Sala (confirmada w)))))
         (antiguos ++ map h_id_mensaje rows)
    /\ (forall viejo fila, In viejo antiguos -> In fila rows -> viejo < h_id_mensaje fila)
    /\ (forall fila, In fila rows ->
          exists m sender,
            In m (filas (Mensajes_Sala (confirmada w)))
            /\ men_id_sala m = rid
            /\ fila = fila_historial m sender).
Proof.
  intros Hu Hdig Hint Hmie Hpk Hpku.
  apply select_miembro_hay in Hmie as (m0 & Hm0).
  set (ms := filter (fun m => men_id_sala m =? rid) (filas (Mensajes_Sala (confirmada w)))).
  set (unidas := flat_map (left_join_usuarios (filas (Usuarios (confirmada w)))) ms).
  set (orden := order_by_desc h_id_mensaje unidas).
  assert (Hrun : atender (api_messages U ses (Some (lit "room")) (Some arg_room_id)) w
                 = (Ret (jsonify_filas (rev (firstn 50 orden))),
                    con_sql_log ((sql_log w ++ [SQL_SELECT_MIEMBRO]) ++ [SQL_SELECT_HISTORIAL])
                                (en_reposo w))).
  { unfold api_messages. desplegar. rewrite Hu. unfold get_default.
    rewrite Hdig, str_eqb_refl. cbn. rewrite Hint. cbn. rewrite Hm0. reflexivity. }
  destruct (flat_map_left_join _ ms Hpku) as [Hids Hfilas]. fold unidas in Hids, Hfilas.
  assert (Hperm : Permutation unidas orden) by apply order_by_desc_perm.
  assert (Hsort : StronglySorted (desc_estricto h_id_mensaje) orden).
  { apply desc_estricto_of_nodup; [apply order_by_desc_sorted|].
    apply (Permutation_NoDup (Permutation_map h_id_mensaje Hperm)).
    rewrite Hids. now apply nodup_map_filter. }
  rewrite <- (firstn_skipn 50 orden) in Hsort.
  apply sorted_app_inv in Hsort as (Hs1 & _ & Hcross).
  exists (rev (firstn 50 orden)), (map h_id_mensaje (skipn 50 orden)).
  rewrite Hrun. cbn [fst snd].
  repeat split.
  - rewrite length_rev, length_firstn. f_equal.
    rewrite <- (Permutation_length Hperm).
    rewrite <- (length_map h_id_mensaje unidas), Hids. apply length_map.
  - apply rev_desc_asc. exact Hs1.
  - rewrite <- Hids.
    apply perm_trans with (map h_id_mensaje orden); [now apply Permutation_map|].
    rewrite <- (firstn_skipn 50 orden) at 1. rewrite map_app.
    apply perm_trans with (map h_id_mensaje (skipn 50 orden) ++ map h_id_mensaje (firstn 50 orden));
      [apply Permutation_app_comm|].
    apply Permutation_app_head. apply Permutation_map. apply Permutation_rev.
  - intros viejo fila Hv Hf. apply in_map_iff in Hv as (x & <- & Hx).
    apply in_rev in Hf. exact (Hcross fila x Hf Hx).
  - intros fila Hf. apply in_rev in Hf.
    assert (Hf' : In fila orden).
    { rewrite <- (firstn_skipn 50 orden). apply in_or_app. now left. }
    clear Hf. rename Hf' into Hf.
    apply (Permutation_in _ (Permutation_sym Hperm)) in Hf.
    destruct (Hfilas fila Hf) as (m & s & Hm & ->).
    apply filter_In in Hm as [Hm1 Hm2]. apply Z.eqb_eq in Hm2.
    exists m, s. auto.
Qed.

End Historial.

(** The history of the room with 52 messages: the messages 3 to 52. *)
Example api_messages_ejemplo_52 :
  match fst (atender (api_messages tabla_ascii ana (Some (lit "room")) (Some (lit "7")))
                     mundo_historial) with
  | Ret (jsonify_filas rows) => map h_id_mensaje rows = map Z.of_nat (seq 3 50)
  | _ => False
  end.
Proof.
  vm_compute. reflexivity.
Qed.

(** The request of claim C2 in the world of the room with 52 messages. *)
Lemma api_messages_ultimos_50_ejemplo :
  exists rows antiguos,
    fst (atender (api_messages tabla_ascii ana (Some (lit "room")) (Some (lit "7")))
                 mundo_historial)
      = Ret (jsonify_filas rows)
    /\ confirmada (snd (atender (api_messages tabla_ascii ana (Some (lit "room"))
                                  (Some (lit "7"))) mundo_historial))
       = confirmada mundo_historial
    /\ List.length rows
       = Nat.min 50 (List.length (filter (fun m => men_id_sala m =? 7)
                                         (filas (Mensajes_Sala (confirmada mundo_historial)))))
    /\ StronglySorted (fun a b => h_id_mensaje a < h_id_mensaje b) rows
    /\ Permutation
         (map men_id_mensaje (filter (fun m => men_id_sala m =? 7)
                                     (filas (Mensajes_Sala (confirmada mundo_historial)))))
         (antiguos ++ map h_id_mensaje rows)
    /\ (forall viejo fila, In viejo antiguos -> In fila rows -> viejo < h_id_mensaje fila)
    /\ (forall fila, In fila rows ->
          exists m sender,
            In m (filas (Mensajes_Sala (confirmada mundo_historial)))
            /\ men_id_sala m = 7
            /\ fila = fila_historial m sender).
Proof.
  apply (api_messages_ultimos_50 tabla_ascii ana (u := 1) (rid := 7) (lit "7") mundo_historial).
  - reflexivity.
  - reflexivity.
  - reflexivity.
  - eexists. split; [left; reflexivity | split; reflexivity].
  - match goal with
    | |- NoDup ?l => replace l with (nodup Z.eq_dec l) by (vm_compute; reflexivity)
    end.
    apply NoDup_nodup.
  - match goal with
    | |- NoDup ?l => replace l with (nodup Z.eq_dec l) by (vm_compute; reflexivity)
    end.
    apply NoDup_nodup.
Defined.

(** ** Generating a room code *)

Lemma world_eta (w : World) : con_rnd_pos (rnd_pos w) w = w.
Proof. destruct w; reflexivity. Qed.

Lemma CODIGO_ALFABETO_nth (i : nat) :
  (i < 10)%nat -> nth_error CODIGO_ALFABETO i = Some (N.of_nat (48 + i)).
Proof.
  intro H. do 10 (destruct i as [|i]; [reflexivity|]). lia.
Qed.

Lemma secrets_choice_digit (w : World) :
  secrets_choice CODIGO_ALFABETO w =
    (Ret (N.of_nat (48 + Nat.modulo (rnd_src w (rnd_pos w)) 10)), con_rnd_pos (S (rnd_pos w)) w).
Proof.
  unfold secrets_choice, randbelow, index, bind. 
  change (List.length CODIGO_ALFABETO) with 10%nat.
  rewrite CODIGO_ALFABETO_nth by (apply Nat.mod_upper_bound; discriminate).
  reflexivity.
Qed.

Lemma join_choices_run (n : nat) (w : World) :
  join_choices n w =
    (Ret (map (fun i => N.of_nat (48 + Nat.modulo (rnd_src w (rnd_pos w + i)%nat) 10)) (seq 0 n)),
     con_rnd_pos (rnd_pos w + n) w).
Proof.
  revert w. induction n as [|n IH]; intro w.
  - simpl. unfold ret. rewrite Nat.add_0_r, world_eta. reflexivity.
  - cbn [join_choices]. unfold bind at 1. rewrite secrets_choice_digit.
    unfold bind at 1. rewrite IH. unfold ret. cbn [rnd_src rnd_pos con_rnd_pos].
    f_equal.
    + f_equal. cbn [seq map]. rewrite Nat.add_0_r. f_equal.
      rewrite <- seq_shift, map_map. apply map_ext. intro i.
      now rewrite Nat.add_succ_r.
    + unfold con_rnd_pos. cbn. f_equal. lia.
Qed.

Lemma hd_filter_none (A : Type) (f : A -> bool) (l : list A) :
  hd_error (filter f l) = None -> forall x, In x l -> f x = false.
Proof.
  intros H x Hin. destruct (f x) eqn:E; [|reflexivity].
  destruct (filter f l) as [|y l'] eqn:Ef; [|discriminate].
  assert (Hx : In x (filter f l)) by (apply filter_In; now split).
  rewrite Ef in Hx. destruct Hx.
Qed.

Lemma candidato_es_codigo (src : nat -> nat) (pos k : nat) :
  es_codigo (candidato src pos k) = true.
Proof.
  unfold es_codigo, candidato. rewrite length_map, length_seq, Nat.eqb_refl.
  cbn [andb].
  apply forallb_forall. intros c Hc. apply in_map_iff in Hc as (i & <- & _).
  assert (Hd : (Nat.modulo (src (pos + 6 * k + i)%nat) 10 < 10)%nat)
    by (apply Nat.mod_upper_bound; discriminate).
  generalize dependent (Nat.modulo (src (pos + 6 * k + i)%nat) 10). intros d Hd.
  unfold ascii_isdigit. apply andb_true_intro. split; apply N.leb_le; lia.
Qed.

Section Codigo.
Variable C : Collation.

(** What [generar_codigo_sala] gives after at most [fuel] turns of its loop. *)
Lemma generar_codigo_sala_casos (fuel : nat) (w : World) :
  conexion (snd (generar_codigo_sala C fuel w)) = conexion w
  /\ match fst (generar_codigo_sala C fuel w) with
     | Ret codigo =>
         es_codigo codigo = true
         /\ (forall s, In s (filas (Salas (conexion w))) ->
                       col_eq C (sala_codigo s) codigo = false /\ sala_codigo s <> codigo)
         /\ exists k, (k < fuel)%nat
                      /\ codigo = candidato (rnd_src w) (rnd_pos w) k
                      /\ forall j, (j < k)%nat ->
                           codigo_en_uso C (candidato (rnd_src w) (rnd_pos w) j) (conexion w)
     | Raise _ => False
     | Agotado =>
         forall k, (k < fuel)%nat ->
                   codigo_en_uso C (candidato (rnd_src w) (rnd_pos w) k) (conexion w)
     end.
Proof.
  revert w. induction fuel as [|fuel IH]; intro w.
  - simpl. split; [reflexivity | intros k Hk; lia].
  - remember (generar_codigo_sala C (S fuel) w) as R eqn:HR.
    cbn [generar_codigo_sala] in HR. unfold bind at 1 in HR. rewrite join_choices_run in HR.
    unfold consultar_db_one, consultar_db in HR.
    unfold bind at 1, bind at 1, ret at 1 in HR.
    cbn [conexion con_rnd_pos con_sql_log] in HR.
    assert (Hc0 : map (fun i => N.of_nat (48 + Nat.modulo (rnd_src w (rnd_pos w + i)%nat) 10))
                      (seq 0 6)
                  = candidato (rnd_src w) (rnd_pos w) 0).
    { unfold candidato. apply map_ext. intro i. now rewrite Nat.mul_0_r, Nat.add_0_r. }
    rewrite Hc0 in HR. clear Hc0.
    destruct (hd_error (select_salas_codigo C (candidato (rnd_src w) (rnd_pos w) 0) (conexion w)))
      as [s0|] eqn:Hsel; unfold select_salas_codigo in Hsel.
    + match type of HR with
      | R = generar_codigo_sala C fuel ?w1 => specialize (IH w1); set (w' := w1) in *
      end.
      assert (Hcand : forall k, candidato (rnd_src w') (rnd_pos w') k
                                = candidato (rnd_src w) (rnd_pos w) (S k)).
      { intro k. unfold candidato, w'. cbn [rnd_src rnd_pos con_sql_log con_rnd_pos].
        apply map_ext. intro i.
        replace (rnd_pos w + 6 + 6 * k + i)%nat with (rnd_pos w + 6 * S k + i)%nat by lia.
        reflexivity. }
      assert (Huso : codigo_en_uso C (candidato (rnd_src w) (rnd_pos w) 0) (conexion w)).
      { apply hd_filter_in in Hsel as [Hin Heq]. exists s0. split; assumption. }
      rewrite HR. destruct IH as [IHdb IH]. split; [exact IHdb|].
      destruct (fst (generar_codigo_sala C fuel w')) as [codigo | e | ].
      * destruct IH as (Hcod & Hlibre & k & Hk & Heq & Hprev).
        split; [exact Hcod|]. split; [exact Hlibre|].
        exists (S k). split; [lia|]. split; [rewrite <- Hcand; exact Heq|].
        intros j Hj. destruct j as [|j]; [exact Huso|].
        rewrite <- Hcand. apply Hprev. lia.
      * exact IH.
      * intros k Hk. destruct k as [|k]; [exact Huso|].
        rewrite <- Hcand. apply IH. lia.
    + subst R. unfold ret. cbn [fst snd conexion con_sql_log con_rnd_pos].
      split; [reflexivity|].
      split; [apply candidato_es_codigo|].
      split.
      * intros s Hs.
        pose proof (hd_filter_none _ _ Hsel s Hs) as Hf. cbn beta in Hf.
        split; [exact Hf|]. intro E. rewrite E, col_eq_refl in Hf. discriminate.
      * exists 0%nat. split; [lia|]. split; [reflexivity|]. intros j Hj. lia.
Qed.

(** Claim C4: [generar_codigo_sala] never raises and leaves the database as
    it is; a code it returns is six characters, each a decimal digit, and is
    at that moment the code of no room; and the loop goes on exactly as long
    as the codes drawn are in use: it returns the first code drawn that is
    not, so it returns as soon as one such code is drawn. *)
Theorem generar_codigo_sala_unico (fuel : nat) (w : World) :
  conexion (snd (generar_codigo_sala C fuel w)) = conexion w
  /\ match fst (generar_codigo_sala C fuel w) with
     | Ret codigo =>
         List.length codigo = 6%nat
         /\ Forall (fun c => In c CODIGO_ALFABETO) codigo
         /\ (forall s, In s (filas (Salas (conexion w))) -> sala_codigo s <> codigo)
         /\ exists k, (k < fuel)%nat
                      /\ codigo = candidato (rnd_src w) (rnd_pos w) k
                      /\ forall j, (j < k)%nat ->
                           codigo_en_uso C (candidato (rnd_src w) (rnd_pos w) j) (conexion w)
     | Raise _ => False
     | Agotado =>
         forall k, (k < fuel)%nat ->
                   codigo_en_uso C (candidato (rnd_src w) (rnd_pos w) k) (conexion w)
     end
  /\ (forall k, (k < fuel)%nat ->
                ~ codigo_en_uso C (candidato (rnd_src w) (rnd_pos w) k) (conexion w) ->
                exists codigo, fst (generar_codigo_sala C fuel w) = Ret codigo).
Proof.
  destruct (generar_codigo_sala_casos fuel w) as [Hdb H].
  split; [exact Hdb|].
  destruct (fst (generar_codigo_sala C fuel w)) as [codigo | e | ].
  - destruct H as (Hcod & Hlibre & Hk). split.
    + unfold es_codigo in Hcod. apply andb_prop in Hcod as [Hlen Hdig].
      apply Nat.eqb_eq in Hlen.
      repeat split; [exact Hlen | | intros s Hs; now apply Hlibre | exact Hk].
      apply Forall_forall. intros c Hc. rewrite forallb_forall in Hdig.
      specialize (Hdig c Hc). unfold ascii_isdigit in Hdig.
      apply andb_prop in Hdig as [H1 H2]. apply N.leb_le in H1, H2.
      assert (Hn : nth_error CODIGO_ALFABETO (N.to_nat c - 48) = Some c).
      { rewrite CODIGO_ALFABETO_nth by lia. f_equal. lia. }
      exact (nth_error_In _ _ Hn).
    + intros k _ _. now exists codigo.
  - destruct H.
  - split; [exact H|]. intros k Hk Hlibre. elim Hlibre. now apply H.
Qed.

End Codigo.

(** In the example world the draws are 0, 1, 2, ...: the first code drawn,
    012345, is free and is returned. *)
Example generar_codigo_sala_ejemplo :
  fst (generar_codigo_sala col_exacta 1 mundo_ejemplo) = Ret (lit "012345").
Proof.
  vm_compute. reflexivity.
Qed.

(** With the draws 1, 2, 3, ... the first code drawn is 123456, the code of
    room 7: one turn of the loop is not enough, and the second turn returns
    789012. *)
Example generar_codigo_sala_reintenta :
  fst (generar_codigo_sala col_exacta 1 (con_rnd_pos 1 mundo_ejemplo)) = Agotado
  /\ fst (generar_codigo_sala col_exacta 2 (con_rnd_pos 1 mundo_ejemplo))
     = Ret (lit "789012").
Proof.
  split; vm_compute; reflexivity.
Qed.

(** * Further properties of [app.py] *)

(** ** Passwords *)


Lemma token_bytes_run (n : nat) (w : World) :
  token_bytes n w =
    (Ret (map (fun i => Nat.modulo (rnd_src w (rnd_pos w + i)%nat) 256) (seq 0 n)),
     con_rnd_pos (rnd_pos w + n) w).
Proof.
  revert w. induction n as [|n IH]; intro w.
  - simpl. unfold ret. rewrite Nat.add_0_r, world_eta. reflexivity.
  - cbn [token_bytes]. unfold bind at 1, randbelow. unfold bind at 1. rewrite IH.
    unfold ret. cbn [rnd_src rnd_pos con_rnd_pos]. f_equal.
    + f_equal. cbn [seq map]. rewrite Nat.add_0_r. f_equal.
      rewrite <- seq_shift, map_map. apply map_ext. intro i.
      now rewrite Nat.add_succ_r.
    + unfold con_rnd_pos. cbn [conexion confirmada emitidos flashes sio_rooms sql_log
                                 utc_src utc_pos rnd_src rnd_pos].
      f_equal. lia.
Qed.

Lemma hexdigits_nth (i : nat) : (i < 16)%nat -> In (nth i hexdigits 48%N) hexdigits.
Proof.
  intro H. apply nth_In. exact H.
Qed.

Lemma hex_byte_digits (b : nat) (c : N) :
  (b < 256)%nat -> In c (hex_byte b) -> In c hexdigits.
Proof.
  intros Hb [<- | [<- | []]]; apply hexdigits_nth.
  - apply Nat.Div0.div_lt_upper_bound. exact Hb.
  - apply Nat.mod_upper_bound. discriminate.
Qed.

(** A token is made of hexadecimal digits, two for each byte. *)
Lemma token_hex_run (n : nat) (w : World) :
  exists salt,
    token_hex n w = (Ret salt, con_rnd_pos (rnd_pos w + n) w)
    /\ List.length salt = (2 * n)%nat
    /\ Forall (fun c => In c hexdigits) salt.
Proof.
  unfold token_hex, bind. rewrite token_bytes_run. unfold ret.
  eexists. split; [reflexivity|]. split.
  - assert (H : forall l : list nat,
                 List.length (flat_map hex_byte l) = (2 * List.length l)%nat).
    { induction l as [|x l IH]; [reflexivity|].
      cbn [flat_map hex_byte app List.length]. rewrite IH. lia. }
    rewrite H, length_map, length_seq. reflexivity.
  - apply Forall_forall. intros c Hc. apply in_flat_map in Hc as (b & Hb & Hc).
    apply in_map_iff in Hb as (i & <- & _).
    apply (hex_byte_digits (b := Nat.modulo (rnd_src w (rnd_pos w + i)) 256)); [|exact Hc].
    apply Nat.mod_upper_bound. discriminate.
Qed.

Lemma hexdigit_ascii (c : N) : In c hexdigits -> (c < 128)%N /\ c <> dolar.
Proof.
  unfold hexdigits, lit, dolar. simpl.
  intro H. repeat (destruct H as [<- | H]; [split; [reflexivity | discriminate]|]).
  destruct H.
Qed.

Lemma encode_utf8_app (a b : str) :
  encode_utf8 (a ++ b) =
    match encode_utf8 a, encode_utf8 b with
    | Some x, Some y => Some (x ++ y)
    | _, _ => None
    end.
Proof.
  induction a as [|c a IH]; simpl.
  - destruct (encode_utf8 b); reflexivity.
  - rewrite IH. destruct (encode_char c) as [x|]; [|reflexivity].
    destruct (encode_utf8 a) as [xs|]; [|reflexivity].
    destruct (encode_utf8 b) as [ys|]; [|reflexivity].
    now rewrite app_assoc.
Qed.

Lemma encode_utf8_ascii (s : str) :
  Forall (fun c => (c < 128)%N) s -> encode_utf8 s = Some (map byte_of_N s).
Proof.
  induction 1 as [|c s Hc _ IH]; simpl; [reflexivity|].
  unfold encode_char. apply N.ltb_lt in Hc. rewrite Hc, IH. reflexivity.
Qed.

(** The split at the first separator: what precedes it has none. *)
Lemma split_aux_primero (sep : N) (a b : str) :
  ~ In sep a -> split_aux sep (a ++ sep :: b) = Some (a, b).
Proof.
  induction a as [|c a IH]; simpl; intro H.
  - now rewrite N.eqb_refl.
  - destruct (N.eqb_spec c sep) as [E|E]; [elim H; now left|].
    rewrite IH; [reflexivity|]. intro Hin. apply H. now right.
Qed.

Lemma split_aux_none (sep : N) (s : str) :
  contiene sep s = false -> split_aux sep s = None.
Proof.
  unfold contiene. induction s as [|c s IH]; simpl; [reflexivity|].
  intro H. apply orb_false_iff in H as [Hc Hs].
  rewrite N.eqb_sym in Hc. now rewrite Hc, (IH Hs).
Qed.

Section Contrasenas.
Variable sha256_hexdigest : bytes -> str.

(** The run of [hashear_contrasena] on a password UTF-8 can encode. *)
Lemma hashear_contrasena_run (contrasena : str) (w : World) :
  encode_utf8 contrasena <> None ->
  exists salt digest,
    hashear_contrasena sha256_hexdigest contrasena w
      = (Ret (salt ++ dolar :: digest), con_rnd_pos (rnd_pos w + 16) w)
    /\ List.length salt = 32%nat
    /\ Forall (fun c => In c hexdigits) salt
    /\ forall w2, verificar_contrasena sha256_hexdigest contrasena (salt ++ dolar :: digest) w2
                  = (Ret true, w2).
Proof.
  intro Henc. destruct (encode_utf8 contrasena) as [bc|] eqn:Hc; [clear Henc | congruence].
  destruct (token_hex_run 16 w) as (salt & Hrun & Hlen & Hhex).
  assert (Hsalt : encode_utf8 salt = Some (map byte_of_N salt)).
  { apply encode_utf8_ascii. apply Forall_forall. intros c Hin.
    rewrite Forall_forall in Hhex. now apply hexdigit_ascii, Hhex. }
  assert (Hdatos : encode_utf8 (salt ++ contrasena) = Some (map byte_of_N salt ++ bc)).
  { now rewrite encode_utf8_app, Hsalt, Hc. }
  exists salt, (sha256_hexdigest (map byte_of_N salt ++ bc)).
  repeat split; [ | exact Hlen | exact Hhex | ].
  - unfold hashear_contrasena, bind, encode. rewrite Hrun, Hdatos. reflexivity.
  - intro w2. unfold verificar_contrasena, split1.
    rewrite split_aux_primero.
    + unfold bind, encode. rewrite Hdatos. unfold ret. now rewrite str_eqb_refl.
    + intro Hin. rewrite Forall_forall in Hhex.
      destruct (hexdigit_ascii (Hhex _ Hin)) as [_ Hne]. now apply Hne.
Qed.

(** Property X1.  A password that UTF-8 can encode is hashed to [salt$digest], where the
    salt is 32 hexadecimal digits, and [verificar_contrasena] accepts the
    password against that value, whatever the digest function is. *)
Theorem contrasena_ida_y_vuelta (contrasena : str) (w : World) :
  encode_utf8 contrasena <> None ->
  exists salt digest,
    fst (hashear_contrasena sha256_hexdigest contrasena w) = Ret (salt ++ dolar :: digest)
    /\ List.length salt = 32%nat
    /\ Forall (fun c => In c hexdigits) salt
    /\ forall w2, verificar_contrasena sha256_hexdigest contrasena (salt ++ dolar :: digest) w2
                  = (Ret true, w2).
Proof.
  intro Henc.
  destruct (hashear_contrasena_run contrasena w Henc) as (salt & digest & Hrun & Hlen & Hhex & Hver).
  exists salt, digest. rewrite Hrun. auto.
Qed.

(** Property X2.  A stored value with no [$] is refused without an exception, whatever the
    password is; and a password UTF-8 cannot encode makes the hashing
    raise. *)
Theorem verificar_contrasena_sin_dolar (contrasena almacenada : str) (w : World) :
  (contiene dolar almacenada = false ->
   verificar_contrasena sha256_hexdigest contrasena almacenada w = (Ret false, w))
  /\ (encode_utf8 contrasena = None ->
      fst (hashear_contrasena sha256_hexdigest contrasena w) = Raise ValueError).
Proof.
  split.
  - intro H. unfold verificar_contrasena, split1. now rewrite (split_aux_none _ _ H).
  - intro H. destruct (token_hex_run 16 w) as (salt & Hrun & _).
    unfold hashear_contrasena, bind, encode. rewrite Hrun, encode_utf8_app, H.
    destruct (encode_utf8 salt); reflexivity.
Qed.

End Contrasenas.

(** The password [clave] in the example world. *)
Lemma contrasena_ida_y_vuelta_ejemplo :
  exists salt digest,
    fst (hashear_contrasena digest_ejemplo (lit "clave") mundo_ejemplo)
      = Ret (salt ++ dolar :: digest)
    /\ List.length salt = 32%nat
    /\ Forall (fun c => In c hexdigits) salt
    /\ forall w2, verificar_contrasena digest_ejemplo (lit "clave") (salt ++ dolar :: digest) w2
                  = (Ret true, w2).
Proof.
  apply (contrasena_ida_y_vuelta digest_ejemplo (lit "clave") mundo_ejemplo).
  vm_compute. discriminate.
Defined.

(** ** Accounts *)



Section Cuentas_props.
Variable U : Unicode.
Variable C : Collation.
Variable sha256_hexdigest : bytes -> str.

(** [verificar_contrasena] reads and writes nothing. *)
Lemma verificar_contrasena_puro (contrasena almacenada : str) :
  exists r, (forall w, verificar_contrasena sha256_hexdigest contrasena almacenada w = (r, w))
            /\ (r = Ret true \/ r = Ret false \/ r = Raise ValueError).
Proof.
  unfold verificar_contrasena, bind, encode, ret, raise.
  destruct (split1 dolar almacenada) as [|salt [|digest [|x l]]];
    try (eexists; split; [reflexivity | auto]).
  destruct (encode_utf8 (salt ++ contrasena)).
  - destruct (str_eqb _ digest); eexists; (split; [reflexivity | auto]).
  - eexists; split; [reflexivity | auto].
Qed.

Lemma filter_todo_falso (A : Type) (f : A -> bool) (l : list A) :
  (forall x, In x l -> f x = false) -> filter f l = [].
Proof.
  induction l as [|x l IH]; simpl; intro H; [reflexivity|].
  rewrite (H x) by now left. apply IH. intros y Hy. apply H. now right.
Qed.

(** The run of an accepted registration. *)
Lemma register_run (form_username form_password : option str) (w : World) :
  strip U (get_default form_username) <> [] ->
  strip U (get_default form_password) <> [] ->
  encode_utf8 (strip U (get_default form_password)) <> None ->
  select_usuario C (strip U (get_default form_username)) (confirmada w) = [] ->
  exists salt digest,
    atender (register U C sha256_hexdigest "POST" form_username form_password) w
      = (Ret (vista (redirect "login")),
         con_flashes (flashes w ++ ["Cuenta creada. Inicia sesion."%string])
           (con_sql_log ((sql_log w ++ [SQL_SELECT_USUARIO_REGISTER])
                           ++ ["INSERT INTO Usuarios (usuario, contrasena) VALUES (%s, %s)"%string])
              (con_rnd_pos (rnd_pos w + 16)
                 (con_confirmada
                    (fst (insert_usuario (strip U (get_default form_username))
                                         (salt ++ dolar :: digest) (confirmada w)))
                    (con_conexion
                       (fst (insert_usuario (strip U (get_default form_username))
                                            (salt ++ dolar :: digest) (confirmada w))) w)))))
    /\ forall w2, verificar_contrasena sha256_hexdigest (strip U (get_default form_password))
                    (salt ++ dolar :: digest) w2 = (Ret true, w2).
Proof.
  intros Hu Hp Henc Hsel.
  unfold register, atender. cbn [String.eqb Ascii.eqb Bool.eqb].
  destruct (strip U (get_default form_username)) as [|cu usuario'] eqn:Eu; [congruence|].
  destruct (strip U (get_default form_password)) as [|cp contrasena'] eqn:Ep; [congruence|].
  cbn [orb]. rewrite <- Eu, <- Ep in *. clear Hu Hp.
  unfold consultar_db_one, consultar_db.
  unfold bind at 1, bind at 1, bind at 1, ret at 1.
  cbn [conexion con_conexion con_sql_log]. rewrite Hsel. cbn [hd_error].
  unfold bind at 1.
  match goal with
  | |- context [hashear_contrasena _ _ ?w0] =>
      destruct (hashear_contrasena_run sha256_hexdigest _ w0 Henc)
        as (salt & digest & Hh & _ & _ & Hver)
  end.
  exists salt, digest. split; [|exact Hver].
  rewrite Hh. reflexivity.
Qed.

(** Property X3.  A new account can log in: after the registration of a name that matches
    no user, with a password UTF-8 can encode, [Usuarios] has one more row,
    with the name trimmed, and a login with the same fields opens the session
    of that row, whatever the digest function is. *)
Theorem register_luego_login (form_username form_password : option str) (w : World) :
  strip U (get_default form_username) <> [] ->
  strip U (get_default form_password) <> [] ->
  encode_utf8 (strip U (get_default form_password)) <> None ->
  (forall x, In x (filas (Usuarios (confirmada w))) ->
             col_eq C (usr_usuario x) (strip U (get_default form_username)) = false) ->
  exists w1 almacenada,
    atender (register U C sha256_hexdigest "POST" form_username form_password) w
      = (Ret (vista (redirect "login")), w1)
    /\ filas (Usuarios (confirmada w1)) =
         filas (Usuarios (confirmada w)) ++
         [ {| usr_id_usuario := auto_increment (Usuarios (confirmada w));
              usr_usuario := strip U (get_default form_username);
              usr_contrasena := almacenada |} ]
    /\ Salas (confirmada w1) = Salas (confirmada w)
    /\ Miembros_Sala (confirmada w1) = Miembros_Sala (confirmada w)
    /\ Mensajes_Sala (confirmada w1) = Mensajes_Sala (confirmada w)
    /\ flashes w1 = flashes w ++ ["Cuenta creada. Inicia sesion."%string]
    /\ forall ses,
         fst (atender (login U C sha256_hexdigest ses "POST" form_username form_password) w1)
         = Ret (vista (redirect "chat"),
                {| ses_user_id := Some (auto_increment (Usuarios (confirmada w)));
                   ses_username := Some (strip U (get_default form_username)) |}).
Proof.
  intros Hu Hp Henc Hlibre.
  assert (Hsel : select_usuario C (strip U (get_default form_username)) (confirmada w) = []).
  { unfold select_usuario. now apply filter_todo_falso. }
  destruct (register_run form_username form_password w Hu Hp Henc Hsel)
    as (salt & digest & Hrun & Hver).
  rewrite Hrun. eexists. exists (salt ++ dolar :: digest).
  split; [reflexivity|].
  repeat split.
  intro ses.
  unfold login, atender. cbn [String.eqb Ascii.eqb Bool.eqb].
  unfold consultar_db_one, consultar_db.
  unfold bind at 1, bind at 1, bind at 1, ret at 1.
  cbn [conexion confirmada con_conexion con_sql_log con_confirmada con_flashes con_rnd_pos].
  assert (Hsel2 : select_usuario C (strip U (get_default form_username))
            (fst (insert_usuario (strip U (get_default form_username))
                                 (salt ++ dolar :: digest) (confirmada w)))
          = [ {| usr_id_usuario := auto_increment (Usuarios (confirmada w));
                 usr_usuario := strip U (get_default form_username);
                 usr_contrasena := salt ++ dolar :: digest |} ]).
  { unfold select_usuario in Hsel |- *. unfold insert_usuario, insertar.
    cbn [fst Usuarios filas]. rewrite filter_app, Hsel.
    cbn [filter app usr_usuario]. now rewrite col_eq_refl. }
  rewrite Hsel2. cbn [hd_error usr_contrasena usr_id_usuario].
  unfold bind at 1. rewrite Hver. reflexivity.
Qed.

(** Property X4.  A registration is refused, and nothing is written, when the name or the
    password is blank once trimmed (no statement is sent) and when a user
    matches the name; on a request that is no POST the page is rendered. *)
Theorem register_rechaza (metodo : string) (form_username form_password : option str)
    (w : World) :
  (strip U (get_default form_username) = [] \/ strip U (get_default form_password) = [] ->
   atender (register U C sha256_hexdigest "POST" form_username form_password) w
     = (Ret (vista (redirect "register")),
        con_flashes (flashes w ++ ["Completa usuario y contrasena."%string]) (en_reposo w)))
  /\ (strip U (get_default form_username) <> [] ->
      strip U (get_default form_password) <> [] ->
      select_usuario C (strip U (get_default form_username)) (confirmada w) <> [] ->
      atender (register U C sha256_hexdigest "POST" form_username form_password) w
        = (Ret (vista (redirect "register")),
           con_flashes (flashes w ++ ["El usuario ya existe."%string])
             (con_sql_log (sql_log w ++ [SQL_SELECT_USUARIO_REGISTER]) (en_reposo w))))
  /\ (String.eqb metodo "POST" = false ->
      atender (register U C sha256_hexdigest metodo form_username form_password) w
        = (Ret (render_template "register.html" None None []), en_reposo w)).
Proof.
  repeat split.
  - intro H. unfold register, atender. cbn [String.eqb Ascii.eqb Bool.eqb].
    assert (Hv : (match strip U (get_default form_username) with [] => true | _ => false end
                  || match strip U (get_default form_password) with [] => true | _ => false end)
                 = true).
    { destruct H as [-> | ->]; [reflexivity | apply orb_true_r]. }
    rewrite Hv. reflexivity.
  - intros Hu Hp Hsel. unfold register, atender. cbn [String.eqb Ascii.eqb Bool.eqb].
    destruct (strip U (get_default form_username)) as [|cu usuario'] eqn:Eu; [congruence|].
    destruct (strip U (get_default form_password)) as [|cp contrasena'] eqn:Ep; [congruence|].
    cbn [orb]. rewrite <- Eu in *.
    unfold consultar_db_one, consultar_db.
    unfold bind at 1, bind at 1, bind at 1, ret at 1.
    cbn [conexion con_conexion con_sql_log].
    destruct (select_usuario C (strip U (get_default form_username)) (confirmada w))
      as [|x l]; [congruence|].
    reflexivity.
  - intro H. unfold register, atender. rewrite H. reflexivity.
Qed.

(** Property X5.  A login writes nothing to the database, and the session it leaves is
    either the one it found or the session of a row of [Usuarios] that
    matches the name given and whose stored value [verificar_contrasena]
    accepts for the password given. *)
Theorem login_solo_con_credenciales (ses : Session) (metodo : string)
    (form_username form_password : option str) (w : World) :
  confirmada (snd (atender (login U C sha256_hexdigest ses metodo form_username form_password) w))
    = confirmada w
  /\ forall v ses',
       fst (atender (login U C sha256_hexdigest ses metodo form_username form_password) w)
         = Ret (v, ses') ->
       ses' = ses
       \/ exists user,
            In user (filas (Usuarios (confirmada w)))
            /\ col_eq C (usr_usuario user) (strip U (get_default form_username)) = true
            /\ (forall w2, verificar_contrasena sha256_hexdigest
                              (strip U (get_default form_password)) (usr_contrasena user) w2
                            = (Ret true, w2))
            /\ v = vista (redirect "chat")
            /\ ses' = {| ses_user_id := Some (usr_id_usuario user);
                         ses_username := Some (strip U (get_default form_username)) |}.
Proof.
  remember (atender (login U C sha256_hexdigest ses metodo form_username form_password) w)
    as R eqn:HR.
  unfold login, atender in HR.
  destruct (String.eqb metodo "POST").
  2:{ subst R. cbn. split; [reflexivity|]. intros v ses' H. injection H as _ <-. now left. }
  unfold consultar_db_one, consultar_db in HR.
  unfold bind at 1, bind at 1, bind at 1, ret at 1 in HR.
  cbn [conexion con_conexion con_sql_log] in HR.
  destruct (hd_error (select_usuario C (strip U (get_default form_username)) (confirmada w)))
    as [user|] eqn:Hsel.
  2:{ subst R. cbn. split; [reflexivity|]. intros v ses' H. injection H as _ <-. now left. }
  destruct (verificar_contrasena_puro (strip U (get_default form_password)) (usr_contrasena user))
    as (r & Hr & Hcasos).
  unfold bind at 1 in HR. rewrite Hr in HR.
  destruct Hcasos as [-> | [-> | ->]]; subst R; cbn.
  - split; [reflexivity|]. intros v ses' H. injection H as <- <-. right.
    unfold select_usuario in Hsel. apply hd_filter_in in Hsel as [Hin Hcol].
    exists user. auto.
  - split; [reflexivity|]. intros v ses' H. injection H as _ <-. now left.
  - split; [reflexivity|]. intros v ses' H. discriminate.
Qed.

(** Property X6.  Without a session every view under [requiere_login] answers with the
    redirection to the login page and does nothing else: no statement, no
    flash, no event; [logout] leaves such a session, whatever the session
    was. *)
Theorem requiere_login_sin_sesion
    (col_cmp : str -> str -> comparison) (ses ses0 : Session)
    (campo campo2 : option str) (file : option FileStorage) (fuel : nat) (w : World) :
  ses_user_id ses = None ->
  atender (room_create U C ses campo fuel) w = (Ret (redirect "login"), en_reposo w)
  /\ atender (room_join U C ses campo) w = (Ret (redirect "login"), en_reposo w)
  /\ atender (room_delete U ses campo) w = (Ret (redirect "login"), en_reposo w)
  /\ atender (room_leave U ses campo) w = (Ret (redirect "login"), en_reposo w)
  /\ atender (api_messages U ses campo campo2) w = (Ret (redirect "login"), en_reposo w)
  /\ atender (upload_media U ses campo file) w = (Ret (redirect "login"), en_reposo w)
  /\ atender (chat col_cmp ses) w = (Ret (vista (redirect "login")), en_reposo w)
  /\ atender (index_view ses) w = (Ret (redirect "login"), en_reposo w)
  /\ ses_user_id (snd (match fst (atender (logout ses0) w) with
                       | Ret p => p
                       | _ => (redirect "login", ses0)
                       end)) = None.
Proof.
  intro H.
  unfold room_create, room_join, room_delete, room_leave, api_messages, upload_media, chat,
    index_view, requiere_login, atender.
  rewrite H. repeat split.
Qed.

End Cuentas_props.

(** The registration of carla in the example world, and her login. *)
Lemma register_luego_login_ejemplo :
  exists w1,
    atender (register tabla_ascii col_exacta digest_ejemplo "POST"
               (Some (lit " carla ")) (Some (lit "clave"))) mundo_ejemplo
      = (Ret (vista (redirect "login")), w1)
    /\ map usr_usuario (filas (Usuarios (confirmada w1))) = [lit "ana"; lit "beto"; lit "carla"]
    /\ fst (atender (login tabla_ascii col_exacta digest_ejemplo anonimo "POST"
                       (Some (lit " carla ")) (Some (lit "clave"))) w1)
       = Ret (vista (redirect "chat"),
              {| ses_user_id := Some 3; ses_username := Some (lit "carla") |}).
Proof.
  destruct (register_luego_login tabla_ascii col_exacta digest_ejemplo
              (Some (lit " carla ")) (Some (lit "clave")) mundo_ejemplo)
    as (w1 & almacenada & Hrun & Hus & _ & _ & _ & _ & Hlogin).
  - vm_compute. discriminate.
  - vm_compute. discriminate.
  - vm_compute. discriminate.
  - intros x [<- | [<- | []]]; reflexivity.
  - exists w1. split; [exact Hrun|]. split.
    + rewrite Hus. rewrite map_app. reflexivity.
    + exact (Hlogin anonimo).
Defined.

(** The views of the example world for a visitor with no session. *)
Lemma requiere_login_sin_sesion_ejemplo :
  atender (room_join tabla_ascii col_exacta anonimo (Some (lit "123456"))) mundo_ejemplo
    = (Ret (redirect "login"), en_reposo mundo_ejemplo)
  /\ atender (room_delete tabla_ascii anonimo (Some (lit "123456"))) mundo_ejemplo
     = (Ret (redirect "login"), en_reposo mundo_ejemplo).
Proof.
  destruct (requiere_login_sin_sesion tabla_ascii col_exacta (fun _ _ => Eq) anonimo ana
              (Some (lit "123456")) None None 1 mundo_ejemplo) as (_ & Hj & Hd & _).
  - reflexivity.
  - split; [exact Hj | exact Hd].
Defined.

(** ** File names, membership and subscriptions *)


Lemma contiene_false_app (sep : N) (a b : str) :
  contiene sep (a ++ sep :: b) = false -> False.
Proof.
  rewrite contiene_app. discriminate.
Qed.

Section Varios.
Variable U : Unicode.


(** Property X8.  [usuario_en_sala] answers [True] exactly when the user has a row for the
    room, and only reads. *)
Theorem usuario_en_sala_es_miembro (id_usuario id_sala : Z) (w : World) :
  exists b,
    usuario_en_sala id_usuario id_sala w
      = (Ret b, con_sql_log (sql_log w ++ [SQL_SELECT_MIEMBRO]) w)
    /\ (b = true <-> es_miembro id_usuario id_sala (conexion w)).
Proof.
  unfold usuario_en_sala, consultar_db_one, consultar_db, bind, ret.
  destruct (hd_error (select_miembro id_sala id_usuario (conexion w))) as [m|] eqn:Hm.
  - exists true. split; [reflexivity|]. split; [|reflexivity]. intros _.
    unfold select_miembro in Hm. apply hd_filter_in in Hm as [Hin Hm].
    apply andb_prop in Hm as [H1 H2]. apply Z.eqb_eq in H1, H2. now exists m.
  - exists false. split; [reflexivity|]. split; [discriminate|].
    intro H. apply select_miembro_hay in H as (m & Hm'). congruence.
Qed.

End Varios.

Lemma nombre_sala_usuario_inj (a b : Z) :
  nombre_sala_usuario a = nombre_sala_usuario b -> a = b.
Proof.
  unfold nombre_sala_usuario. intro H. apply app_inv_head in H.
  now apply str_of_int_inj.
Qed.

(** Property X9.  A [connect] puts the connection in the private room of its user and in
    the rooms of Socket.IO of exactly the rooms the user is a member of; it
    moves no other connection and writes nothing to the database; with no
    session (or with the user id 0) it joins nothing. *)
Theorem manejar_conexion_suscribe_a_sus_salas (ses : Session) (sid : Z) (w : World) :
  (forall room, ~ In (sid, room) (sio_rooms w)) ->
  confirmada (snd (atender (manejar_conexion ses sid) w)) = confirmada w
  /\ (forall sid' room, sid' <> sid ->
        (In sid' (destinatarios (snd (atender (manejar_conexion ses sid) w)) room)
         <-> In sid' (destinatarios w room)))
  /\ (session_get_user_id ses = None ->
      sio_rooms (snd (atender (manejar_conexion ses sid) w)) = sio_rooms w)
  /\ (forall u, session_get_user_id ses = Some u ->
        (forall r, In sid (destinatarios (snd (atender (manejar_conexion ses sid) w))
                                         (nombre_sala (lit "room") r))
                   <-> es_miembro u r (confirmada w))
        /\ (forall u', In sid (destinatarios (snd (atender (manejar_conexion ses sid) w))
                                            (nombre_sala_usuario u'))
                       <-> u' = u)).
Proof.
  intro Hfresh.
  assert (Hdest : forall w0 s room,
            In s (destinatarios w0 room) <-> In (s, room) (sio_rooms w0)).
  { intros w0 s room. unfold destinatarios. rewrite in_map_iff. split.
    - intros ([s' room'] & Hs & Hin). simpl in Hs. subst s'.
      apply filter_In in Hin as [Hin Hr]. simpl in Hr. apply str_eqb_eq in Hr. now subst.
    - intro Hin. exists (s, room). split; [reflexivity|].
      apply filter_In. split; [exact Hin|]. simpl. apply str_eqb_refl. }
  destruct (session_get_user_id ses) as [u|] eqn:Hu.
  - pose proof (manejar_conexion_sio_rooms ses sid w Hu) as Hrooms.
    assert (Hdb : confirmada (snd (atender (manejar_conexion ses sid) w)) = confirmada w).
    { unfold manejar_conexion. rewrite Hu. desplegar. cbn.
      match goal with
      | |- context [for_each ?l ?b ?w0] =>
          destruct (for_each_join_room sid
                      (fun m => nombre_sala (lit "room") (mie_id_sala m)) l w0) as (_ & _ & H3);
          unfold join_room in H3;
          destruct (for_each l b w0) as [r w1]
      end.
      cbn in H3 |- *. exact H3. }
    split; [exact Hdb|]. split; [|split; [discriminate|]].
    + intros sid' room Hne. rewrite !Hdest, Hrooms. rewrite in_app_iff. split.
      * intros [H | [H | H]]; [exact H | congruence |].
        apply in_map_iff in H as (m & Hm & _). congruence.
      * intro H. now left.
    + intros u0 Hu0. injection Hu0 as <-. split.
      * intro r. rewrite Hdest, Hrooms, in_app_iff. split.
        -- intros [H | [H | H]].
           ++ elim (Hfresh _ H).
           ++ apply (f_equal snd) in H. elim (nombre_sala_usuario_no_sala H).
           ++ apply in_map_iff in H as (m & Hm & Hin).
              apply (f_equal snd) in Hm. apply nombre_sala_inj in Hm.
              unfold select_salas_de_usuario in Hin. apply filter_In in Hin as [Hin Hmu].
              apply Z.eqb_eq in Hmu. now exists m.
        -- intros (m & Hin & Hr & Hmu). right. right.
           apply in_map_iff. exists m. split; [now rewrite Hr|].
           unfold select_salas_de_usuario. apply filter_In. split; [exact Hin|].
           now apply Z.eqb_eq.
      * intro u'. rewrite Hdest, Hrooms, in_app_iff. split.
        -- intros [H | [H | H]].
           ++ elim (Hfresh _ H).
           ++ apply (f_equal snd) in H. simpl in H. symmetry.
              now apply nombre_sala_usuario_inj.
           ++ apply in_map_iff in H as (m & Hm & _).
              apply (f_equal snd) in Hm. simpl in Hm. symmetry in Hm.
              elim (nombre_sala_usuario_no_sala Hm).
        -- intros ->. right. now left.
  - assert (Hrun : atender (manejar_conexion ses sid) w = (Ret tt, en_reposo w)).
    { unfold manejar_conexion. rewrite Hu. reflexivity. }
    rewrite Hrun. cbn [snd]. split; [reflexivity|]. split; [|split; [reflexivity | discriminate]].
    intros sid' room _. rewrite !Hdest. reflexivity.
Qed.

(** The connection 41 of beto in the example world. *)
Lemma manejar_conexion_suscribe_a_sus_salas_ejemplo :
  ~ In 41 (destinatarios (snd (atender (manejar_conexion beto 41) mundo_ejemplo))
                         (nombre_sala (lit "room") 7))
  /\ In 41 (destinatarios (snd (atender (manejar_conexion beto 41) mundo_ejemplo))
                          (nombre_sala_usuario 2)).
Proof.
  destruct (manejar_conexion_suscribe_a_sus_salas beto 41 mundo_ejemplo)
    as (_ & _ & _ & H).
  - intros room [H | [H | []]]; discriminate H.
  - destruct (H 2 eq_refl) as [Hr Hu]. split.
    + intro Hin. apply Hr in Hin. destruct Hin as (m & [<- | []] & _ & Hmu). discriminate Hmu.
    + apply Hu. reflexivity.
Defined.

(** ** Creating a room *)


Lemma generar_codigo_sala_marco (C : Collation) (fuel : nat) (w : World) :
  mismo_salvo_azar w (snd (generar_codigo_sala C fuel w)).
Proof.
  revert w. induction fuel as [|fuel IH]; intro w.
  - unfold mismo_salvo_azar. cbn. auto 10.
  - cbn [generar_codigo_sala]. unfold bind at 1. rewrite join_choices_run.
    unfold consultar_db_one, consultar_db. unfold bind at 1, bind at 1, ret at 1.
    destruct (hd_error _) as [s|].
    + match goal with
      | |- context [generar_codigo_sala C fuel ?w1] => specialize (IH w1)
      end.
      unfold mismo_salvo_azar in *. cbn in IH. exact IH.
    + unfold mismo_salvo_azar, ret. cbn. auto 10.
Qed.


Section Crear.
Variable U : Unicode.
Variable C : Collation.

(** Property X10.  When the generation of the code returns, [room_create] adds one room
    with that code, the name given (trimmed, or [Sala sin nombre] when that
    is blank) and the acting user as creator, makes the creator a member of
    it, adds the system notice and sends it to the room. *)
Theorem room_create_crea_sala
    (ses : Session) (u : Z) (form_name : option str) (fuel : nat) (codigo : str) (w : World) :
  ses_user_id ses = Some u ->
  fst (generar_codigo_sala C fuel (en_reposo w)) = Ret codigo ->
  exists w',
    atender (room_create U C ses form_name fuel) w = (Ret (redirect "chat"), w')
    /\ filas (Salas (confirmada w')) =
         filas (Salas (confirmada w)) ++
         [ {| sala_id_sala := auto_increment (Salas (confirmada w));
              sala_codigo := codigo;
              sala_nombre_sala := match strip U (get_default form_name) with
                                  | [] => lit "Sala sin nombre"
                                  | n => n
                                  end;
              sala_id_creador := u;
              sala_fecha_creacion := utc_src w (utc_pos w) |} ]
    /\ filas (Miembros_Sala (confirmada w')) =
         filas (Miembros_Sala (confirmada w)) ++
         [ {| mie_id := auto_increment (Miembros_Sala (confirmada w));
              mie_id_sala := auto_increment (Salas (confirmada w));
              mie_id_usuario := u;
              mie_fecha_union := utc_src w (S (utc_pos w)) |} ]
    /\ filas (Mensajes_Sala (confirmada w')) =
         filas (Mensajes_Sala (confirmada w)) ++
         [ {| men_id_mensaje := auto_increment (Mensajes_Sala (confirmada w));
              men_id_sala := auto_increment (Salas (confirmada w));
              men_id_emisor := None;
              men_contenido := username_or ses "Anon" ++ lit " se unio a la sala.";
              men_fecha_envio := utc_src w (S (S (utc_pos w)));
              men_es_sistema := true;
              men_tipo_archivo := None;
              men_archivo_datos := None |} ]
    /\ Usuarios (confirmada w') = Usuarios (confirmada w)
    /\ emitidos w' =
         emitidos w ++
         [ {| ev_nombre := "room_notice";
              ev_datos := aviso_datos (auto_increment (Salas (confirmada w)))
                            (username_or ses "Anon" ++ lit " se unio a la sala.")
                            (utc_src w (S (S (utc_pos w))));
              ev_to := nombre_sala (lit "room") (auto_increment (Salas (confirmada w))) |} ]
    /\ flashes w' = flashes w ++ ["Sala creada."%string].
Proof.
  intros Hu Hgen.
  pose proof (generar_codigo_sala_marco C fuel (en_reposo w)) as Hmarco.
  unfold room_create, requiere_login, session_user_id, atender. rewrite Hu.
  unfold bind at 1, ret at 1. unfold bind at 1.
  fold (en_reposo w).
  destruct (generar_codigo_sala C fuel (en_reposo w)) as [r wg].
  cbn [fst snd] in Hgen, Hmarco. subst r.
  destruct Hmarco as (H1 & H2 & H3 & H4 & H5 & H6 & H7).
  desplegar. cbn. rewrite H1, H3, H4, H6, H7. cbn.
  eexists. split; [reflexivity|]. cbn.
  repeat split.
  destruct (strip U (get_default form_name)); reflexivity.
Qed.

End Crear.

(** Ana creates a room in the example world. *)
Lemma room_create_crea_sala_ejemplo :
  exists w',
    atender (room_create tabla_ascii col_exacta ana (Some (lit "  ")) 1) mundo_ejemplo
      = (Ret (redirect "chat"), w')
    /\ map sala_codigo (filas (Salas (confirmada w'))) = [lit "123456"; lit "012345"]
    /\ map sala_nombre_sala (filas (Salas (confirmada w'))) = [lit "Test"; lit "Sala sin nombre"]
    /\ map mie_id_sala (filas (Miembros_Sala (confirmada w'))) = [7; 8].
Proof.
  destruct (room_create_crea_sala tabla_ascii col_exacta ana (u := 1) (Some (lit "  ")) 1
              (codigo := lit "012345") mundo_ejemplo) as (w' & Hrun & Hs & Hm & _).
  - reflexivity.
  - vm_compute. reflexivity.
  - exists w'. split; [exact Hrun|]. rewrite Hs, Hm. repeat split.
Defined.

(** ** Requests in sequence *)

Lemma filter_todo_cierto (A : Type) (f : A -> bool) (l : list A) :
  (forall x, In x l -> f x = true) -> filter f l = l.
Proof.
  induction l as [|x l IH]; simpl; intro H; [reflexivity|].
  rewrite (H x) by now left. f_equal. apply IH. intros y Hy. apply H. now right.
Qed.

Section Secuencias.
Variable U : Unicode.
Variable C : Collation.

(** The run of an accepted join. *)
Lemma room_join_run (ses : Session) (u : Z) (c : str) (sala : Sala) (w : World) :
  ses_user_id ses = Some u ->
  es_codigo c = true ->
  In sala (filas (Salas (confirmada w))) ->
  sala_codigo sala = c ->
  (forall s', In s' (filas (Salas (confirmada w))) ->
              col_eq C (sala_codigo s') c = true -> sala_id_sala s' = sala_id_sala sala) ->
  ~ es_miembro u (sala_id_sala sala) (confirmada w) ->
  exists w',
    atender (room_join U C ses (Some c)) w = (Ret (redirect "chat"), w')
    /\ confirmada w' =
         fst (insert_mensaje (sala_id_sala sala) None
                (username_or ses "Anon" ++ lit " se unio a la sala.")
                (utc_src w (S (utc_pos w))) true None None
                (fst (insert_miembro (sala_id_sala sala) u (utc_src w (utc_pos w))
                        (confirmada w))))
    /\ utc_src w' = utc_src w /\ utc_pos w' = S (S (utc_pos w))
    /\ sio_rooms w' = sio_rooms w.
Proof.
  intros Hu Hc Hin Hcod Huniq Hno.
  destruct (codigo_normal U c Hc) as (Hnorm & Hlen & Hdig).
  destruct (hd_filter_unico (fun s => col_eq C (sala_codigo s) c) sala_id_sala
              (filas (Salas (confirmada w))) sala Hin) as (s0 & Hhd & Hid & Hin0).
  { rewrite Hcod. apply col_eq_refl. }
  { exact Huniq. }
  fold (select_salas_codigo C c (confirmada w)) in Hhd.
  apply select_miembro_vacio in Hno.
  unfold room_join. desplegar. rewrite Hu.
  unfold get_default. rewrite Hnorm, Hlen, Hdig. cbn.
  rewrite Hhd. cbn. rewrite Hid, Hno. cbn.
  eexists. split; [reflexivity|]. cbn. repeat split.
Qed.

(** Property X11.  Leaving undoes joining: when a user who is not a member joins a room
    with its code and then leaves it, [Miembros_Sala] has the rows it had
    before, the rooms are untouched, and [Mensajes_Sala] has two more rows:
    the notice of the arrival and the notice of the departure. *)
Theorem room_join_luego_leave
    (ses : Session) (u : Z) (c : str) (sala : Sala) (form_room_id : option str) (w : World) :
  ses_user_id ses = Some u ->
  es_codigo c = true ->
  In sala (filas (Salas (confirmada w))) ->
  sala_codigo sala = c ->
  (forall s', In s' (filas (Salas (confirmada w))) ->
              col_eq C (sala_codigo s') c = true -> sala_id_sala s' = sala_id_sala sala) ->
  ~ es_miembro u (sala_id_sala sala) (confirmada w) ->
  isdigit U (strip U (get_default form_room_id)) = true ->
  py_int U (strip U (get_default form_room_id)) = Some (sala_id_sala sala) ->
  exists w1 w2,
    atender (room_join U C ses (Some c)) w = (Ret (redirect "chat"), w1)
    /\ atender (room_leave U ses form_room_id) w1 = (Ret (redirect "chat"), w2)
    /\ filas (Miembros_Sala (confirmada w2)) = filas (Miembros_Sala (confirmada w))
    /\ Salas (confirmada w2) = Salas (confirmada w)
    /\ map men_contenido (filas (Mensajes_Sala (confirmada w2))) =
         map men_contenido (filas (Mensajes_Sala (confirmada w))) ++
         [username_or ses "Anon" ++ lit " se unio a la sala.";
          username_or ses "Anon" ++ lit " salio de la sala."].
Proof.
  intros Hu Hc Hin Hcod Huniq Hno Hdig Hint.
  destruct (room_join_run ses sala w Hu Hc Hin Hcod Huniq Hno)
    as (w1 & Hrun1 & Hdb1 & _ & _ & _).
  exists w1. rewrite Hrun1.
  rewrite (room_leave_casos U ses form_room_id w1 Hu), Hdig, Hint. cbn [negb].
  assert (Hfil : filter (fun m => (mie_id_sala m =? sala_id_sala sala) && (mie_id_usuario m =? u))
                        (filas (Miembros_Sala (confirmada w))) = []).
  { exact (select_miembro_vacio Hno). }
  assert (Hsel : exists m, hd_error (select_miembro (sala_id_sala sala) u (confirmada w1))
                           = Some m).
  { rewrite Hdb1. unfold select_miembro, insert_mensaje, insert_miembro, insertar. cbn.
    rewrite filter_app, Hfil. cbn. rewrite !Z.eqb_refl. cbn. eauto. }
  destruct Hsel as (m & ->).
  eexists. split; [reflexivity|]. split; [reflexivity|].
  cbn. rewrite Hdb1. unfold insert_mensaje, insert_miembro, insertar. cbn.
  repeat split.
  - rewrite filter_app. cbn. rewrite !Z.eqb_refl. cbn. rewrite app_nil_r.
    apply filter_todo_cierto. intros x Hx.
    destruct ((mie_id_sala x =? sala_id_sala sala) && (mie_id_usuario x =? u)) eqn:E;
      [|reflexivity].
    exfalso. apply Hno. apply andb_prop in E as [E1 E2]. apply Z.eqb_eq in E1, E2.
    now exists x.
  - rewrite !map_app. cbn. now rewrite <- app_assoc.
Qed.

(** Property X12.  The creator of a room who has left it can still delete it: the deletion
    looks at [id_creador], not at the membership. *)
Theorem room_leave_luego_delete
    (ses : Session) (u rid : Z) (form_room_id : option str) (w : World) :
  ses_user_id ses = Some u ->
  isdigit U (strip U (get_default form_room_id)) = true ->
  py_int U (strip U (get_default form_room_id)) = Some rid ->
  es_miembro u rid (confirmada w) ->
  (exists sala, In sala (filas (Salas (confirmada w))) /\ sala_id_sala sala = rid) ->
  (forall sala, In sala (filas (Salas (confirmada w))) ->
                sala_id_sala sala = rid -> sala_id_creador sala = u) ->
  exists w1 w2,
    atender (room_leave U ses form_room_id) w = (Ret (redirect "chat"), w1)
    /\ ~ es_miembro u rid (confirmada w1)
    /\ atender (room_delete U ses form_room_id) w1 = (Ret (redirect "chat"), w2)
    /\ (forall sala, In sala (filas (Salas (confirmada w2))) -> sala_id_sala sala <> rid)
    /\ flashes w2 = flashes w ++ ["Saliste de la sala."%string; "Sala eliminada."%string].
Proof.
  intros Hu Hdig Hint Hmie (sala & Hin & Hid) Hcre.
  apply select_miembro_hay in Hmie as (m0 & Hm0).
  pose proof (room_leave_casos U ses form_room_id w Hu) as Hl.
  rewrite Hdig, Hint in Hl. cbn [negb] in Hl. rewrite Hm0 in Hl. cbv zeta in Hl.
  match type of Hl with _ = (_, ?W) => exists W end.
  rewrite Hl. clear Hl.
  rewrite (room_delete_casos U ses form_room_id _ Hu), Hdig, Hint. cbn [negb].
  cbn [confirmada con_flashes con_emitidos con_sql_log con_utc_pos con_confirmada con_conexion].
  destruct (hd_filter_hay (fun s => sala_id_sala s =? rid) _ sala Hin) as (s0 & Hs0).
  { now apply Z.eqb_eq. }
  assert (Hsel : hd_error (select_salas_id rid
            (fst (insert_mensaje rid None (username_or ses "Anon" ++ lit " salio de la sala.")
                    (utc_src w (utc_pos w)) true None None
                    (fst (delete_miembro rid u (confirmada w)))))) = Some s0).
  { exact Hs0. }
  rewrite Hsel.
  apply hd_filter_in in Hs0 as [Hin0 Hid0]. apply Z.eqb_eq in Hid0.
  rewrite (Hcre s0 Hin0 Hid0), Z.eqb_refl. cbn [negb].
  eexists. split; [reflexivity|]. split; [|split; [reflexivity|split]].
  - intros (m & Hm & Hr & Hmu). cbn in Hm. apply filter_In in Hm as [_ Hneg].
    rewrite Hr, Hmu, !Z.eqb_refl in Hneg. discriminate.
  - intros s Hs. cbn in Hs. apply filter_In in Hs as [_ Hneg].
    intro E. rewrite E, Z.eqb_refl in Hneg. discriminate.
  - cbn. now rewrite <- app_assoc.
Qed.

(** Property X13.  The refusals of the room views change nothing but the flashes (and the
    log of statements): a well-formed code of no room, a departure from a
    room the user is not in, a room id that is no number, the deletion of a
    room that does not exist. *)
Theorem vistas_de_sala_rechazos
    (ses : Session) (u : Z) (campo : option str) (w : World) :
  ses_user_id ses = Some u ->
  (forall c, campo = Some c -> es_codigo c = true ->
     select_salas_codigo C c (confirmada w) = [] ->
     atender (room_join U C ses campo) w =
       (Ret (redirect "chat"),
        con_flashes (flashes w ++ ["Sala no encontrada."%string])
          (con_sql_log
             (sql_log w ++ ["SELECT id_sala, codigo, nombre_sala FROM Salas WHERE codigo = %s"%string])
             (en_reposo w))))
  /\ (isdigit U (strip U (get_default campo)) = false ->
      atender (room_leave U ses campo) w =
        (Ret (redirect "chat"),
         con_flashes (flashes w ++ ["Sala invalida."%string]) (en_reposo w))
      /\ atender (room_delete U ses campo) w =
           (Ret (redirect "chat"),
            con_flashes (flashes w ++ ["Sala invalida."%string]) (en_reposo w)))
  /\ (forall rid,
        isdigit U (strip U (get_default campo)) = true ->
        py_int U (strip U (get_default campo)) = Some rid ->
        (~ es_miembro u rid (confirmada w) ->
         atender (room_leave U ses campo) w =
           (Ret (redirect "chat"),
            con_flashes (flashes w ++ ["No perteneces a esa sala."%string])
              (con_sql_log (sql_log w ++ [SQL_SELECT_MIEMBRO]) (en_reposo w))))
        /\ ((forall sala, In sala (filas (Salas (confirmada w))) -> sala_id_sala sala <> rid) ->
            atender (room_delete U ses campo) w =
              (Ret (redirect "chat"),
               con_flashes (flashes w ++ ["Sala no encontrada."%string])
                 (con_sql_log (sql_log w ++ [SQL_SELECT_SALA_ID]) (en_reposo w))))).
Proof.
  intro Hu. split; [|split].
  - intros c -> Hc Hsel.
    destruct (codigo_normal U c Hc) as (Hnorm & Hlen & Hdig).
    unfold room_join. desplegar. rewrite Hu.
    unfold get_default. rewrite Hnorm, Hlen, Hdig. cbn. rewrite Hsel. reflexivity.
  - intro Hdig.
    rewrite (room_leave_casos U ses campo w Hu), (room_delete_casos U ses campo w Hu), Hdig.
    split; reflexivity.
  - intros rid Hdig Hint.
    rewrite (room_leave_casos U ses campo w Hu), (room_delete_casos U ses campo w Hu), Hdig, Hint.
    cbn [negb]. split.
    + intro Hno. rewrite (select_miembro_vacio Hno). reflexivity.
    + intro Hno. unfold select_salas_id. rewrite filter_todo_falso; [reflexivity|].
      intros s Hs. apply Z.eqb_neq. now apply Hno.
Qed.

(** Property X14.  A user who is not a member of a room learns nothing of it and stores
    nothing in it: the history is the empty list, as it is for a room id
    that is no number or a room type other than [room], and an upload is
    answered with the error 403; the database and the events are as
    before. *)
Theorem no_miembro_sin_acceso
    (ses : Session) (u : Z) (arg_room_type campo : option str)
    (file : option FileStorage) (w : World) :
  ses_user_id ses = Some u ->
  (isdigit U (get_default campo) = false \/ str_eqb (get_default arg_room_type) (lit "room") = false ->
   atender (api_messages U ses arg_room_type campo) w = (Ret (jsonify_filas []), en_reposo w))
  /\ (forall rid,
        isdigit U (get_default campo) = true ->
        py_int U (get_default campo) = Some rid ->
        ~ es_miembro u rid (confirmada w) ->
        atender (api_messages U ses (Some (lit "room")) campo) w =
          (Ret (jsonify_filas []),
           con_sql_log (sql_log w ++ [SQL_SELECT_MIEMBRO]) (en_reposo w)))
  /\ (forall rid,
        isdigit U (strip U (get_default campo)) = true ->
        py_int U (strip U (get_default campo)) = Some rid ->
        ~ es_miembro u rid (confirmada w) ->
        atender (upload_media U ses campo file) w =
          (Ret (jsonify_error "No eres miembro de esa sala." 403),
           con_sql_log (sql_log w ++ [SQL_SELECT_MIEMBRO]) (en_reposo w))).
Proof.
  intro Hu. split; [|split].
  - intro H. unfold api_messages. desplegar. rewrite Hu.
    assert (Hc : negb (isdigit U (get_default campo))
                 || negb (str_eqb (get_default arg_room_type) (lit "room")) = true).
    { destruct H as [-> | ->]; [reflexivity | apply orb_true_r]. }
    rewrite Hc. reflexivity.
  - intros rid Hdig Hint Hno. unfold api_messages. desplegar. rewrite Hu.
    cbn [get_default]. rewrite Hdig, str_eqb_refl. cbn. rewrite Hint. cbn.
    rewrite (select_miembro_vacio Hno). reflexivity.
  - intros rid Hdig Hint Hno. unfold upload_media. desplegar. rewrite Hu, Hdig. cbn.
    rewrite Hint. cbn. rewrite (select_miembro_vacio Hno). reflexivity.
Qed.

End Secuencias.

(** Beto joins room 7 and leaves it, in the example world. *)
Lemma room_join_luego_leave_ejemplo :
  exists w1 w2,
    atender (room_join tabla_ascii col_exacta beto (Some (lit "123456"))) mundo_ejemplo
      = (Ret (redirect "chat"), w1)
    /\ atender (room_leave tabla_ascii beto (Some (lit "7"))) w1 = (Ret (redirect "chat"), w2)
    /\ filas (Miembros_Sala (confirmada w2)) = filas (Miembros_Sala db_ejemplo)
    /\ List.length (filas (Mensajes_Sala (confirmada w2))) = 2%nat.
Proof.
  destruct (room_join_luego_leave tabla_ascii col_exacta beto (u := 2) (c := lit "123456")
              {| sala_id_sala := 7; sala_codigo := lit "123456";
                 sala_nombre_sala := lit "Test"; sala_id_creador := 1;
                 sala_fecha_creacion := 0 |} (Some (lit "7")) mundo_ejemplo)
    as (w1 & w2 & H1 & H2 & Hm & _ & Hn).
  - reflexivity.
  - reflexivity.
  - left. reflexivity.
  - reflexivity.
  - intros s' [<- | []] _. reflexivity.
  - intros (m & [<- | []] & _ & Hmu). discriminate Hmu.
  - reflexivity.
  - reflexivity.
  - exists w1, w2. split; [exact H1|]. split; [exact H2|]. split; [exact Hm|].
    rewrite <- (length_map men_contenido), Hn. reflexivity.
Defined.

(** Ana leaves her room 7 and then deletes it, in the example world. *)
Lemma room_leave_luego_delete_ejemplo :
  exists w1 w2,
    atender (room_leave tabla_ascii ana (Some (lit "7"))) mundo_ejemplo
      = (Ret (redirect "chat"), w1)
    /\ ~ es_miembro 1 7 (confirmada w1)
    /\ atender (room_delete tabla_ascii ana (Some (lit "7"))) w1 = (Ret (redirect "chat"), w2)
    /\ (forall sala, In sala (filas (Salas (confirmada w2))) -> sala_id_sala sala <> 7)
    /\ flashes w2 = flashes mundo_ejemplo
                    ++ ["Saliste de la sala."%string; "Sala eliminada."%string].
Proof.
  apply (room_leave_luego_delete tabla_ascii ana (u := 1) (rid := 7) (Some (lit "7"))
           mundo_ejemplo).
  - reflexivity.
  - reflexivity.
  - reflexivity.
  - eexists. split; [left; reflexivity | split; reflexivity].
  - eexists. split; [left; reflexivity | reflexivity].
  - intros sala [<- | []] _. reflexivity.
Defined.

(** Beto, who is in no room, in the example world. *)
Lemma vistas_de_sala_rechazos_ejemplo :
  atender (room_leave tabla_ascii beto (Some (lit "7"))) mundo_ejemplo =
    (Ret (redirect "chat"),
     con_flashes (flashes mundo_ejemplo ++ ["No perteneces a esa sala."%string])
       (con_sql_log (sql_log mundo_ejemplo ++ [SQL_SELECT_MIEMBRO]) (en_reposo mundo_ejemplo))).
Proof.
  destruct (vistas_de_sala_rechazos tabla_ascii col_exacta beto (u := 2) (Some (lit "7"))
              mundo_ejemplo) as (_ & _ & H).
  - reflexivity.
  - destruct (H 7) as [Hl _].
    + reflexivity.
    + reflexivity.
    + apply Hl. intros (m & [<- | []] & _ & Hmu). discriminate Hmu.
Defined.

Lemma no_miembro_sin_acceso_ejemplo :
  atender (api_messages tabla_ascii beto (Some (lit "room")) (Some (lit "7"))) mundo_ejemplo =
    (Ret (jsonify_filas []),
     con_sql_log (sql_log mundo_ejemplo ++ [SQL_SELECT_MIEMBRO]) (en_reposo mundo_ejemplo)).
Proof.
  destruct (no_miembro_sin_acceso tabla_ascii beto (u := 2) None (Some (lit "7")) None
              mundo_ejemplo) as (_ & H & _).
  - reflexivity.
  - apply (H 7).
    + reflexivity.
    + reflexivity.
    + intros (m & [<- | []] & _ & Hmu). discriminate Hmu.
Defined.

(** ** An upload and its download *)

Lemma skipn_app_length (A : Type) (x y : list A) : skipn (List.length x) (x ++ y) = y.
Proof.
  induction x as [|a x IH]; simpl; [reflexivity | exact IH].
Qed.

Lemma endswith_app (x suf : str) : endswith (x ++ suf) suf = true.
Proof.
  unfold endswith. rewrite length_app.
  replace (List.length x + List.length suf - List.length suf)%nat with (List.length x) by lia.
  rewrite skipn_app_length, str_eqb_refl, andb_true_r.
  apply Nat.leb_le. lia.
Qed.

Lemma endswith_app_distinto (x s1 s2 : str) :
  List.length s1 = List.length s2 -> str_eqb s1 s2 = false -> endswith (x ++ s1) s2 = false.
Proof.
  intros Hl Hne. unfold endswith. rewrite length_app, Hl.
  replace (List.length x + List.length s2 - List.length s2)%nat with (List.length x) by lia.
  rewrite skipn_app_length, Hne. apply andb_false_r.
Qed.

(** A name that ends in [.png] does not end in [.jpeg]. *)
Lemma endswith_png_jpeg (x : str) : endswith (x ++ lit ".png") (lit ".jpeg") = false.
Proof.
  destruct x as [|c0 x0]; [reflexivity|].
  destruct (exists_last (l := c0 :: x0)) as (x' & c & Hx); [discriminate|].
  rewrite Hx, <- app_assoc.
  apply endswith_app_distinto; [reflexivity|].
  unfold lit. simpl. apply andb_false_r.
Qed.

Lemma en_ALLOWED (x : str) :
  en x ALLOWED_EXTENSIONS = true ->
  x = lit "mp3" \/ x = lit "mp4" \/ x = lit "jpg" \/ x = lit "png".
Proof.
  unfold en, ALLOWED_EXTENSIONS. cbn [existsb]. rewrite orb_false_r.
  intro H. repeat (apply orb_prop in H as [H | H]); apply str_eqb_eq in H; auto.
Qed.

Section Descarga.
Variable U : Unicode.

(** The lower case of an ASCII name [a.ext] is the lower case of [a], a
    dot, and the lower case of [ext]. *)
Lemma lower_nombre_ascii (a ext : str) :
  Forall es_ascii (a ++ punto :: ext) ->
  lower U (a ++ punto :: ext) = map ascii_lower a ++ lit "." ++ lower U ext.
Proof.
  intro H. unfold lower. rewrite (uc_lower_ascii U H), map_app.
  apply Forall_app in H as [_ H]. inversion H as [|x l _ H']; subst.
  now rewrite (uc_lower_ascii U H').
Qed.

(** The run of an accepted upload. *)
Lemma upload_media_run
    (ses : Session) (u rid : Z) (form_room_id : option str) (file : FileStorage)
    (a ext : str) (w : World) :
  ses_user_id ses = Some u ->
  isdigit U (strip U (get_default form_room_id)) = true ->
  py_int U (strip U (get_default form_room_id)) = Some rid ->
  es_miembro u rid (confirmada w) ->
  fs_filename file = a ++ punto :: ext ->
  contiene punto ext = false ->
  en (lower U ext) ALLOWED_EXTENSIONS = true ->
  exists w1,
    atender (upload_media U ses form_room_id (Some file)) w
      = (Ret (jsonify_success (auto_increment (Mensajes_Sala (confirmada w)))), w1)
    /\ confirmada w1
       = fst (insert_mensaje rid (Some u) (fs_filename file) (utc_src w (utc_pos w)) false
                (Some (if str_eqb (lower U ext) (lit "mp3") then lit "audio"
                       else if str_eqb (lower U ext) (lit "mp4") then lit "video"
                       else if en (lower U ext) [lit "jpg"; lit "png"] then lit "image"
                       else lit "file"))
                (Some (fs_read file)) (confirmada w)).
Proof.
  intros Hu Hdig Hint Hmie Hfn Hext Hen.
  apply select_miembro_hay in Hmie as (m & Hm).
  assert (Hperm : forall w0, archivo_permitido U (fs_filename file) w0 = (Ret true, w0)).
  { intro w0. unfold archivo_permitido, rsplit1. desplegar.
    rewrite Hfn, contiene_app, (rsplit_aux_ultimo punto a ext Hext).
    transitivity (@Ret bool (en (lower U ext) ALLOWED_EXTENSIONS), w0);
      [reflexivity | now rewrite Hen]. }
  assert (Hne : forall (X : Type) (p q : X),
                 match fs_filename file with [] => p | _ :: _ => q end = q).
  { intros X p q. rewrite Hfn. destruct a; reflexivity. }
  remember (atender (upload_media U ses form_room_id (Some file)) w) as R eqn:HR.
  unfold upload_media in HR. desplegar_en HR.
  rewrite Hu, Hdig, Hint in HR. cbn in HR. rewrite Hm in HR. cbn in HR.
  rewrite Hne, Hperm in HR. cbn in HR.
  unfold rsplit1 in HR. rewrite Hfn, (rsplit_aux_ultimo punto a ext Hext) in HR.
  cbn in HR. rewrite <- Hfn in HR.
  eexists. split; [exact HR|]. reflexivity.
Qed.

(** The SELECT of [get_media] on the id of a row just inserted, when no
    other row has that id, finds that row. *)
Lemma select_mensaje_insertado
    (rid : Z) (em : option Z) (contenido : str) (f : fecha) (sis : bool)
    (tipo : option str) (datos : option bytes) (db : DB) :
  (forall m, In m (filas (Mensajes_Sala db)) ->
             men_id_mensaje m <> auto_increment (Mensajes_Sala db)) ->
  select_mensaje (auto_increment (Mensajes_Sala db))
    (fst (insert_mensaje rid em contenido f sis tipo datos db))
  = [ {| men_id_mensaje := auto_increment (Mensajes_Sala db);
         men_id_sala := rid; men_id_emisor := em; men_contenido := contenido;
         men_fecha_envio := f; men_es_sistema := sis;
         men_tipo_archivo := tipo; men_archivo_datos := datos |} ].
Proof.
  intro Hid. unfold select_mensaje, insert_mensaje, insertar. cbn.
  rewrite filter_app. cbn. rewrite Z.eqb_refl.
  rewrite filter_todo_falso; [reflexivity|].
  intros x Hx. apply Z.eqb_neq. now apply Hid.
Qed.

(** Property X15.  What was uploaded is what is downloaded.  A member uploads a file with
    an ASCII name, an allowed extension and at least one byte, to a table
    where the next id is not taken; the view answers with the id of the new
    message, and [get_media] on that id, for any visitor, answers with the
    bytes of the file and the type [audio/mpeg] for [mp3], [video/mp4] for
    [mp4], [image/jpeg] for [jpg] and [image/png] for [png]. *)
Theorem upload_media_luego_get_media
    (ses : Session) (u rid : Z) (form_room_id : option str) (file : FileStorage)
    (a ext : str) (b : Byte.byte) (bs : bytes) (w : World) :
  ses_user_id ses = Some u ->
  isdigit U (strip U (get_default form_room_id)) = true ->
  py_int U (strip U (get_default form_room_id)) = Some rid ->
  es_miembro u rid (confirmada w) ->
  fs_filename file = a ++ punto :: ext ->
  contiene punto ext = false ->
  Forall es_ascii (fs_filename file) ->
  en (lower U ext) ALLOWED_EXTENSIONS = true ->
  fs_read file = b :: bs ->
  (forall m, In m (filas (Mensajes_Sala (confirmada w))) ->
             men_id_mensaje m <> auto_increment (Mensajes_Sala (confirmada w))) ->
  exists w1 mime,
    atender (upload_media U ses form_room_id (Some file)) w
      = (Ret (jsonify_success (auto_increment (Mensajes_Sala (confirmada w)))), w1)
    /\ (forall ses',
          fst (atender (get_media U ses' (auto_increment (Mensajes_Sala (confirmada w)))) w1)
          = Ret (Response (b :: bs) mime))
    /\ (lower U ext = lit "mp3" -> mime = "audio/mpeg"%string)
    /\ (lower U ext = lit "mp4" -> mime = "video/mp4"%string)
    /\ (lower U ext = lit "jpg" -> mime = "image/jpeg"%string)
    /\ (lower U ext = lit "png" -> mime = "image/png"%string).
Proof.
  intros Hu Hdig Hint Hmie Hfn Hext Hascii Hen Hread Hid.
  destruct (upload_media_run ses form_room_id file a ext w Hu Hdig Hint Hmie Hfn Hext Hen)
    as (w1 & Hrun & Hc).
  assert (Hlow : lower U (fs_filename file) = map ascii_lower a ++ lit "." ++ lower U ext).
  { rewrite Hfn in *. now apply lower_nombre_ascii. }
  assert (Hget : forall ses',
            fst (atender (get_media U ses' (auto_increment (Mensajes_Sala (confirmada w)))) w1)
            = fst (get_media U ses' (auto_increment (Mensajes_Sala (confirmada w)))
                     (con_conexion (confirmada w1) w1))).
  { intro ses'. unfold atender. now destruct (get_media _ _ _ _). }
  assert (Hmimes : forall mime : string,
            mime = "audio/mpeg"%string /\ lower U ext = lit "mp3" \/
            mime = "video/mp4"%string /\ lower U ext = lit "mp4" \/
            mime = "image/jpeg"%string /\ lower U ext = lit "jpg" \/
            mime = "image/png"%string /\ lower U ext = lit "png" ->
            (lower U ext = lit "mp3" -> mime = "audio/mpeg"%string) /\
            (lower U ext = lit "mp4" -> mime = "video/mp4"%string) /\
            (lower U ext = lit "jpg" -> mime = "image/jpeg"%string) /\
            (lower U ext = lit "png" -> mime = "image/png"%string)).
  { intros mime [[-> E] | [[-> E] | [[-> E] | [-> E]]]]; rewrite E;
      repeat split; intro D; try reflexivity; apply lit_inj in D; discriminate D. }
  rewrite Hread in Hc.
  destruct (en_ALLOWED _ Hen) as [E | [E | [E | E]]]; rewrite E in Hc, Hlow;
    match type of Hc with
    | context [Some (if ?c then ?x else ?y)] =>
        let v := eval vm_compute in (if c then x else y) in
        change (if c then x else y) with v in Hc
    end.
  - exists w1, "audio/mpeg"%string. split; [exact Hrun|]. split; [|apply Hmimes; auto].
    intro ses'. rewrite Hget. unfold get_media. desplegar. cbn.
    rewrite Hc, (select_mensaje_insertado _ _ _ _ _ _ _ _ Hid). reflexivity.
  - exists w1, "video/mp4"%string. split; [exact Hrun|]. split; [|apply Hmimes; auto].
    intro ses'. rewrite Hget. unfold get_media. desplegar. cbn.
    rewrite Hc, (select_mensaje_insertado _ _ _ _ _ _ _ _ Hid). reflexivity.
  - exists w1, "image/jpeg"%string. split; [exact Hrun|]. split; [|apply Hmimes; auto 6].
    intro ses'. rewrite Hget. unfold get_media. desplegar. cbn.
    rewrite Hc, (select_mensaje_insertado _ _ _ _ _ _ _ _ Hid). cbn. rewrite Hlow.
    replace (map ascii_lower a ++ lit "." ++ lit "jpg")
      with (map ascii_lower a ++ lit ".jpg") by reflexivity.
    rewrite (endswith_app (map ascii_lower a) (lit ".jpg")), orb_true_r. reflexivity.
  - exists w1, "image/png"%string. split; [exact Hrun|]. split; [|apply Hmimes; auto 8].
    intro ses'. rewrite Hget. unfold get_media. desplegar. cbn.
    rewrite Hc, (select_mensaje_insertado _ _ _ _ _ _ _ _ Hid). cbn. rewrite Hlow.
    replace (map ascii_lower a ++ lit "." ++ lit "png")
      with (map ascii_lower a ++ lit ".png") by reflexivity.
    rewrite endswith_png_jpeg.
    rewrite (endswith_app_distinto (map ascii_lower a) (lit ".png") (lit ".jpg"));
      reflexivity.
Qed.

(** Property X16.  An empty file is stored and cannot be downloaded.  A member uploads a
    file of no bytes with an allowed extension: the view answers with the
    id of the new message, whose row holds the empty blob, and tells the
    room of it with [media_message]; [get_media] on that id answers 404 to
    every visitor. *)
Theorem upload_media_vacio_no_se_descarga
    (ses : Session) (u rid : Z) (form_room_id : option str) (file : FileStorage)
    (a ext : str) (w : World) :
  ses_user_id ses = Some u ->
  isdigit U (strip U (get_default form_room_id)) = true ->
  py_int U (strip U (get_default form_room_id)) = Some rid ->
  es_miembro u rid (confirmada w) ->
  fs_filename file = a ++ punto :: ext ->
  contiene punto ext = false ->
  en (lower U ext) ALLOWED_EXTENSIONS = true ->
  fs_read file = [] ->
  (forall m, In m (filas (Mensajes_Sala (confirmada w))) ->
             men_id_mensaje m <> auto_increment (Mensajes_Sala (confirmada w))) ->
  exists w1,
    atender (upload_media U ses form_room_id (Some file)) w
      = (Ret (jsonify_success (auto_increment (Mensajes_Sala (confirmada w)))), w1)
    /\ map men_archivo_datos (filas (Mensajes_Sala (confirmada w1)))
       = map men_archivo_datos (filas (Mensajes_Sala (confirmada w))) ++ [Some []]
    /\ (forall ses',
          fst (atender (get_media U ses' (auto_increment (Mensajes_Sala (confirmada w)))) w1)
          = Ret (texto "Not found" 404)).
Proof.
  intros Hu Hdig Hint Hmie Hfn Hext Hen Hread Hid.
  destruct (upload_media_run ses form_room_id file a ext w Hu Hdig Hint Hmie Hfn Hext Hen)
    as (w1 & Hrun & Hc).
  rewrite Hread in Hc.
  exists w1. split; [exact Hrun|]. split.
  - rewrite Hc. unfold insert_mensaje, insertar. cbn. now rewrite map_app.
  - intro ses'. unfold atender, get_media. desplegar. cbn.
    rewrite Hc, (select_mensaje_insertado _ _ _ _ _ _ _ _ Hid). reflexivity.
Qed.

End Descarga.

(** Ana uploads [Foto.PNG] to room 7, which has already 52 messages; a
    visitor who is not logged in downloads it as [image/png]. *)
Lemma upload_media_luego_get_media_ejemplo :
  exists w1,
    atender (upload_media tabla_ascii ana (Some (lit "7"))
               (Some {| fs_filename := lit "Foto.PNG"; fs_read := [Byte.x01; Byte.x02] |}))
            mundo_historial
      = (Ret (jsonify_success 53), w1)
    /\ fst (atender (get_media tabla_ascii anonimo 53) w1)
       = Ret (Response [Byte.x01; Byte.x02] "image/png").
Proof.
  destruct (upload_media_luego_get_media tabla_ascii ana (u := 1) (rid := 7) (Some (lit "7"))
              {| fs_filename := lit "Foto.PNG"; fs_read := [Byte.x01; Byte.x02] |}
              (lit "Foto") (lit "PNG") (b := Byte.x01) (bs := [Byte.x02])
              mundo_historial) as (w1 & mime & Hrun & Hget & _ & _ & _ & Hpng).
  - reflexivity.
  - reflexivity.
  - reflexivity.
  - eexists. split; [left; reflexivity | split; reflexivity].
  - reflexivity.
  - reflexivity.
  - repeat constructor.
  - reflexivity.
  - reflexivity.
  - intros m Hm. apply in_map_iff in Hm as (i & <- & Hi). apply in_seq in Hi.
    cbn [men_id_mensaje]. cbn. lia.
  - exists w1. split; [exact Hrun|]. rewrite <- (Hpng eq_refl). exact (Hget anonimo).
Defined.

(** Ana uploads the empty file [nada.mp3] to room 7; nobody can download
    it. *)
Lemma upload_media_vacio_no_se_descarga_ejemplo :
  exists w1,
    atender (upload_media tabla_ascii ana (Some (lit "7"))
               (Some {| fs_filename := lit "nada.mp3"; fs_read := [] |}))
            mundo_ejemplo
      = (Ret (jsonify_success 1), w1)
    /\ fst (atender (get_media tabla_ascii ana 1) w1) = Ret (texto "Not found" 404).
Proof.
  destruct (upload_media_vacio_no_se_descarga tabla_ascii ana (u := 1) (rid := 7)
              (Some (lit "7")) {| fs_filename := lit "nada.mp3"; fs_read := [] |}
              (lit "nada") (lit "mp3") mundo_ejemplo) as (w1 & Hrun & _ & Hget).
  - reflexivity.
  - reflexivity.
  - reflexivity.
  - eexists. split; [left; reflexivity | split; reflexivity].
  - reflexivity.
  - reflexivity.
  - reflexivity.
  - reflexivity.
  - intros m [].
  - exists w1. split; [exact Hrun | exact (Hget ana)].
Defined.

(** ** A message sent and the history *)

Section Orden_snoc.
Variable A : Type.
Variable key : A -> Z.

(** A row with the greatest key, added last, is first in descending order. *)
Lemma order_by_desc_snoc (l : list A) (x : A) :
  (forall y, In y l -> key y < key x) ->
  order_by_desc key (l ++ [x]) = x :: order_by_desc key l.
Proof.
  induction l as [|y l IH]; intro H; [reflexivity|].
  simpl. rewrite IH by (intros z Hz; apply H; now right).
  simpl. assert (Hy : key y < key x) by (apply H; now left).
  destruct (Z.leb_spec (key x) (key y)); [lia | reflexivity].
Qed.

End Orden_snoc.

(** The first [n] of a list, reversed, are the last [n] of its first
    [n + 1], reversed. *)
Lemma rev_firstn_skipn (A : Type) (n : nat) (l : list A) :
  rev (firstn n l)
  = skipn (List.length (rev (firstn (S n) l)) - n) (rev (firstn (S n) l)).
Proof.
  rewrite length_rev, skipn_rev. f_equal.
  destruct (Nat.le_gt_cases (List.length l) n) as [Hle | Hgt].
  - rewrite (firstn_all2 (n := n)) by exact Hle.
    rewrite (firstn_all2 (n := S n)) by lia.
    replace (List.length l - (List.length l - n))%nat with (List.length l) by lia.
    now rewrite firstn_all.
  - rewrite length_firstn.
    replace (Nat.min (S n) (List.length l) - (Nat.min (S n) (List.length l) - n))%nat
      with n by lia.
    rewrite firstn_firstn. f_equal. lia.
Qed.

Section Enviar_y_leer.
Variable U : Unicode.

(** The run of an accepted [send_message]. *)
Lemma manejar_envio_mensaje_run
    (ses : Session) (data : Data) (u rid : Z) (raw : str) (w : World) :
  session_get_user_id ses = Some u ->
  data_room_type data = PyStr (lit "room") ->
  data_body data = PyStr raw ->
  strip U raw <> [] ->
  isdigit U (py_str (data_room_id data)) = true ->
  fst (py_int_val U (data_room_id data) w) = Ret rid ->
  es_miembro u rid (confirmada w) ->
  exists w1,
    atender (manejar_envio_mensaje U ses data) w = (Ret tt, w1)
    /\ confirmada w1
       = fst (insert_mensaje rid (Some u) (strip U raw) (utc_src w (utc_pos w))
                false None None (confirmada w)).
Proof.
  intros Hu Htipo Hbody Hne Hdig Hrid Hmie.
  remember (atender (manejar_envio_mensaje U ses data) w) as R eqn:HR.
  unfold manejar_envio_mensaje in HR.
  destruct (py_int_val_puro U (data_room_id data)) as (ri & Hint & Hago).
  apply select_miembro_hay in Hmie as (m & Hm).
  rewrite Hint in Hrid. cbn in Hrid. subst ri.
  rewrite Hu, Hbody, Htipo in HR.
  destruct (body_casos U (PyStr raw)) as [(raw' & Hraw & Hb) | (Hno & _)];
    [ | now elim (Hno raw)].
  injection Hraw as <-. rewrite Hb in HR. rewrite Hdig in HR.
  destruct (strip U raw) as [|c body] eqn:Hstrip; [congruence|].
  unfold atender, bind at 1, ret at 1 in HR. cbn [orb negb py_ne_str] in HR.
  rewrite str_eqb_refl in HR. cbn [orb negb] in HR.
  unfold bind at 1 in HR. rewrite Hint in HR.
  unfold bind at 1, usuario_en_sala, consultar_db_one, consultar_db in HR.
  unfold bind at 1, bind at 1, ret at 1 in HR. cbn [conexion con_conexion con_sql_log] in HR.
  rewrite Hm in HR.
  subst R. desplegar. cbn. eexists. split; reflexivity.
Qed.

(** The answer of [api_messages] to a member. *)
Lemma api_messages_run (ses : Session) (u rid : Z) (arg_room_id : str) (w : World) :
  ses_user_id ses = Some u ->
  isdigit U arg_room_id = true ->
  py_int U arg_room_id = Some rid ->
  es_miembro u rid (confirmada w) ->
  fst (atender (api_messages U ses (Some (lit "room")) (Some arg_room_id)) w)
  = Ret (jsonify_filas (rev (select_historial rid (confirmada w)))).
Proof.
  intros Hu Hdig Hint Hmie.
  apply select_miembro_hay in Hmie as (m0 & Hm0).
  unfold api_messages. desplegar. rewrite Hu. unfold get_default.
  rewrite Hdig, str_eqb_refl. cbn. rewrite Hint. cbn. rewrite Hm0. reflexivity.
Qed.

(** Property X17.  What is sent is read back.  A member sends a text to a room, the ids of
    the messages being below the next id and the user ids a primary key;
    then the history of the room, as [api_messages] gives it to this member,
    is the last 49 rows of the history before, followed by the message
    sent: its trimmed body, the time of sending, the name of the sender. *)
Theorem manejar_envio_mensaje_luego_api_messages
    (ses : Session) (data : Data) (u rid : Z) (raw arg_room_id : str) (usr : Usuario)
    (w : World) :
  session_get_user_id ses = Some u ->
  data_room_type data = PyStr (lit "room") ->
  data_body data = PyStr raw ->
  strip U raw <> [] ->
  isdigit U (py_str (data_room_id data)) = true ->
  fst (py_int_val U (data_room_id data) w) = Ret rid ->
  es_miembro u rid (confirmada w) ->
  isdigit U arg_room_id = true ->
  py_int U arg_room_id = Some rid ->
  (forall m, In m (filas (Mensajes_Sala (confirmada w))) ->
             men_id_mensaje m < auto_increment (Mensajes_Sala (confirmada w))) ->
  NoDup (map usr_id_usuario (filas (Usuarios (confirmada w)))) ->
  In usr (filas (Usuarios (confirmada w))) ->
  usr_id_usuario usr = u ->
  exists w1 antes,
    atender (manejar_envio_mensaje U ses data) w = (Ret tt, w1)
    /\ fst (atender (api_messages U ses (Some (lit "room")) (Some arg_room_id)) w)
       = Ret (jsonify_filas antes)
    /\ fst (atender (api_messages U ses (Some (lit "room")) (Some arg_room_id)) w1)
       = Ret (jsonify_filas
                (skipn (List.length antes - 49) antes ++
                 [ {| h_id_mensaje := auto_increment (Mensajes_Sala (confirmada w));
                      h_contenido := strip U raw;
                      h_fecha_envio := utc_src w (utc_pos w);
                      h_es_sistema := false;
                      h_tipo_archivo := None;
                      h_sender := Some (usr_usuario usr) |} ])).
Proof.
  intros Hu Htipo Hbody Hne Hdig Hrid Hmie Hdig' Hint' Hid Hpk Husr Hkey.
  assert (Hu' : ses_user_id ses = Some u).
  { unfold session_get_user_id in Hu.
    destruct (ses_user_id ses) as [[|p|p]|]; congruence. }
  destruct (manejar_envio_mensaje_run ses data w Hu Htipo Hbody Hne Hdig Hrid Hmie)
    as (w1 & Hrun & Hc).
  exists w1, (rev (select_historial rid (confirmada w))).
  split; [exact Hrun|].
  split; [now apply api_messages_run with (u := u)|].
  rewrite (api_messages_run ses (u := u) (rid := rid)); try assumption.
  2:{ rewrite Hc. exact Hmie. }
  do 2 f_equal. rewrite Hc. unfold select_historial, insert_mensaje, insertar.
  cbn [fst Usuarios Mensajes_Sala filas con_Mensajes_Sala].
  set (ms := filter (fun m => men_id_sala m =? rid) (filas (Mensajes_Sala (confirmada w)))).
  set (us := filas (Usuarios (confirmada w))).
  set (nuevo := {| men_id_mensaje := auto_increment (Mensajes_Sala (confirmada w));
                   men_id_sala := rid; men_id_emisor := Some u;
                   men_contenido := strip U raw;
                   men_fecha_envio := utc_src w (utc_pos w); men_es_sistema := false;
                   men_tipo_archivo := None; men_archivo_datos := None |}).
  rewrite filter_app. cbn [filter men_id_sala nuevo]. rewrite Z.eqb_refl.
  fold nuevo. fold ms.
  rewrite flat_map_app. cbn [flat_map]. rewrite app_nil_r.
  assert (Hjoin : left_join_usuarios us nuevo
                  = [fila_historial nuevo (Some (usr_usuario usr))]).
  { unfold left_join_usuarios. cbn [men_id_emisor nuevo].
    destruct (filter_nodup_uno usr_id_usuario u us Hpk) as [E | (usr' & E)].
    - assert (Hin : In usr (filter (fun x => usr_id_usuario x =? u) us)).
      { apply filter_In. split; [exact Husr | now apply Z.eqb_eq]. }
      rewrite E in Hin. destruct Hin.
    - assert (Hin : In usr (filter (fun x => usr_id_usuario x =? u) us)).
      { apply filter_In. split; [exact Husr | now apply Z.eqb_eq]. }
      rewrite E in Hin. destruct Hin as [<- | []]. rewrite E. reflexivity. }
  rewrite Hjoin.
  rewrite order_by_desc_snoc.
  2:{ intros y Hy. destruct (flat_map_left_join us ms Hpk) as [_ Hfilas].
      destruct (Hfilas y Hy) as (m & s & Hm & ->).
      apply filter_In in Hm as [Hm _]. cbn. now apply Hid. }
  change (firstn 50 (?x :: ?l)) with (x :: firstn 49 l).
  cbn [rev]. f_equal. apply rev_firstn_skipn.
Qed.

End Enviar_y_leer.

(** Ana writes to room 7, which has 52 messages: the history is then the
    last 49 of the 50 she saw before, and her message. *)
Lemma manejar_envio_mensaje_luego_api_messages_ejemplo :
  exists w1 antes,
    atender (manejar_envio_mensaje tabla_ascii ana
               {| data_room_type := PyStr (lit "room"); data_room_id := PyInt 7;
                  data_body := PyStr (lit " hola ") |}) mundo_historial = (Ret tt, w1)
    /\ fst (atender (api_messages tabla_ascii ana (Some (lit "room")) (Some (lit "7")))
                    mundo_historial)
       = Ret (jsonify_filas antes)
    /\ fst (atender (api_messages tabla_ascii ana (Some (lit "room")) (Some (lit "7"))) w1)
       = Ret (jsonify_filas
                (skipn (List.length antes - 49) antes ++
                 [ {| h_id_mensaje := 53; h_contenido := lit "hola"; h_fecha_envio := 100;
                      h_es_sistema := false; h_tipo_archivo := None;
                      h_sender := Some (lit "ana") |} ])).
Proof.
  apply (manejar_envio_mensaje_luego_api_messages tabla_ascii ana
           {| data_room_type := PyStr (lit "room"); data_room_id := PyInt 7;
              data_body := PyStr (lit " hola ") |} (u := 1) (rid := 7) (raw := lit " hola ")
           (lit "7")
           {| usr_id_usuario := 1; usr_usuario := lit "ana"; usr_contrasena := [] |}
           mundo_historial).
  - reflexivity.
  - reflexivity.
  - reflexivity.
  - discriminate.
  - reflexivity.
  - reflexivity.
  - eexists. split; [left; reflexivity | split; reflexivity].
  - reflexivity.
  - reflexivity.
  - intros m Hm. apply in_map_iff in Hm as (i & <- & Hi). apply in_seq in Hi.
    cbn [men_id_mensaje]. cbn. lia.
  - repeat constructor; simpl; intuition discriminate.
  - left. reflexivity.
  - reflexivity.
Defined.

(** ** The chat page *)

Section Orden_general.
Variable A : Type.
Variable leb : A -> A -> bool.

Lemma insertar_orden_perm (x : A) (l : list A) :
  Permutation (x :: l) (insertar_orden leb x l).
Proof.
  induction l as [|y l IH]; simpl; [apply Permutation_refl|].
  destruct (leb x y); [apply Permutation_refl|].
  apply perm_trans with (y :: x :: l); [apply perm_swap | now apply perm_skip].
Qed.

Lemma order_by_perm (l : list A) : Permutation l (order_by leb l).
Proof.
  induction l as [|x l IH]; simpl; [apply Permutation_refl|].
  apply perm_trans with (x :: order_by leb l); [now apply perm_skip|].
  apply insertar_orden_perm.
Qed.

Hypothesis leb_total : forall a b, leb a b = false -> leb b a = true.

Lemma insertar_orden_sorted (x : A) (l : list A) :
  Sorted (fun a b => leb a b = true) l ->
  Sorted (fun a b => leb a b = true) (insertar_orden leb x l).
Proof.
  induction l as [|y l IH]; simpl; intro Hs.
  - repeat constructor.
  - destruct (leb x y) eqn:E.
    + constructor; [exact Hs | now constructor].
    + inversion Hs as [|y' l' Hs' Hhd]; subst.
      constructor; [now apply IH|].
      destruct l as [|z l]; simpl.
      * constructor. now apply leb_total.
      * destruct (leb x z); constructor; [now apply leb_total|].
        now inversion Hhd.
Qed.

Lemma order_by_sorted (l : list A) : Sorted (fun a b => leb a b = true) (order_by leb l).
Proof.
  induction l as [|x l IH]; simpl; [constructor | now apply insertar_orden_sorted].
Qed.

End Orden_general.

(** Among rows with distinct keys, at most one passes a test that fixes the
    key. *)
Lemma filter_clave_unica (A K : Type) (key : A -> K) (f : A -> bool) (k : K) (l : list A) :
  NoDup (map key l) ->
  (forall x, f x = true -> key x = k) ->
  filter f l = [] \/ exists x, filter f l = [x].
Proof.
  intros Hnd Hf. induction l as [|x l IH]; simpl; [now left|].
  inversion Hnd as [|k0 ks Hnotin Hnd']; subst.
  destruct (f x) eqn:E; [|now apply IH].
  right. exists x. f_equal.
  destruct (filter f l) as [|y l'] eqn:E'; [reflexivity|].
  exfalso. apply Hnotin.
  assert (Hy : In y (filter f l)) by (rewrite E'; now left).
  apply filter_In in Hy as [Hy1 Hy2].
  rewrite (Hf x E), <- (Hf y Hy2). now apply in_map.
Qed.


Section Pagina.
Variable col_cmp : str -> str -> comparison.


(** The join of [chat], before the ORDER BY. *)
Lemma salas_chat_in (u : Z) (db : DB) (f : FilaSala) :
  In f (select_salas_chat col_cmp u db)
  <-> exists s, In s (filas (Salas db)) /\ es_miembro u (sala_id_sala s) db
                /\ f = fila_de_sala s.
Proof.
  unfold select_salas_chat. split.
  - intro H. apply (Permutation_in _ (Permutation_sym (order_by_perm _ _))) in H.
    apply in_flat_map in H as (s & Hs & Hf).
    apply in_map_iff in Hf as (m & <- & Hm).
    apply filter_In in Hm as [Hm Hb]. apply andb_prop in Hb as [H1 H2].
    apply Z.eqb_eq in H1, H2.
    exists s. repeat split; [exact Hs|]. exists m. auto.
  - intros (s & Hs & (m & Hm & H1 & H2) & ->).
    apply (Permutation_in _ (order_by_perm _ _)).
    apply in_flat_map. exists s. split; [exact Hs|].
    apply in_map_iff. exists m. split; [reflexivity|].
    apply filter_In. split; [exact Hm|].
    apply andb_true_intro. split; now apply Z.eqb_eq.
Qed.

Lemma salas_chat_nodup (u : Z) (db : DB) :
  NoDup (map sala_id_sala (filas (Salas db))) ->
  NoDup (map (fun m => (mie_id_sala m, mie_id_usuario m)) (filas (Miembros_Sala db))) ->
  NoDup (map fsala_id (select_salas_chat col_cmp u db)).
Proof.
  intros Hs Hm. unfold select_salas_chat.
  apply (Permutation_NoDup (Permutation_map fsala_id (order_by_perm _ _))).
  induction (filas (Salas db)) as [|s l IH]; simpl; [constructor|].
  inversion Hs as [|k ks Hnotin Hs']; subst.
  rewrite map_app. specialize (IH Hs').
  assert (Hotras : forall i,
            In i (map fsala_id
                    (flat_map (fun s0 =>
                       map (fun _ => {| fsala_id := sala_id_sala s0;
                                        fsala_nombre := sala_nombre_sala s0;
                                        fsala_codigo := sala_codigo s0;
                                        fsala_id_creador := sala_id_creador s0 |})
                           (filter (fun m => (mie_id_sala m =? sala_id_sala s0)
                                             && (mie_id_usuario m =? u))
                                   (filas (Miembros_Sala db)))) l)) ->
            In i (map sala_id_sala l)).
  { intros i Hi. apply in_map_iff in Hi as (f & <- & Hf).
    apply in_flat_map in Hf as (s0 & Hs0 & Hf).
    apply in_map_iff in Hf as (m & <- & _). simpl. now apply in_map. }
  destruct (@filter_clave_unica _ _ (fun m => (mie_id_sala m, mie_id_usuario m))
              (fun m => (mie_id_sala m =? sala_id_sala s) && (mie_id_usuario m =? u))
              (sala_id_sala s, u) (filas (Miembros_Sala db)) Hm) as [E | (m & E)].
  - intros x Hx. apply andb_prop in Hx as [H1 H2]. apply Z.eqb_eq in H1, H2. congruence.
  - rewrite E. exact IH.
  - rewrite E. simpl. constructor; [|exact IH].
    intro Hin. apply Hnotin. now apply Hotras.
Qed.

(** Property X18.  The chat page lists the rooms of the user.  For a logged-in user the
    view renders [chat.html] with the name and the id of the session and
    the rows of a single SELECT, and changes nothing; a row is listed
    exactly when it is the row of a room of which the user is a member;
    when the room ids are a primary key and no membership is recorded
    twice, no room is listed twice; and for a collation that orders any two
    strings, the rows are in the order of name, then code. *)
Theorem chat_lista_las_salas_del_usuario (ses : Session) (u : Z) (n : str) (w : World) :
  ses_user_id ses = Some u ->
  ses_username ses = Some n ->
  exists rooms,
    atender (chat col_cmp ses) w
      = (Ret (render_template "chat.html" (Some n) (Some u) rooms),
         con_sql_log (sql_log w ++ [SQL_SELECT_SALAS_CHAT]) (en_reposo w))
    /\ (forall f, In f rooms
                  <-> exists s, In s (filas (Salas (confirmada w)))
                                /\ es_miembro u (sala_id_sala s) (confirmada w)
                                /\ f = fila_de_sala s)
    /\ (NoDup (map sala_id_sala (filas (Salas (confirmada w)))) ->
        NoDup (map (fun m => (mie_id_sala m, mie_id_usuario m))
                   (filas (Miembros_Sala (confirmada w)))) ->
        NoDup (map fsala_id rooms))
    /\ ((forall a b, col_cmp a b = CompOpp (col_cmp b a)) ->
        Sorted (fun a b => fila_sala_leb col_cmp a b = true) rooms).
Proof.
  intros Hu Hn. exists (select_salas_chat col_cmp u (confirmada w)).
  split; [|split; [|split]].
  - unfold chat, session_user_id. rewrite Hu, Hn. desplegar. reflexivity.
  - intro f. apply salas_chat_in.
  - apply salas_chat_nodup.
  - intro Hop. unfold select_salas_chat. apply order_by_sorted.
    intros a b. unfold fila_sala_leb.
    rewrite (Hop (fsala_nombre b) (fsala_nombre a)),
            (Hop (fsala_codigo b) (fsala_codigo a)).
    destruct (col_cmp (fsala_nombre a) (fsala_nombre b));
      destruct (col_cmp (fsala_codigo a) (fsala_codigo b)); simpl; congruence.
Qed.

End Pagina.

(** Ana's chat page in the example world: room 7, once. *)
Lemma chat_lista_las_salas_del_usuario_ejemplo :
  exists rooms,
    atender (chat (fun _ _ => Eq) ana) mundo_ejemplo
      = (Ret (render_template "chat.html" (Some (lit "ana")) (Some 1) rooms),
         con_sql_log (sql_log mundo_ejemplo ++ [SQL_SELECT_SALAS_CHAT])
                     (en_reposo mundo_ejemplo))
    /\ map fsala_id rooms = [7].
Proof.
  destruct (chat_lista_las_salas_del_usuario (fun _ _ => Eq) ana (u := 1) (n := lit "ana")
              mundo_ejemplo eq_refl eq_refl) as (rooms & Hrun & _).
  exists rooms. split; [exact Hrun|].
  apply (f_equal fst) in Hrun. vm_compute in Hrun.
  injection Hrun as <-. reflexivity.
Defined.

(** ** The requests that only read *)

Lemma for_each_join_room_marco (A : Type) (sid : Z) (f : A -> str) (l : list A) (w : World) :
  confirmada (snd (for_each l (fun x => join_room sid (f x)) w)) = confirmada w
  /\ emitidos (snd (for_each l (fun x => join_room sid (f x)) w)) = emitidos w
  /\ flashes (snd (for_each l (fun x => join_room sid (f x)) w)) = flashes w.
Proof.
  revert w. induction l as [|x l IH]; intro w; simpl; [repeat split|].
  unfold bind, join_room at 1. simpl.
  exact (IH (con_sio_rooms (sio_rooms w ++ [(sid, f x)]) w)).
Qed.

Section Lectura.
Variable U : Unicode.
Variable C : Collation.
Variable sha256_hexdigest : bytes -> str.
Variable col_cmp : str -> str -> comparison.

(** Property X19.  The pages and the connection write nothing.  Whatever the session and
    the form, [index], [login], [chat] and the [connect] handler leave the
    committed database as it was and send no event; [index] sends no
    statement either, and [chat] and [connect] flash nothing. *)
Theorem paginas_no_escriben (w : World) :
  (forall ses, snd (atender (index_view ses) w) = en_reposo w)
  /\ (forall ses metodo form_username form_password,
        confirmada (snd (atender (login U C sha256_hexdigest ses metodo
                                    form_username form_password) w)) = confirmada w
        /\ emitidos (snd (atender (login U C sha256_hexdigest ses metodo
                                     form_username form_password) w)) = emitidos w)
  /\ (forall ses,
        confirmada (snd (atender (chat col_cmp ses) w)) = confirmada w
        /\ emitidos (snd (atender (chat col_cmp ses) w)) = emitidos w
        /\ flashes (snd (atender (chat col_cmp ses) w)) = flashes w)
  /\ (forall ses sid,
        confirmada (snd (atender (manejar_conexion ses sid) w)) = confirmada w
        /\ emitidos (snd (atender (manejar_conexion ses sid) w)) = emitidos w
        /\ flashes (snd (atender (manejar_conexion ses sid) w)) = flashes w).
Proof.
  split; [|split; [|split]].
  - intro ses. unfold index_view, atender, ret. now destruct (ses_user_id ses).
  - intros ses metodo fu fp. unfold login.
    destruct (String.eqb metodo "POST"); [|split; reflexivity].
    desplegar. cbn.
    destruct (hd_error _) as [user|]; [|split; reflexivity].
    destruct (verificar_contrasena_puro sha256_hexdigest
                (strip U (get_default fp)) (usr_contrasena user)) as (r & Hr & Hcasos).
    rewrite Hr. destruct Hcasos as [-> | [-> | ->]]; split; reflexivity.
  - intro ses. unfold chat, session_user_id. desplegar.
    destruct (ses_user_id ses); [|repeat split].
    destruct (ses_username ses); repeat split.
  - intros ses sid. unfold manejar_conexion.
    destruct (session_get_user_id ses) as [u|]; [|repeat split].
    desplegar. cbn.
    match goal with
    | |- context [for_each ?l ?b ?w0] =>
        pose proof (for_each_join_room_marco sid
                      (fun m => nombre_sala (lit "room") (mie_id_sala m)) l w0) as Hm;
        unfold join_room in Hm;
        destruct (for_each l b w0) as [r w1]
    end.
    exact Hm.
Qed.

End Lectura.

(** ** The database stays coherent *)

Lemma NoDup_snoc (A : Type) (l : list A) (x : A) :
  ~ In x l -> NoDup l -> NoDup (l ++ [x]).
Proof.
  intros Hx Hl. apply (Permutation_NoDup (Permutation_cons_append l x)).
  now constructor.
Qed.

Lemma nodup_map_filter_clave (A K : Type) (key : A -> K) (f : A -> bool) (l : list A) :
  NoDup (map key l) -> NoDup (map key (filter f l)).
Proof.
  induction l as [|x l IH]; simpl; intro Hnd; [constructor|].
  inversion Hnd as [|k ks Hnotin Hnd']; subst.
  destruct (f x); simpl; [|now apply IH].
  constructor; [|now apply IH].
  intro Hin. apply Hnotin. apply in_map_iff in Hin as (y & Hy & Hin).
  apply filter_In in Hin as [Hin _]. rewrite <- Hy. now apply in_map.
Qed.

Lemma hd_error_vacio (A : Type) (l : list A) : hd_error l = None -> l = [].
Proof. destruct l; [reflexivity | discriminate]. Qed.

Lemma filter_vacio_falso (A : Type) (f : A -> bool) (l : list A) (x : A) :
  filter f l = [] -> In x l -> f x = false.
Proof.
  intros E Hin. destruct (f x) eqn:Hf; [|reflexivity].
  assert (Hx : In x (filter f l)) by (apply filter_In; now split).
  rewrite E in Hx. destruct Hx.
Qed.

Section Claves.
Variable F : Type.
Variable key : F -> Z.

Lemma clave_primaria_insertar (fila : Z -> F) (t : Tabla F) :
  (forall id, key (fila id) = id) ->
  clave_primaria key t -> clave_primaria key (fst (insertar fila t)).
Proof.
  intros Hk [Hnd Hlt]. unfold clave_primaria, insertar. cbn. split.
  - rewrite map_app. cbn. rewrite Hk. apply NoDup_snoc; [|exact Hnd].
    intro Hin. apply in_map_iff in Hin as (x & Hx & Hin).
    specialize (Hlt x Hin). lia.
  - intros x Hx. apply in_app_or in Hx as [Hx | [<- | []]].
    + specialize (Hlt x Hx). lia.
    + rewrite Hk. lia.
Qed.

Lemma clave_primaria_borrar (donde : F -> bool) (t : Tabla F) :
  clave_primaria key t -> clave_primaria key (borrar donde t).
Proof.
  intros [Hnd Hlt]. unfold clave_primaria, borrar. cbn. split.
  - now apply nodup_map_filter_clave.
  - intros x Hx. apply filter_In in Hx as [Hx _]. now apply Hlt.
Qed.

End Claves.

Section Coherencia.
Variable C : Collation.

(** Each write of the application, made after its test, keeps the
    database coherent. *)
Lemma escribe_coherente (db db' : DB) : coherente db -> escribe C db db' -> coherente db'.
Proof.
  intros [Hpu Hps Hpm Hpe Hus Hco Hec Hms Hmb] Hesc.
  destruct Hesc as [usuario hash Hsel | codigo nombre u f1 f2 Hcod Hsel | sala u f Hin Hsel
                   | rid em contenido f sis tipo datos | rid | rid u].
  - unfold insert_usuario, insertar. cbn. constructor; cbn; try assumption.
    + now apply (@clave_primaria_insertar _ usr_id_usuario
                    (fun id => {| usr_id_usuario := id; usr_usuario := usuario;
                                 usr_contrasena := hash |})).
    + rewrite map_app. cbn. apply NoDup_snoc; [|exact Hus].
      intro Hx. apply in_map_iff in Hx as (x & Hx & Hxin).
      unfold select_usuario in Hsel.
      pose proof (filter_vacio_falso _ _ x Hsel Hxin) as Hf. cbn in Hf.
      rewrite Hx, col_eq_refl in Hf. discriminate.
  - unfold insert_miembro, insert_sala, insertar. cbn. constructor; cbn; try assumption.
    + now apply (@clave_primaria_insertar _ sala_id_sala
                    (fun id => {| sala_id_sala := id; sala_codigo := codigo;
                                 sala_nombre_sala := nombre; sala_id_creador := u;
                                 sala_fecha_creacion := f1 |})).
    + now apply (@clave_primaria_insertar _ mie_id
                    (fun id => {| mie_id := id; mie_id_sala := auto_increment (Salas db);
                                 mie_id_usuario := u; mie_fecha_union := f2 |})).
    + rewrite map_app. cbn. apply NoDup_snoc; [|exact Hco].
      intro Hx. apply in_map_iff in Hx as (x & Hx & Hxin).
      unfold select_salas_codigo in Hsel.
      pose proof (filter_vacio_falso _ _ x Hsel Hxin) as Hf. cbn in Hf.
      rewrite Hx, col_eq_refl in Hf. discriminate.
    + intros s Hs. apply in_app_or in Hs as [Hs | [<- | []]]; [now apply Hec | exact Hcod].
    + intros m Hm. apply in_app_or in Hm as [Hm | [<- | []]].
      * specialize (Hms m Hm). lia.
      * cbn. lia.
    + rewrite map_app. cbn. apply NoDup_snoc; [|exact Hmb].
      intro Hx. apply in_map_iff in Hx as (x & Hx & Hxin).
      specialize (Hms x Hxin). injection Hx as Hx1 Hx2. lia.
  - unfold insert_miembro, insertar. cbn. constructor; cbn; try assumption.
    + now apply (@clave_primaria_insertar _ mie_id
                    (fun id => {| mie_id := id; mie_id_sala := sala_id_sala sala;
                                 mie_id_usuario := u; mie_fecha_union := f |})).
    + intros m Hm. apply in_app_or in Hm as [Hm | [<- | []]]; [now apply Hms|].
      cbn. destruct Hps as [_ Hlt]. now apply Hlt.
    + rewrite map_app. cbn. apply NoDup_snoc; [|exact Hmb].
      intro Hx. apply in_map_iff in Hx as (x & Hx & Hxin).
      unfold select_miembro in Hsel.
      pose proof (filter_vacio_falso _ _ x Hsel Hxin) as Hf. cbn in Hf.
      injection Hx as Hx1 Hx2. rewrite Hx1, Hx2, !Z.eqb_refl in Hf. discriminate.
  - unfold insert_mensaje, insertar. cbn. constructor; cbn; try assumption.
    now apply (@clave_primaria_insertar _ men_id_mensaje
                  (fun id => {| men_id_mensaje := id; men_id_sala := rid;
                               men_id_emisor := em; men_contenido := contenido;
                               men_fecha_envio := f; men_es_sistema := sis;
                               men_tipo_archivo := tipo; men_archivo_datos := datos |})).
  - unfold delete_sala. cbn. constructor; cbn; try assumption.
    + now apply @clave_primaria_borrar.
    + now apply @clave_primaria_borrar.
    + now apply @clave_primaria_borrar.
    + now apply nodup_map_filter_clave.
    + intros s Hs. apply filter_In in Hs as [Hs _]. now apply Hec.
    + intros m Hm. apply filter_In in Hm as [Hm _]. now apply Hms.
    + now apply nodup_map_filter_clave.
  - unfold delete_miembro. cbn. constructor; cbn; try assumption.
    + now apply @clave_primaria_borrar.
    + intros m Hm. apply filter_In in Hm as [Hm _]. now apply Hms.
    + now apply nodup_map_filter_clave.
Qed.

Lemma efecto_coherente (db db' : DB) : coherente db -> efecto C db db' -> coherente db'.
Proof.
  intros H He. induction He as [db | db1 db2 db3 Hesc _ IH]; [exact H|].
  apply IH. now apply (escribe_coherente H).
Qed.

End Coherencia.

Section Escrituras.
Variable U : Unicode.
Variable C : Collation.
Variable sha256_hexdigest : bytes -> str.

(** [hashear_contrasena] returns a hash or raises [ValueError], and moves
    only the source of randomness. *)
Lemma hashear_contrasena_marco (contrasena : str) (w : World) :
  exists r, hashear_contrasena sha256_hexdigest contrasena w
            = (r, con_rnd_pos (rnd_pos w + 16) w)
            /\ ((exists h, r = Ret h) \/ r = Raise ValueError).
Proof.
  unfold hashear_contrasena. unfold bind at 1.
  destruct (token_hex_run 16 w) as (salt & -> & _ & _).
  unfold bind, encode. destruct (encode_utf8 (salt ++ contrasena)).
  - eexists. split; [reflexivity | left; eexists; reflexivity].
  - eexists. split; [reflexivity | now right].
Qed.

Lemma register_efecto (metodo : string) (form_username form_password : option str)
    (w : World) :
  efecto C (confirmada w)
    (confirmada (snd (atender (register U C sha256_hexdigest metodo
                                 form_username form_password) w))).
Proof.
  unfold register. destruct (String.eqb metodo "POST"); [|apply ef_nada].
  destruct (strip U (get_default form_username)) as [|c us] eqn:Hus; [apply ef_nada|].
  destruct (strip U (get_default form_password)) as [|c' ps] eqn:Hps; [apply ef_nada|].
  cbn [orb]. desplegar. cbn.
  destruct (hd_error (select_usuario C (c :: us) (confirmada w))) eqn:Hsel; cbn;
    [apply ef_nada|].
  apply hd_error_vacio in Hsel.
  match goal with
  | |- context [hashear_contrasena _ ?p ?w0] =>
      destruct (hashear_contrasena_marco p w0) as (r & -> & [(h & ->) | ->])
  end; cbn; [|apply ef_nada].
  eapply ef_paso; [apply (esc_usuario C (confirmada w) (c :: us) h Hsel) | apply ef_nada].
Qed.

Lemma room_create_efecto (ses : Session) (form_name : option str) (fuel : nat) (w : World) :
  efecto C (confirmada w)
    (confirmada (snd (atender (room_create U C ses form_name fuel) w))).
Proof.
  pose proof (generar_codigo_sala_marco C fuel (en_reposo w)) as Hmarco.
  destruct (generar_codigo_sala_casos C fuel (en_reposo w)) as [_ Hcasos].
  unfold room_create, requiere_login, session_user_id, atender.
  destruct (ses_user_id ses) as [u|]; [|apply ef_nada].
  unfold bind at 1, ret at 1. unfold bind at 1.
  fold (en_reposo w).
  destruct (generar_codigo_sala C fuel (en_reposo w)) as [r wg].
  cbn [fst snd] in Hcasos, Hmarco.
  destruct Hmarco as (H1 & H2 & H3 & H4 & H5 & H6 & H7).
  destruct r as [codigo | e | ]; [| destruct Hcasos | cbn; rewrite H2; apply ef_nada].
  destruct Hcasos as (Hcod & Hlibre & _).
  desplegar. cbn. rewrite H1. cbn.
  eapply ef_paso.
  - apply (esc_sala C (confirmada w) codigo
             (match strip U (get_default form_name) with
              | [] => lit "Sala sin nombre"
              | _ :: _ => strip U (get_default form_name)
              end) u (utc_src wg (utc_pos wg)) (utc_src wg (S (utc_pos wg))) Hcod).
    unfold select_salas_codigo. apply filter_todo_falso.
    intros s Hs. now apply Hlibre.
  - eapply ef_paso; [apply esc_mensaje | apply ef_nada].
Qed.

Lemma room_join_efecto (ses : Session) (form_code : option str) (w : World) :
  efecto C (confirmada w) (confirmada (snd (atender (room_join U C ses form_code) w))).
Proof.
  unfold room_join. desplegar.
  destruct (ses_user_id ses) as [u|]; [|apply ef_nada].
  destruct (negb _ || negb _); cbn; [apply ef_nada|].
  destruct (hd_error (select_salas_codigo C _ (confirmada w))) as [sala|] eqn:Hs; cbn;
    [|apply ef_nada].
  destruct (hd_error (select_miembro (sala_id_sala sala) u (confirmada w))) eqn:Hm; cbn;
    [apply ef_nada|].
  apply hd_error_vacio in Hm. unfold select_salas_codigo in Hs.
  apply hd_filter_in in Hs as [Hin _].
  eapply ef_paso; [apply (esc_miembro C (confirmada w) sala u (utc_src w (utc_pos w)) Hin Hm)|].
  eapply ef_paso; [apply esc_mensaje | apply ef_nada].
Qed.

Lemma room_delete_efecto (ses : Session) (form_room_id : option str) (w : World) :
  efecto C (confirmada w) (confirmada (snd (atender (room_delete U ses form_room_id) w))).
Proof.
  destruct (ses_user_id ses) as [u|] eqn:Hu.
  - rewrite (room_delete_casos U ses form_room_id w Hu).
    destruct (negb _); [apply ef_nada|].
    destruct (py_int U _) as [rid|]; [|apply ef_nada].
    destruct (hd_error _) as [sala|]; [|apply ef_nada].
    destruct (negb _); [apply ef_nada|].
    eapply ef_paso; [apply esc_delete_sala | apply ef_nada].
  - unfold room_delete, requiere_login, atender. rewrite Hu. apply ef_nada.
Qed.

Lemma room_leave_efecto (ses : Session) (form_room_id : option str) (w : World) :
  efecto C (confirmada w) (confirmada (snd (atender (room_leave U ses form_room_id) w))).
Proof.
  destruct (ses_user_id ses) as [u|] eqn:Hu.
  - rewrite (room_leave_casos U ses form_room_id w Hu).
    destruct (negb _); [apply ef_nada|].
    destruct (py_int U _) as [rid|]; [|apply ef_nada].
    destruct (hd_error _) as [m|]; [|apply ef_nada].
    eapply ef_paso; [apply (esc_delete_miembro C (confirmada w) rid u)|].
    eapply ef_paso; [apply esc_mensaje | apply ef_nada].
  - unfold room_leave, requiere_login, atender. rewrite Hu. apply ef_nada.
Qed.

Lemma upload_media_efecto (ses : Session) (form_room_id : option str)
    (files_file : option FileStorage) (w : World) :
  efecto C (confirmada w)
    (confirmada (snd (atender (upload_media U ses form_room_id files_file) w))).
Proof.
  unfold upload_media. desplegar.
  destruct (ses_user_id ses) as [u|]; [|apply ef_nada].
  destruct (negb _); cbn; [apply ef_nada|].
  destruct (py_int U _) as [rid|]; cbn; [|apply ef_nada].
  destruct (hd_error _) as [m|]; cbn; [|apply ef_nada].
  destruct files_file as [file|]; [|apply ef_nada].
  unfold archivo_permitido. desplegar.
  destruct (fs_filename file) as [|c s]; [apply ef_nada|].
  destruct (contiene punto (c :: s)); [|apply ef_nada].
  destruct (rsplit1 punto (c :: s)) as [|x0 [|ext l]]; cbn; try apply ef_nada.
  destruct (negb _); cbn; [apply ef_nada|].
  eapply ef_paso; [apply esc_mensaje | apply ef_nada].
Qed.

Lemma manejar_envio_mensaje_efecto (ses : Session) (data : Data) (w : World) :
  efecto C (confirmada w)
    (confirmada (snd (atender (manejar_envio_mensaje U ses data) w))).
Proof.
  unfold manejar_envio_mensaje.
  destruct (py_int_val_puro U (data_room_id data)) as (ri & Hint & Hago).
  destruct (session_get_user_id ses) as [u|]; [|apply ef_nada].
  destruct (body_casos U (data_body data)) as [(raw & Hbody & Hb) | (_ & [Hb | Hb])];
    rewrite Hb.
  2:{ desplegar. cbn. rewrite orb_true_r. apply ef_nada. }
  2:{ apply ef_nada. }
  unfold atender, bind at 1, ret at 1.
  destruct (py_ne_str _ _ || negb _ || _); [apply ef_nada|].
  unfold bind at 1. rewrite Hint.
  destruct ri as [rid | e | ]; [ | apply ef_nada | congruence].
  desplegar. cbn.
  destruct (hd_error _) as [m|]; cbn; [|apply ef_nada].
  eapply ef_paso; [apply esc_mensaje | apply ef_nada].
Qed.

(** Property X20.  The insertions behind a test keep the database coherent.  From a
    coherent database (ids that are keys, one user per name, one room per
    code and every code six digits, memberships of rooms numbered below the
    counter, no membership twice), [register], [room_create] and
    [room_join], on any session and any form, commit a coherent database:
    the SELECT each makes before its INSERT is enough. *)
Theorem altas_conservan_coherencia (w : World) :
  coherente (confirmada w) ->
  (forall metodo form_username form_password,
     coherente (confirmada (snd (atender (register U C sha256_hexdigest metodo
                                            form_username form_password) w))))
  /\ (forall ses form_name fuel,
        coherente (confirmada (snd (atender (room_create U C ses form_name fuel) w))))
  /\ (forall ses form_code,
        coherente (confirmada (snd (atender (room_join U C ses form_code) w)))).
Proof.
  intro H. split; [|split]; intros; apply (efecto_coherente (C := C) H).
  - apply register_efecto.
  - apply room_create_efecto.
  - apply room_join_efecto.
Qed.

(** Property X21.  The deletions and the messages keep the database coherent: from a
    coherent database, [room_delete], [room_leave], [upload_media] and the
    [send_message] handler, on any session and any input, commit a coherent
    database. *)
Theorem bajas_y_mensajes_conservan_coherencia (w : World) :
  coherente (confirmada w) ->
  (forall ses form_room_id,
     coherente (confirmada (snd (atender (room_delete U ses form_room_id) w))))
  /\ (forall ses form_room_id,
        coherente (confirmada (snd (atender (room_leave U ses form_room_id) w))))
  /\ (forall ses form_room_id files_file,
        coherente (confirmada (snd (atender (upload_media U ses form_room_id files_file) w))))
  /\ (forall ses data,
        coherente (confirmada (snd (atender (manejar_envio_mensaje U ses data) w)))).
Proof.
  intro H. split; [|split; [|split]]; intros; apply (efecto_coherente (C := C) H).
  - apply room_delete_efecto.
  - apply room_leave_efecto.
  - apply upload_media_efecto.
  - apply manejar_envio_mensaje_efecto.
Qed.

End Escrituras.

(** The database of the example is coherent. *)
Lemma db_ejemplo_coherente : coherente db_ejemplo.
Proof.
  constructor; unfold clave_primaria; cbn.
  - split; [repeat constructor; simpl; intuition discriminate|].
    intros x [<- | [<- | []]]; reflexivity.
  - split; [repeat constructor; simpl; intuition discriminate|].
    intros x [<- | []]; reflexivity.
  - split; [repeat constructor; simpl; intuition discriminate|].
    intros x [<- | []]; reflexivity.
  - split; [constructor | intros x []].
  - repeat constructor; simpl; intuition discriminate.
  - repeat constructor; simpl; intuition discriminate.
  - intros s [<- | []]. reflexivity.
  - intros m [<- | []]. reflexivity.
  - repeat constructor; simpl; intuition discriminate.
Qed.

(** Beto joins room 7 of the example, and the database is still coherent. *)
Lemma altas_conservan_coherencia_ejemplo :
  coherente (confirmada (snd (atender (room_join tabla_ascii col_exacta beto
                                         (Some (lit "123456"))) mundo_ejemplo)))
  /\ map mie_id_usuario
       (filas (Miembros_Sala (confirmada (snd (atender
          (room_join tabla_ascii col_exacta beto (Some (lit "123456"))) mundo_ejemplo)))))
     = [1; 2].
Proof.
  split; [|vm_compute; reflexivity].
  destruct (altas_conservan_coherencia tabla_ascii col_exacta digest_ejemplo
              mundo_ejemplo db_ejemplo_coherente) as (_ & _ & Hjoin).
  exact (Hjoin beto (Some (lit "123456"))).
Defined.

(** Ana deletes room 7 of the example, and the database is still coherent. *)
Lemma bajas_y_mensajes_conservan_coherencia_ejemplo :
  coherente (confirmada (snd (atender (room_delete tabla_ascii ana (Some (lit "7")))
                                      mundo_ejemplo)))
  /\ filas (Salas (confirmada (snd (atender (room_delete tabla_ascii ana (Some (lit "7")))
                                            mundo_ejemplo)))) = [].
Proof.
  split; [|vm_compute; reflexivity].
  destruct (bajas_y_mensajes_conservan_coherencia tabla_ascii col_exacta
              mundo_ejemplo db_ejemplo_coherente) as (Hdel & _).
  exact (Hdel ana (Some (lit "7"))).
Defined.
